(** * A shallow embedding of the CMS service layer

    The development follows the layering of the Python sources:

    - [Py]            the built-in string operations the services call
                      ([str.lower], [re.sub] on the two patterns in use,
                      [str.strip], slicing, [datetime.isoformat]);
    - [Exceptions]    [cms/exceptions/__init__.py];
    - [ErrorManager]  [cms/utils/error_manager.py];
    - [User], [Category], [Article]   [cms/models/__init__.py];
    - [Repositories]  [cms/repositories/__init__.py];
    - [Services]      [cms/services/__init__.py];
    - [Controllers]   the error mapping of [cms/controllers/__init__.py];
    - [Spec]          the specification's own wording of the properties;
    - [Fixtures]      sample data;
    - [InputValidator], [UnicodeValidator]
                      [cms/validators/input_validator.py];
    - [UserStore], [Registration], [Removal], [Pages]
                      the rest of the user repository, registration and
                      password change, deletion, and the pages served by
                      slug;
    - [Samples]       more sample data.

    A Python [str] is a Rocq [string] whose characters are the code points
    U+0000..U+00FF; on that range the character classes below are the ones
    of CPython's [re] and [str] methods.  Code points above U+00FF need the
    Unicode tables; only [UnicodeValidator] reads them, with the table of
    decimal digits as a parameter.  The libraries (bleach, bcrypt,
    marshmallow's address check) are parameters as well; a library call
    that can raise answers with an [attempt]. *)

From Stdlib Require Import ZArith NArith Ascii String List Bool Lia.
From stdpp Require Import base decidable option list strings pretty.

Local Open Scope N_scope.

(* ================================================================== *)
(** * Python built-ins *)
(* ================================================================== *)

Module Py.

(** [ord(c)] *)
Definition ord (c : ascii) : N := N_of_ascii c.

Definition between (lo hi : N) (c : ascii) : bool :=
  (lo <=? ord c) && (ord c <=? hi).

(** [c.isspace()], which is also what [\s] matches in a [str] pattern. *)
Definition isspace (c : ascii) : bool :=
  between 9 13 c || between 28 32 c || (ord c =? 133) || (ord c =? 160).

(** [c.isalnum()]: letters, decimal digits and the other numeric
    characters of the Latin-1 block. *)
Definition isalnum (c : ascii) : bool :=
  between 48 57 c || between 65 90 c || between 97 122 c
  || (ord c =? 170) || between 178 179 c || (ord c =? 181)
  || between 185 186 c || between 188 190 c
  || between 192 214 c || between 216 246 c || between 248 255 c.

(** [\w] in a [str] pattern: [isalnum] or the underscore. *)
Definition is_word (c : ascii) : bool := isalnum c || (ord c =? 95).

Definition hyphen : ascii := "-"%char.
Definition is_hyphen (c : ascii) : bool := ord c =? 45.

(** [c.lower()] for one character. *)
Definition lower_char (c : ascii) : ascii :=
  if between 65 90 c || between 192 214 c || between 216 222 c
  then ascii_of_N (ord c + 32) else c.

(** [s.lower()] *)
Fixpoint lower (s : string) : string :=
  match s with
  | EmptyString => EmptyString
  | String c t => String (lower_char c) (lower t)
  end.

(** [re.sub(p, repl, s)] for a pattern [p] that is a single character
    class: every character the class matches is replaced by [repl]. *)
Fixpoint re_sub_class (cls : ascii -> bool) (repl s : string) : string :=
  match s with
  | EmptyString => EmptyString
  | String c t =>
      if cls c then repl +:+ re_sub_class cls repl t
      else String c (re_sub_class cls repl t)
  end.

(** [re.sub(p, repl, s)] for a pattern [p] of the form [[...]+]: scanning
    from the left, each maximal run of characters of the class is one
    match and is replaced by one [repl].  [in_match] says that the
    character before the current one belonged to a match whose
    replacement has been emitted already. *)
Fixpoint re_sub_plus_from (in_match : bool) (cls : ascii -> bool)
    (repl s : string) : string :=
  match s with
  | EmptyString => EmptyString
  | String c t =>
      if cls c then
        if in_match then re_sub_plus_from true cls repl t
        else repl +:+ re_sub_plus_from true cls repl t
      else String c (re_sub_plus_from false cls repl t)
  end.

Definition re_sub_plus := re_sub_plus_from false.

(** Membership of a character in the argument of [strip]. *)
Fixpoint char_in (c : ascii) (chars : string) : bool :=
  match chars with
  | EmptyString => false
  | String d t => (ord c =? ord d) || char_in c t
  end.

(** [s.lstrip(chars)] *)
Fixpoint lstrip (chars s : string) : string :=
  match s with
  | EmptyString => EmptyString
  | String c t => if char_in c chars then lstrip chars t else s
  end.

(** [s.rstrip(chars)] *)
Fixpoint rstrip (chars s : string) : string :=
  match s with
  | EmptyString => EmptyString
  | String c t =>
      match rstrip chars t with
      | EmptyString => if char_in c chars then EmptyString
                       else String c EmptyString
      | t' => String c t'
      end
  end.

(** [s.strip(chars)] *)
Definition strip (chars s : string) : string := rstrip chars (lstrip chars s).

(** [s.strip()]: whitespace on both sides. *)
Fixpoint lstrip_ws (s : string) : string :=
  match s with
  | EmptyString => EmptyString
  | String c t => if isspace c then lstrip_ws t else s
  end.

Fixpoint rstrip_ws (s : string) : string :=
  match s with
  | EmptyString => EmptyString
  | String c t =>
      match rstrip_ws t with
      | EmptyString => if isspace c then EmptyString else String c EmptyString
      | t' => String c t'
      end
  end.

Definition strip_ws (s : string) : string := rstrip_ws (lstrip_ws s).

(** [s[:n]] *)
Fixpoint slice_to (n : nat) (s : string) : string :=
  match n, s with
  | O, _ => EmptyString
  | _, EmptyString => EmptyString
  | S k, String c t => String c (slice_to k t)
  end.

(** [len(s)] *)
Definition len (s : string) : nat := String.length s.

(** [s[:n]] for an [int] [n]: a negative [n] counts from the end of [s],
    and the slice is empty when [s] has no more than [-n] characters. *)
Definition slice_to_int (n : Z) (s : string) : string :=
  if (0 <=? n)%Z then slice_to (Z.to_nat n) s
  else slice_to (len s - Z.to_nat (- n)) s.

(** Truthiness of a string: [bool(s)]. *)
Definition truthy (s : string) : bool :=
  match s with EmptyString => false | _ => true end.

(** [str(n)] and [f"{n}"] for a non-negative [int]. *)
Definition str_int (n : N) : string := pretty n.

(** ** [datetime] *)

Record datetime := mk_datetime {
  year : N; month : N; day : N;
  hour : N; minute : N; second : N; microsecond : N }.

(** The ranges the [datetime] constructor enforces (the day is only
    bounded by 31 here: the calendar plays no role below). *)
Definition valid_datetime (d : datetime) : Prop :=
  1 <= year d <= 9999 /\ 1 <= month d <= 12 /\ 1 <= day d <= 31 /\
  hour d < 24 /\ minute d < 60 /\ second d < 60 /\ microsecond d < 1000000.

(** [k] zeros. *)
Fixpoint zeros (k : nat) : string :=
  match k with
  | O => EmptyString
  | S k' => String "0"%char (zeros k')
  end.

(** ["%0wd" % n] for a non-negative [n]: the decimal digits of [n], with
    zeros in front up to the width [w]. *)
Definition zero_padded (w : nat) (n : N) : string :=
  let digits := str_int n in
  zeros (w - len digits) +:+ digits.

(** [d.isoformat()] for a naive datetime: the fraction is printed only
    when the microsecond field is not zero. *)
Definition isoformat (d : datetime) : string :=
  zero_padded 4 (year d) +:+ "-" +:+ zero_padded 2 (month d) +:+ "-"
  +:+ zero_padded 2 (day d) +:+ "T" +:+ zero_padded 2 (hour d) +:+ ":"
  +:+ zero_padded 2 (minute d) +:+ ":" +:+ zero_padded 2 (second d)
  +:+ (if microsecond d =? 0 then ""
       else "." +:+ zero_padded 6 (microsecond d)).

(** [d.strftime("%Y%m%d")], for a year of four digits. *)
Definition strftime_Ymd (d : datetime) : string :=
  zero_padded 4 (year d) +:+ zero_padded 2 (month d)
  +:+ zero_padded 2 (day d).

End Py.

(* ================================================================== *)
(** * cms/exceptions *)
(* ================================================================== *)

(** A Python [dict] with string keys, in insertion order. *)
Definition dict := list (string * string).

Fixpoint dict_get (k : string) (d : dict) : option string :=
  match d with
  | [] => None
  | (k', v) :: rest => if decide (k = k') then Some v else dict_get k rest
  end.

Definition dict_keys (d : dict) : list string := map fst d.

Module Exceptions.

(** The exception classes of the application, the built-in [Exception],
    SQLAlchemy's [IntegrityError], and the two built-in classes that the
    password check can raise. *)
Inductive exc_class :=
| Exception | CMSException | ValidationError | AuthenticationError
| AuthorizationError | SecurityException | DatabaseError
| ExternalServiceError | BusinessLogicError | ConfigurationError
| IntegrityError | ValueError | UnicodeEncodeError.

(** [cls.__name__] *)
Definition class_name (c : exc_class) : string :=
  match c with
  | Exception => "Exception"
  | CMSException => "CMSException"
  | ValidationError => "ValidationError"
  | AuthenticationError => "AuthenticationError"
  | AuthorizationError => "AuthorizationError"
  | SecurityException => "SecurityException"
  | DatabaseError => "DatabaseError"
  | ExternalServiceError => "ExternalServiceError"
  | BusinessLogicError => "BusinessLogicError"
  | ConfigurationError => "ConfigurationError"
  | IntegrityError => "IntegrityError"
  | ValueError => "ValueError"
  | UnicodeEncodeError => "UnicodeEncodeError"
  end.

(** [CMSException.__init__(message, details=None)]; [str(e)] is
    [message]. *)
Record exc := mk_exc {
  cls : exc_class;
  message : string;
  details : dict }.

Definition raise_ (c : exc_class) (msg : string) : exc := mk_exc c msg [].

End Exceptions.

(** What a call does: return a value, raise, or run forever. *)
Inductive result (A : Type) :=
| Return (a : A)
| Raise (e : Exceptions.exc)
| Diverge.
Arguments Return {A} a.
Arguments Raise {A} e.
Arguments Diverge {A}.

(** What a library call that always ends does: it answers or it raises. *)
Inductive attempt (A : Type) :=
| Done (a : A)
| Failed (e : Exceptions.exc).
Arguments Done {A} a.
Arguments Failed {A} e.

(* ================================================================== *)
(** * cms/utils/error_manager.py *)
(* ================================================================== *)

Module ErrorManager.

Import Exceptions.

Inductive ErrorSeverity := LOW | MEDIUM | HIGH | CRITICAL.

(** [severity.value] *)
Definition value (s : ErrorSeverity) : string :=
  match s with
  | LOW => "low" | MEDIUM => "medium" | HIGH => "high"
  | CRITICAL => "critical"
  end.

(** What one call of [handle_error] reads from outside the program:
    the clock for the identifier, [str(uuid.uuid4())], and the clock
    again for the timestamp. *)
Record ambient := mk_ambient {
  utcnow_id : Py.datetime;
  uuid4 : string;
  utcnow_ts : Py.datetime }.

Inductive log_level := ERROR | WARNING | INFO.

(** The [extra] dictionary of a log call. *)
Record log_data := mk_log_data {
  ld_error_id : string;
  ld_error_type : string;
  ld_error_message : string;
  ld_severity : string;
  ld_context : dict }.

Record log_record := mk_log_record {
  level : log_level;
  text : string;
  extra : log_data;
  exc_info : bool }.

Definition _generate_error_id (w : ambient) : string :=
  let timestamp := Py.strftime_Ymd (utcnow_id w) in
  let unique_id := Py.slice_to 8 (uuid4 w) in
  "error_" +:+ timestamp +:+ "_" +:+ unique_id.

Definition _log_error (error : exc) (severity : ErrorSeverity)
    (error_id : string) (context : option dict) : log_record :=
  let log_data :=
    mk_log_data error_id (class_name (cls error)) (message error)
      (value severity)
      (match context with Some c => c | None => [] end) in
  let line := "Error " +:+ error_id +:+ ": " +:+ message error in
  match severity with
  | CRITICAL | HIGH => mk_log_record ERROR line log_data true
  | MEDIUM => mk_log_record WARNING line log_data false
  | LOW => mk_log_record INFO line log_data false
  end.

Definition _get_default_message (severity : ErrorSeverity) : string :=
  match severity with
  | LOW => "A minor issue occurred. Please try again."
  | MEDIUM => "An error occurred while processing your request."
  | HIGH => "A serious error occurred. Please contact support."
  | CRITICAL =>
      "A critical system error occurred. Please contact support immediately."
  end.

Definition _get_timestamp (w : ambient) : string :=
  Py.isoformat (utcnow_ts w) +:+ "Z".

(** [user_message or self._get_default_message(severity)] *)
Definition outward_message (user_message : option string)
    (severity : ErrorSeverity) : string :=
  match user_message with
  | Some m => if Py.truthy m then m else _get_default_message severity
  | None => _get_default_message severity
  end.

(** [handle_error]: the response dictionary and the record handed to the
    logger. *)
Definition handle_error (w : ambient) (error : exc)
    (severity : ErrorSeverity) (context : option dict)
    (user_message : option string) : dict * log_record :=
  let error_id := _generate_error_id w in
  let logged := _log_error error severity error_id context in
  ([ ("error_id", error_id);
     ("message", outward_message user_message severity);
     ("severity", value severity);
     ("timestamp", _get_timestamp w);
     ("type", class_name (cls error)) ],
   logged).

End ErrorManager.

(* ================================================================== *)
(** * cms/models *)
(* ================================================================== *)

(** The columns [created_at] and [updated_at] are filled in by the ORM's
    column defaults and are read by no rule of the service layer; the
    records below carry the other columns. *)
Module User.

Record t := mk {
  id : Z; email : string; username : string; password_hash : string;
  first_name : option string; last_name : option string;
  is_active : bool; is_staff : bool; is_superuser : bool;
  last_login : option Py.datetime }.

Definition part_text (p : option string) : list string :=
  match p with
  | Some s => if Py.truthy s then [s] else []
  | None => []
  end.

Fixpoint join_space (parts : list string) : string :=
  match parts with
  | [] => ""
  | [p] => p
  | p :: rest => p +:+ " " +:+ join_space rest
  end.

Definition full_name (u : t) : string :=
  join_space (part_text (first_name u) ++ part_text (last_name u)).

Definition set_last_login (v : option Py.datetime) (u : t) : t :=
  mk (id u) (email u) (username u) (password_hash u) (first_name u)
     (last_name u) (is_active u) (is_staff u) (is_superuser u) v.

End User.

Module Category.

Record t := mk {
  id : Z; name : string; slug : string; description : option string;
  is_active : bool }.

End Category.

Module Article.

Record t := mk {
  id : Z; title : string; slug : string; content : string;
  excerpt : option string; is_published : bool;
  published_at : option Py.datetime;
  author_id : Z; category_id : option Z }.

Definition is_draft (self : t) : bool := negb (is_published self).

Definition set_publication (p : bool) (at_ : option Py.datetime)
    (self : t) : t :=
  mk (id self) (title self) (slug self) (content self) (excerpt self)
     p at_ (author_id self) (category_id self).

(** [publish]; [now] is what [datetime.utcnow()] returns. *)
Definition publish (now : Py.datetime) (self : t) : t :=
  if negb (is_published self) then set_publication true (Some now) self
  else self.

Definition unpublish (self : t) : t :=
  if is_published self then set_publication false None self
  else self.

End Article.

(* ================================================================== *)
(** * cms/repositories *)
(* ================================================================== *)

Module Repositories.

Import Exceptions.
Local Open Scope Z_scope.

(** The session: the three tables, in insertion order. *)
Record Session := mk_session {
  users : list User.t;
  categories : list Category.t;
  articles : list Article.t }.

(** The next value of an auto-incremented integer primary key. *)
Definition next_id (ids : list Z) : Z := 1 + fold_right Z.max 0 ids.

(** [query.filter(...).first()] *)
Definition first {A} (p : A -> bool) (rows : list A) : option A :=
  List.find p rows.

(** [if exclude_id: query = query.filter(Model.id != exclude_id)]:
    [None] and [0] are falsy and add no filter. *)
Definition passes_exclusion (exclude_id : option Z) (row_id : Z) : bool :=
  match exclude_id with
  | Some x => if x =? 0 then true else negb (row_id =? x)
  | None => true
  end.

(** Replace the first row that [p] selects. *)
Fixpoint replace_first {A} (p : A -> bool) (new : A) (rows : list A)
    : list A :=
  match rows with
  | [] => []
  | r :: rest => if p r then new :: rest
                 else r :: replace_first p new rest
  end.

Module UserRepository.

Definition get_by_id (db : Session) (entity_id : Z) : option User.t :=
  first (fun u => User.id u =? entity_id) (users db).

Definition get_by_email (db : Session) (email : string)
    : option User.t :=
  first (fun u => bool_decide (User.email u = Py.lower email)) (users db).

(** [update(entity_id, last_login=v)]; no unique column is written, so
    the commit cannot fail. *)
Definition update_last_login (db : Session) (entity_id : Z)
    (v : Py.datetime) : Session * option User.t :=
  match get_by_id db entity_id with
  | None => (db, None)
  | Some entity =>
      let entity' := User.set_last_login (Some v) entity in
      (mk_session
         (replace_first (fun u => User.id u =? entity_id) entity'
            (users db))
         (categories db) (articles db),
       Some entity')
  end.

End UserRepository.

Module CategoryRepository.

Definition get_by_id (db : Session) (entity_id : Z)
    : option Category.t :=
  first (fun c => Category.id c =? entity_id) (categories db).

Definition slug_exists (db : Session) (slug : string)
    (exclude_id : option Z) : bool :=
  match first (fun c => bool_decide (Category.slug c = slug)
                        && passes_exclusion exclude_id (Category.id c))
          (categories db) with
  | Some _ => true
  | None => false
  end.

(** The unique constraints of the table: the column that an insert of
    [name], [slug] would violate, if any. *)
Definition violated (db : Session) (name slug : string)
    : option string :=
  if existsb (fun c => bool_decide (Category.name c = name))
       (categories db) then Some "categories.name"
  else if existsb (fun c => bool_decide (Category.slug c = slug))
       (categories db) then Some "categories.slug"
  else None.

(** [create(name=, slug=, description=, is_active=)]: on an
    [IntegrityError] the session is rolled back and [DatabaseError] is
    raised; the driver's message is represented by the name of the
    violated constraint. *)
Definition create (db : Session) (name slug : string)
    (description : option string) (is_active : bool)
    : Session * result Category.t :=
  match violated db name slug with
  | Some constraint =>
      (db, Raise (mk_exc DatabaseError "Failed to create Category"
                    [("error", constraint)]))
  | None =>
      let entity :=
        Category.mk (next_id (map Category.id (categories db)))
          name slug description is_active in
      (mk_session (users db) (categories db ++ [entity]) (articles db),
       Return entity)
  end.

End CategoryRepository.

Module ArticleRepository.

Definition get_by_id (db : Session) (entity_id : Z)
    : option Article.t :=
  first (fun a => Article.id a =? entity_id) (articles db).

Definition get_by_slug (db : Session) (slug : string)
    : option Article.t :=
  first (fun a => bool_decide (Article.slug a = slug)) (articles db).

Definition slug_exists (db : Session) (slug : string)
    (exclude_id : option Z) : bool :=
  match first (fun a => bool_decide (Article.slug a = slug)
                        && passes_exclusion exclude_id (Article.id a))
          (articles db) with
  | Some _ => true
  | None => false
  end.

(** [create(title=, slug=, content=, excerpt=, author_id=,
    category_id=, is_published=)]; [published_at] keeps its column
    default, [None].  The commit fails on the table's unique constraint,
    the one on [slug]; foreign keys and column lengths are left to the
    engine and are not checked here. *)
Definition create (db : Session) (title slug content : string)
    (excerpt : option string) (author_id : Z) (category_id : option Z)
    (is_published : bool) : Session * result Article.t :=
  if existsb (fun a => bool_decide (Article.slug a = slug)) (articles db)
  then (db, Raise (mk_exc DatabaseError "Failed to create Article"
                     [("error", "articles.slug")]))
  else
    let entity :=
      Article.mk (next_id (map Article.id (articles db)))
        title slug content excerpt is_published None author_id
        category_id in
    (mk_session (users db) (categories db) (articles db ++ [entity]),
     Return entity).

(** [self.db.commit()] after a method changed [entity] in place. *)
Definition commit (db : Session) (entity : Article.t) : Session :=
  mk_session (users db) (categories db)
    (replace_first (fun a => Article.id a =? Article.id entity) entity
       (articles db)).

(** The keyword arguments of [update]: a key that is absent is
    [None]. *)
Record update_data := mk_update_data {
  ud_title : option string;
  ud_slug : option string;
  ud_content : option string;
  ud_excerpt : option (option string);
  ud_category_id : option (option Z);
  ud_is_published : option bool;
  ud_published_at : option (option Py.datetime) }.

Definition or_keep {A} (new : option A) (old : A) : A :=
  match new with Some v => v | None => old end.

(** The [setattr] loop. *)
Definition set_attributes (kwargs : update_data) (entity : Article.t)
    : Article.t :=
  Article.mk (Article.id entity)
    (or_keep (ud_title kwargs) (Article.title entity))
    (or_keep (ud_slug kwargs) (Article.slug entity))
    (or_keep (ud_content kwargs) (Article.content entity))
    (or_keep (ud_excerpt kwargs) (Article.excerpt entity))
    (or_keep (ud_is_published kwargs) (Article.is_published entity))
    (or_keep (ud_published_at kwargs) (Article.published_at entity))
    (Article.author_id entity)
    (or_keep (ud_category_id kwargs) (Article.category_id entity)).

(** [update(entity_id, **kwargs)]: the commit fails when the slug
    changes to one that another row already has. *)
Definition update (db : Session) (entity_id : Z) (kwargs : update_data)
    : Session * result (option Article.t) :=
  match get_by_id db entity_id with
  | None => (db, Return None)
  | Some entity =>
      let entity' := set_attributes kwargs entity in
      if negb (bool_decide (Article.slug entity' = Article.slug entity))
         && existsb (fun a => bool_decide (Article.slug a = Article.slug entity')
                              && negb (Article.id a =? entity_id))
              (articles db)
      then (db, Raise (mk_exc DatabaseError "Failed to update Article"
                         [("error", "articles.slug")]))
      else (commit db entity', Return (Some entity'))
  end.

End ArticleRepository.

(** The slugs [ArticleRepository.slug_exists] answers [True] for. *)
Definition visible_articles (db : Session) (exclude_id : option Z)
    : list string :=
  List.map Article.slug
    (List.filter (fun a => passes_exclusion exclude_id (Article.id a))
       (articles db)).

(** The slugs [CategoryRepository.slug_exists] answers [True] for when
    no row is excluded. *)
Definition visible_categories (db : Session) : list string :=
  List.map Category.slug (categories db).

End Repositories.

(* ================================================================== *)
(** * cms/validators/input_validator.py *)
(* ================================================================== *)

(** The libraries behind the validators and the password check. *)
Class External := {
  (** [bleach.clean(content, tags=..., attributes=..., strip=True)] *)
  bleach_clean : string -> string;
  (** [bcrypt.checkpw(password.encode('utf-8'), hashed.encode('utf-8'))]:
      the answer of the comparison, or the exception that the encoding or
      the library raises ([UnicodeEncodeError] for a text that UTF-8
      cannot encode, [ValueError] for a stored text that is not a bcrypt
      hash). *)
  checkpw : string -> string -> attempt bool;
  (** marshmallow's [fields.Email] validator *)
  is_email : string -> bool }.

Module Validators.

Import Exceptions.

Definition sanitize_html `{External} (content : string) : string :=
  if negb (Py.truthy content) then "" else bleach_clean content.

(** The request body of a login. *)
Record login_data := mk_login_data {
  ld_email : option string;
  ld_password : option string }.

(** [ValidationHelper.validate_user_login]: [UserLoginSchema] wants a
    well-formed [email] and a [password] of length at least one. *)
Definition validate_user_login `{External} (data : login_data)
    : result (string * string) :=
  match ld_email data, ld_password data with
  | Some e, Some p =>
      if is_email e && (1 <=? Py.len p)%nat then Return (e, p)
      else Raise (mk_exc SecurityException "Invalid input data"
                    [("validation_errors", "invalid")])
  | _, _ => Raise (mk_exc SecurityException "Invalid input data"
                     [("validation_errors", "missing")])
  end.

End Validators.

(* ================================================================== *)
(** * cms/services *)
(* ================================================================== *)

Module Services.

Import Exceptions ErrorManager Repositories.

(** The state a service call leaves behind together with its result. *)
Record run (A : Type) := mk_run {
  outcome : result A;
  session : Session;
  logged : list log_record }.
Arguments mk_run {A} _ _ _.
Arguments outcome {A} _.
Arguments session {A} _.
Arguments logged {A} _.

(** A response dictionary [{"success": ..., <entity>: ..., "message": ...}];
    the entity's entry is built from the fields of [entity]. *)
Record response (A : Type) := mk_response {
  success : bool;
  entity : A;
  note : string }.
Arguments mk_response {A} _ _ _.
Arguments success {A} _.
Arguments entity {A} _.
Arguments note {A} _.

(** [error_response["message"]] *)
Definition message_of (error_response : dict) : string :=
  match dict_get "message" error_response with
  | Some m => m
  | None => ""
  end.

(** [_generate_slug], the same body in [ArticleService] and
    [CategoryService]. *)
Definition _generate_slug (title : string) : string :=
  let slug := Py.lower title in
  let slug :=
    Py.re_sub_class
      (fun c => negb (Py.is_word c || Py.isspace c || Py.is_hyphen c))
      "" slug in
  let slug :=
    Py.re_sub_plus (fun c => Py.is_hyphen c || Py.isspace c) "-" slug in
  let slug := Py.strip "-" slug in
  Py.slice_to 100 slug.

(** The loop
<<
    original_slug = slug
    counter = 1
    while slug_exists(slug):
        slug = f"{original_slug}-{counter}"
        counter += 1
>>
    from the state [(slug, counter)]; [None] when [fuel] iterations did
    not leave it. *)
Fixpoint unique_slug_loop (slug_exists : string -> bool)
    (original_slug : string) (fuel : nat) (slug : string) (counter : N)
    : option string :=
  match fuel with
  | O => None
  | S fuel' =>
      if slug_exists slug then
        unique_slug_loop slug_exists original_slug fuel'
          (original_slug +:+ "-" +:+ Py.str_int counter) (counter + 1)
      else Some slug
  end.

Definition unique_slug (slug_exists : string -> bool) (fuel : nat)
    (slug : string) : option string :=
  unique_slug_loop slug_exists slug fuel slug 1.

(** ** AuthenticationService *)
Module AuthenticationService.

Import Validators.

Definition success_message : string := "Authentication successful".

(** [_verify_password]: nothing is caught around the library calls. *)
Definition _verify_password `{External} (password hashed : string)
    : attempt bool :=
  checkpw password hashed.

(** The body of the [try] block. *)
Definition authenticate_body `{External} (now : Py.datetime)
    (db : Session) (data : login_data)
    : Session * result (response User.t) :=
  match validate_user_login data with
  | Raise e => (db, Raise e)
  | Diverge => (db, Diverge)
  | Return (email, password) =>
      match UserRepository.get_by_email db email with
      | None =>
          (db, Raise (raise_ AuthenticationError
                        "Invalid email or password"))
      | Some user =>
          if negb (User.is_active user) then
            (db, Raise (raise_ AuthenticationError
                          "Account is deactivated"))
          else
            match _verify_password password (User.password_hash user) with
            | Failed e => (db, Raise e)
            | Done false =>
                (db, Raise (raise_ AuthenticationError
                              "Invalid email or password"))
            | Done true =>
                let '(db', _) :=
                  UserRepository.update_last_login db (User.id user) now in
                (db', Return (mk_response true user success_message))
            end
      end
  end.

Definition login_context (data : login_data) : dict :=
  [ ("operation", "user_authentication");
    ("email", match ld_email data with Some e => e | None => "None" end) ].

Definition authenticate_user `{External} (w : ambient)
    (now : Py.datetime) (db : Session) (data : login_data)
    : run (response User.t) :=
  match authenticate_body now db data with
  | (db', Raise e) =>
      match cls e with
      | AuthenticationError =>
          let '(error_response, record) :=
            handle_error w e MEDIUM (Some (login_context data))
              (Some "Authentication failed. Please check your credentials.")
          in
          mk_run (Raise (mk_exc AuthenticationError
                           (message_of error_response) error_response))
            db' [record]
      | _ => mk_run (Raise e) db' []
      end
  | (db', r) => mk_run r db' []
  end.

End AuthenticationService.

(** ** ArticleService *)
Module ArticleService.

Import Validators.
Local Open Scope Z_scope.

(** The request body of an article creation or update; a key that is
    absent is [None].  The record holds the bodies in which [title],
    [content] and [excerpt], when present, are strings: on another value
    under one of these keys (a JSON null, say) the source raises
    [AttributeError] where it calls [strip] or [lower], and no handler of
    the service catches it. *)
Record article_data := mk_article_data {
  ad_title : option string;
  ad_content : option string;
  ad_excerpt : option string;
  ad_category_id : option (option Z);
  ad_is_published : option bool }.

(** [not article_data.get(key)] *)
Definition missing (v : option string) : bool :=
  match v with Some s => negb (Py.truthy s) | None => true end.

Definition text_of (v : option string) : string :=
  match v with Some s => s | None => "" end.

(** [article_data.get('excerpt', '').strip() or None] *)
Definition excerpt_of (v : option string) : option string :=
  let e := Py.strip_ws (text_of v) in
  if Py.truthy e then Some e else None.

(** The slug of a new or retitled article: [_generate_slug] followed
    by the uniqueness loop over [article_repo.slug_exists].  The loop gets
    one iteration more than the table has rows; it never needs them all
    ([assign_slug_total] below), so [None] does not occur. *)
Definition assign_slug (db : Session) (exclude_id : option Z)
    (title : string) : option string :=
  unique_slug (fun s => ArticleRepository.slug_exists db s exclude_id)
    (S (length (articles db))) (_generate_slug title).

(** [if category_id: ... raise ValidationError(...)] *)
Definition category_rejected (db : Session) (category_id : option Z)
    : bool :=
  match category_id with
  | Some c =>
      if c =? 0 then false
      else match CategoryRepository.get_by_id db c with
           | Some category => negb (Category.is_active category)
           | None => true
           end
  | None => false
  end.

Definition created_message : string := "Article created successfully".

(** The body of the [try] block of [create_article].  [others] is what
    other sessions commit between this request's reads and its
    insert; it is the identity when the request runs alone. *)
Definition create_body `{External} (now : Py.datetime)
    (others : Session -> Session) (db : Session) (data : article_data)
    (author_id : Z) : Session * result (response Article.t) :=
  if missing (ad_title data) then
    (db, Raise (raise_ ValidationError "Title is required"))
  else if missing (ad_content data) then
    (db, Raise (raise_ ValidationError "Content is required"))
  else
    match assign_slug db None (text_of (ad_title data)) with
    | None => (db, Diverge)
    | Some slug =>
        let category_id :=
          match ad_category_id data with Some c => c | None => None end in
        if category_rejected db category_id then
          (db, Raise (raise_ ValidationError "Invalid category selected"))
        else
          let sanitized_content :=
            sanitize_html (text_of (ad_content data)) in
          match
            ArticleRepository.create (others db)
              (Py.strip_ws (text_of (ad_title data))) slug
              sanitized_content (excerpt_of (ad_excerpt data))
              author_id category_id
              (match ad_is_published data with
               | Some b => b | None => false end)
          with
          | (db', Return article) =>
              if Article.is_published article then
                let article' := Article.publish now article in
                (ArticleRepository.commit db' article',
                 Return (mk_response true article' created_message))
              else
                (db', Return (mk_response true article created_message))
          | (db', Raise e) => (db', Raise e)
          | (db', Diverge) => (db', Diverge)
          end
    end.

Definition create_context (author_id : Z) : dict :=
  [ ("operation", "article_creation");
    ("author_id", pretty author_id) ].

(** [except (ValidationError, DatabaseError) as e] *)
Definition caught (e : exc) : bool :=
  match cls e with
  | ValidationError | DatabaseError => true
  | _ => false
  end.

Definition create_article `{External} (w : ambient) (now : Py.datetime)
    (others : Session -> Session) (db : Session) (data : article_data)
    (author_id : Z) : run (response Article.t) :=
  match create_body now others db data author_id with
  | (db', Raise e) =>
      if caught e then
        let '(error_response, record) :=
          handle_error w e MEDIUM (Some (create_context author_id)) None
        in
        mk_run (Raise (mk_exc ValidationError
                         (message_of error_response) error_response))
          db' [record]
      else mk_run (Raise e) db' []
  | (db', r) => mk_run r db' []
  end.

(** The keys [title] and [slug] of [update_data]; [None] when the
    uniqueness loop does not end. *)
Definition title_updates (db : Session) (article_id : Z)
    (article : Article.t) (data : article_data)
    : option (option string * option string) :=
  match ad_title data with
  | None => Some (None, None)
  | Some t =>
      let title := Py.strip_ws t in
      if bool_decide (title = Article.title article) then
        Some (Some title, None)
      else
        match assign_slug db (Some article_id) title with
        | Some new_slug => Some (Some title, Some new_slug)
        | None => None
        end
  end.

(** The keys [is_published] and [published_at] of [update_data]. *)
Definition publication_updates (now : Py.datetime) (article : Article.t)
    (data : article_data) : option bool * option (option Py.datetime) :=
  match ad_is_published data with
  | None => (None, None)
  | Some is_published =>
      (Some is_published,
       if is_published && negb (Article.is_published article)
       then Some (Some now)
       else if negb is_published && Article.is_published article
       then Some None
       else None)
  end.

Definition may_edit (db : Session) (article : Article.t) (user_id : Z)
    : bool :=
  match UserRepository.get_by_id db user_id with
  | Some user => (Article.author_id article =? user_id)
                 || User.is_staff user
  | None => false
  end.

Definition updated_message : string := "Article updated successfully".

Definition update_article `{External} (now : Py.datetime) (db : Session)
    (article_id : Z) (data : article_data) (user_id : Z)
    : run (response Article.t) :=
  match ArticleRepository.get_by_id db article_id with
  | None =>
      mk_run (Raise (raise_ BusinessLogicError "Article not found")) db []
  | Some article =>
      if negb (may_edit db article user_id) then
        mk_run (Raise (raise_ BusinessLogicError
                         "You don't have permission to edit this article"))
          db []
      else
        match title_updates db article_id article data with
        | None => mk_run Diverge db []
        | Some (title, slug) =>
            let content :=
              option_map sanitize_html (ad_content data) in
            let excerpt :=
              option_map (fun e => excerpt_of (Some e))
                (ad_excerpt data) in
            if match ad_category_id data with
               | Some category_id => category_rejected db category_id
               | None => false
               end
            then
              mk_run (Raise (raise_ ValidationError
                               "Invalid category selected")) db []
            else
              let '(is_published, published_at) :=
                publication_updates now article data in
              let update_data :=
                ArticleRepository.mk_update_data title slug content
                  excerpt (ad_category_id data) is_published
                  published_at in
              match ArticleRepository.update db article_id update_data
              with
              | (db', Return (Some updated_article)) =>
                  mk_run (Return (mk_response true updated_article
                                    updated_message)) db' []
              | (db', Return None) =>
                  (* [updated_article.id] on [None] *)
                  mk_run (Raise (raise_ Exception "AttributeError"))
                    db' []
              | (db', Raise e) => mk_run (Raise e) db' []
              | (db', Diverge) => mk_run Diverge db' []
              end
        end
  end.

End ArticleService.

(** ** CategoryService *)
Module CategoryService.

Local Open Scope Z_scope.

(** The request body of a category creation, under the same reading as
    [ArticleService.article_data]: [name] and [description], when present,
    are strings. *)
Record category_data := mk_category_data {
  cd_name : option string;
  cd_description : option string;
  cd_is_active : option bool }.

Definition assign_slug (db : Session) (name : string) : option string :=
  unique_slug (fun s => CategoryRepository.slug_exists db s None)
    (S (length (categories db))) (_generate_slug name).

Definition created_message : string := "Category created successfully".

(** The body of the [try] block of [create_category]; [others] as in
    [ArticleService.create_body]. *)
Definition create_body (others : Session -> Session) (db : Session)
    (data : category_data) : Session * result (response Category.t) :=
  if ArticleService.missing (cd_name data) then
    (db, Raise (raise_ ValidationError "Category name is required"))
  else
    match assign_slug db (ArticleService.text_of (cd_name data)) with
    | None => (db, Diverge)
    | Some slug =>
        match
          CategoryRepository.create (others db)
            (Py.strip_ws (ArticleService.text_of (cd_name data))) slug
            (ArticleService.excerpt_of (cd_description data))
            (match cd_is_active data with
             | Some b => b | None => true end)
        with
        | (db', Return category) =>
            (db', Return (mk_response true category created_message))
        | (db', Raise e) => (db', Raise e)
        | (db', Diverge) => (db', Diverge)
        end
    end.

Definition create_context : dict := [ ("operation", "category_creation") ].

Definition create_category (w : ambient) (others : Session -> Session)
    (db : Session) (data : category_data)
    : run (response Category.t) :=
  match create_body others db data with
  | (db', Raise e) =>
      if ArticleService.caught e then
        let '(error_response, record) :=
          handle_error w e MEDIUM (Some create_context) None in
        mk_run (Raise (mk_exc ValidationError
                         (message_of error_response) error_response))
          db' [record]
      else mk_run (Raise e) db' []
  | (db', r) => mk_run r db' []
  end.

End CategoryService.

End Services.

(* ================================================================== *)
(** * cms/controllers: the error mapping *)
(* ================================================================== *)

Module Controllers.

Import Exceptions ErrorManager.

(** [BaseController.handle_error]: severity and status code by the class
    of the error, then the error manager's response. *)
Definition classify (error : exc) : ErrorSeverity * Z :=
  match cls error with
  | ValidationError => (MEDIUM, 400%Z)
  | AuthenticationError => (MEDIUM, 401%Z)
  | BusinessLogicError => (MEDIUM, 422%Z)
  | SecurityException => (HIGH, 400%Z)
  | _ => (HIGH, 500%Z)
  end.

Definition handle_error (w : ambient) (error : exc)
    : (dict * Z) * log_record :=
  let '(severity, status_code) := classify error in
  let '(error_response, record) :=
    ErrorManager.handle_error w error severity None None in
  ((error_response, status_code), record).

End Controllers.

(* ================================================================== *)
(** * The specification's wording, for comparison with the code *)
(* ================================================================== *)

Module Spec.

(** ** Slug normalisation as the specification words it *)

(** "lowercase" *)
Definition lowercase (l : list ascii) : list ascii := map Py.lower_char l.

(** "strip every character that is not ..." for a class [keep] *)
Definition strip_others (keep : ascii -> bool) (l : list ascii)
    : list ascii := List.filter keep l.

Definition separator (c : ascii) : bool := Py.isspace c || Py.is_hyphen c.

Definition starts_with_hyphen (l : list ascii) : bool :=
  match l with c :: _ => Py.is_hyphen c | [] => false end.

(** "collapse runs of whitespace/hyphens into a single hyphen": going
    through the text from its end, a separator contributes a hyphen
    unless the text after it already starts with one. *)
Definition collapse_runs (l : list ascii) : list ascii :=
  fold_right
    (fun c acc =>
       if separator c then
         if starts_with_hyphen acc then acc else Py.hyphen :: acc
       else c :: acc)
    [] l.

Fixpoint drop_hyphens (l : list ascii) : list ascii :=
  match l with
  | c :: t => if Py.is_hyphen c then drop_hyphens t else l
  | [] => []
  end.

(** "trim leading/trailing hyphens" *)
Definition trim_hyphens (l : list ascii) : list ascii :=
  rev (drop_hyphens (rev (drop_hyphens l))).

(** "truncate to 100 characters" *)
Definition truncate (l : list ascii) : list ascii := firstn 100 l.

Definition normalize_with (keep : ascii -> bool) (text : string) : string :=
  string_of_list_ascii
    (truncate
       (trim_hyphens
          (collapse_runs
             (strip_others keep
                (lowercase (list_ascii_of_string text)))))).

(** The class the specification names: "alphanumeric, whitespace, or
    hyphen". *)
Definition kept_as_worded (c : ascii) : bool :=
  Py.isalnum c || Py.isspace c || Py.is_hyphen c.

(** The class with the underscore added. *)
Definition kept_with_underscore (c : ascii) : bool :=
  Py.isalnum c || (Py.ord c =? 95)%N || Py.isspace c || Py.is_hyphen c.

Definition normalize : string -> string := normalize_with kept_as_worded.

(** ** Slug assignment as the specification words it *)

(** The base slug with the suffix "-k". *)
Definition suffixed (base : string) (k : N) : string :=
  base +:+ "-" +:+ Py.str_int k.

(** The suffixed slugs for [k = 1 .. n]. *)
Definition suffixes (base : string) (n : nat) : list string :=
  (fun i => suffixed base (N.of_nat i)) <$> seq 1 n.

(** [slug] is what assignment must return for the base slug [base]
    against the set [S] of slugs in use: a slug not in [S]; [base]
    itself when it is free; otherwise [base] with the suffix of the
    smallest [k >= 1] that is free. *)
Definition assigned (S : string -> Prop) (base slug : string) : Prop :=
  ~ S slug /\
  (~ S base -> slug = base) /\
  (S base ->
   exists k, 1 <= k /\ slug = suffixed base k /\
             forall j, 1 <= j < k -> S (suffixed base j)).

(** The slugs in use in the article namespace, the row named by
    [exclude_id] left out. *)
Definition article_namespace (db : Repositories.Session)
    (exclude_id : option Z) (s : string) : Prop :=
  exists a, a ∈ Repositories.articles db /\ Article.slug a = s /\
            exclude_id <> Some (Article.id a).

(** The slugs in use in the category namespace. *)
Definition category_namespace (db : Repositories.Session) (s : string)
    : Prop :=
  exists c, c ∈ Repositories.categories db /\ Category.slug c = s.

(** Auto-incremented primary keys start at 1. *)
Definition positive_ids (db : Repositories.Session) : Prop :=
  forall a, a ∈ Repositories.articles db -> (0 < Article.id a)%Z.

(** ** The timestamp format [YYYY-MM-DDTHH:MM:SSZ] *)

Definition is_digit (c : ascii) : bool := Py.between 48 57 c.

Fixpoint digits_only (s : string) : bool :=
  match s with
  | EmptyString => true
  | String c t => is_digit c && digits_only t
  end.

(** A pattern is a list of positions: a digit ([None]) or one given
    character. *)
Fixpoint matches (pattern : list (option ascii)) (s : string) : bool :=
  match pattern, s with
  | [], EmptyString => true
  | None :: p, String c t => is_digit c && matches p t
  | Some d :: p, String c t => (Py.ord c =? Py.ord d)%N && matches p t
  | _, _ => false
  end.

Definition D : option ascii := None.
Definition lit (c : ascii) : option ascii := Some c.

Definition seconds_pattern : list (option ascii) :=
  [ D; D; D; D; lit "-"; D; D; lit "-"; D; D; lit "T";
    D; D; lit ":"; D; D; lit ":"; D; D; lit "Z" ]%char.

Definition seconds_format (s : string) : bool := matches seconds_pattern s.

(** The same with the six-digit fraction. *)
Definition microseconds_pattern : list (option ascii) :=
  [ D; D; D; D; lit "-"; D; D; lit "-"; D; D; lit "T";
    D; D; lit ":"; D; D; lit ":"; D; D; lit ".";
    D; D; D; D; D; D; lit "Z" ]%char.

Definition microseconds_format (s : string) : bool :=
  matches microseconds_pattern s.

(** ** Publication state *)

(** "[published_at] present iff [is_published] is true" *)
Definition publication_invariant (article : Article.t) : Prop :=
  Article.is_published article = true
  <-> is_Some (Article.published_at article).

(** ** Failed logins *)

(** The three ways a well-formed login fails. *)
Inductive login_failure `{External} (db : Repositories.Session)
    (email password : string) : Prop :=
| email_not_registered :
    Repositories.UserRepository.get_by_email db email = None ->
    login_failure db email password
| account_deactivated (user : User.t) :
    Repositories.UserRepository.get_by_email db email = Some user ->
    User.is_active user = false ->
    login_failure db email password
| wrong_password (user : User.t) :
    Repositories.UserRepository.get_by_email db email = Some user ->
    User.is_active user = true ->
    checkpw password (User.password_hash user) = Done false ->
    login_failure db email password.

Definition authentication_failed_message : string :=
  "Authentication failed. Please check your credentials.".

(** The exception a failed login surfaces; it is built from the clock
    and the random token alone. *)
Definition authentication_failed (w : ErrorManager.ambient)
    : Exceptions.exc :=
  Exceptions.mk_exc Exceptions.AuthenticationError
    authentication_failed_message
    [ ("error_id", ErrorManager._generate_error_id w);
      ("message", authentication_failed_message);
      ("severity", "medium");
      ("timestamp", ErrorManager._get_timestamp w);
      ("type", "AuthenticationError") ].

End Spec.

(* ================================================================== *)
(** * Sample data *)
(* ================================================================== *)

Module Fixtures.

Import Repositories Services.

(** Stand-ins for the libraries: a sanitizer that changes nothing, a
    password check against the stored text, an address test that looks
    for nothing. *)
Definition libraries : External :=
  {| bleach_clean := fun content => content;
     checkpw := fun password hashed =>
       Done (bool_decide (hashed = password));
     is_email := fun _ => true |}.

(** The same with a password check that, as bcrypt does, raises
    [ValueError] for a stored text that does not start like a bcrypt
    hash. *)
Definition strict : External :=
  {| bleach_clean := fun content => content;
     checkpw := fun password hashed =>
       if String.prefix "$2b$" hashed
       then Done (bool_decide (hashed = "$2b$" +:+ password))
       else Failed (Exceptions.mk_exc Exceptions.ValueError "Invalid salt" []);
     is_email := fun _ => true |}.

(** A login with the email of [ann]. *)
Definition ann_login : Validators.login_data :=
  Validators.mk_login_data (Some "ann@example.org") (Some "guess").

Definition ann : User.t :=
  User.mk 1 "ann@example.org" "ann" "s3cret" (Some "Ann") None
    true false false None.

Definition bob : User.t :=
  User.mk 2 "bob@example.org" "bob" "hunter2" None None
    false false false None.

Definition noon : Py.datetime := Py.mk_datetime 2023 12 25 12 0 0 0.

Definition later : Py.datetime := Py.mk_datetime 2023 12 25 10 30 45 123456.

Definition world : ErrorManager.ambient :=
  ErrorManager.mk_ambient later "0123abcd-89ab-4def-8123-456789abcdef" later.

Definition hello : Article.t :=
  Article.mk 1 "Hello, World!" "hello-world" "text" None false None 1 None.

Definition hello_again : Article.t :=
  Article.mk 2 "Hello World" "hello-world-1" "text" None true (Some noon)
    1 None.

Definition science : Category.t :=
  Category.mk 1 "Science" "science" None true.

Definition empty : Session := mk_session [ann; bob] [] [].

Definition library : Session :=
  mk_session [ann; bob] [science] [hello; hello_again].

(** Another request commits a category "science" first. *)
Definition rival (db : Session) : Session :=
  mk_session (users db)
    (categories db ++ [Category.mk 7 "SCIENCE" "science" None true])
    (articles db).

Definition published_request : ArticleService.article_data :=
  ArticleService.mk_article_data (Some "Hello, World!") (Some "text")
    None None (Some true).

Definition retitle_request : ArticleService.article_data :=
  ArticleService.mk_article_data (Some "Hello there") (Some "more text")
    None None None.

Definition publish_request : ArticleService.article_data :=
  ArticleService.mk_article_data None None None None (Some true).

Definition science_request : CategoryService.category_data :=
  CategoryService.mk_category_data (Some "Science") None None.

(** A title that normalises to one hundred characters, and a store
    where that slug is in use. *)
Definition long_title : string :=
  string_of_list_ascii (repeat "a"%char 100).

Definition long_article : Article.t :=
  Article.mk 1 long_title long_title "text" None false None 1 None.

Definition long_name : string :=
  string_of_list_ascii (repeat "A"%char 100).

Definition long_category : Category.t :=
  Category.mk 1 long_title long_title None true.

Definition crowded : Session :=
  mk_session [ann; bob] [long_category] [long_article].

Definition long_name_request : CategoryService.category_data :=
  CategoryService.mk_category_data (Some long_name) None None.

Definition long_request : ArticleService.article_data :=
  ArticleService.mk_article_data (Some long_title) (Some "text")
    None None None.

End Fixtures.

(* ================================================================== *)
(** * cms/validators/input_validator.py: InputValidator *)
(* ================================================================== *)

Module InputValidator.

Definition is_newline (c : ascii) : bool := Py.ord c =? 10.

Definition ascii_lower (c : ascii) : bool := Py.between 97 122 c.
Definition ascii_upper (c : ascii) : bool := Py.between 65 90 c.
Definition ascii_digit (c : ascii) : bool := Py.between 48 57 c.
Definition ascii_alnum (c : ascii) : bool :=
  ascii_lower c || ascii_upper c || ascii_digit c.

(** The class [[a-zA-Z0-9_]] of [USERNAME_PATTERN]. *)
Definition username_char (c : ascii) : bool :=
  ascii_alnum c || (Py.ord c =? 95).

(** What is left of [s] after its longest prefix of [cls] characters. *)
Fixpoint skip_run (cls : ascii -> bool) (s : string) : string :=
  match s with
  | EmptyString => EmptyString
  | String c t => if cls c then skip_run cls t else s
  end.

(** Where [$] matches: at the end of the string, and before a newline
    that ends the string. *)
Definition at_end (s : string) : bool :=
  match s with
  | EmptyString => true
  | String c EmptyString => is_newline c
  | _ => false
  end.

(** [re.compile(r'^[...]+$').match(s)] for a class [cls] that does not
    contain the newline: the run of [cls] characters at the start must
    reach a place where [$] matches. *)
Definition match_run_to_end (cls : ascii -> bool) (s : string) : bool :=
  match s with
  | EmptyString => false
  | String c t => cls c && at_end (skip_run cls t)
  end.

(** [validate_username]; [None] stands for a value that is [None] or not
    a string. *)
Definition validate_username (username : option string) : bool :=
  match username with
  | None => false
  | Some u =>
      if negb (Py.truthy u) then false
      else (3 <=? Py.len u)%nat && (Py.len u <=? 30)%nat
           && match_run_to_end username_char u
  end.

(** The class [[@$!%*?&]]. *)
Definition special_char (c : ascii) : bool := Py.char_in c "@$!%*?&".

(** The class [[A-Za-z\d@$!%*?&]].  In a [str] pattern [\d] is every
    decimal digit of Unicode; among the characters of [string] these are
    [0] to [9].  [UnicodeValidator] below reads the same pattern on every
    Python string. *)
Definition password_char (c : ascii) : bool :=
  ascii_upper c || ascii_lower c || ascii_digit c || special_char c.

(** The lookahead [(?=.*[...])] at the start of [s]: [.] matches every
    character but the newline, so the class must be met on the first
    line. *)
Fixpoint line_has (cls : ascii -> bool) (s : string) : bool :=
  match s with
  | EmptyString => false
  | String c t => if is_newline c then false else cls c || line_has cls t
  end.

(** [PASSWORD_PATTERN.match(s)]: four lookaheads and one character of the
    class; the pattern has no anchor at its end. *)
Definition PASSWORD_PATTERN_match (s : string) : bool :=
  line_has ascii_lower s && line_has ascii_upper s
  && line_has ascii_digit s && line_has special_char s
  && match s with
     | EmptyString => false
     | String c _ => password_char c
     end.

Definition validate_password (password : option string) : bool :=
  match password with
  | None => false
  | Some p =>
      if negb (Py.truthy p) then false
      else (8 <=? Py.len p)%nat && (Py.len p <=? 128)%nat
           && PASSWORD_PATTERN_match p
  end.

(** The class [[\x00-\x1f\x7f]]. *)
Definition control_char (c : ascii) : bool :=
  Py.between 0 31 c || (Py.ord c =? 127).

(** [sanitize_string(value, max_length)] for a string [value], for which
    [str(value)] is [value], and an [int] [max_length] of either sign. *)
Definition sanitize_string (value : string) (max_length : Z) : string :=
  if negb (Py.truthy value) then ""
  else
    let sanitized := Py.re_sub_class control_char "" value in
    let sanitized := Py.strip_ws sanitized in
    if (max_length <? Z.of_nat (Py.len sanitized))%Z
    then Py.slice_to_int max_length sanitized
    else sanitized.

(** The class of the local part of [EMAIL_PATTERN]. *)
Definition local_char (c : ascii) : bool :=
  ascii_alnum c || Py.char_in c ".!#$%&'*+/=?^_`{|}~-".

Definition label_char (c : ascii) : bool := ascii_alnum c || Py.is_hyphen c.

Definition is_dot (c : ascii) : bool := Py.ord c =? 46.
Definition is_at (c : ascii) : bool := Py.ord c =? 64.

(** The domain of [EMAIL_PATTERN], read from inside a label of which
    [count] characters have been seen, the last of them alphanumeric
    exactly when [closed]: labels
    [[a-zA-Z0-9](?:[a-zA-Z0-9-]{0,61}[a-zA-Z0-9])?] separated by dots, up
    to [$].  No label character is a dot or a newline, so each label is
    the whole run of label characters. *)
Fixpoint domain_from (count : nat) (closed : bool) (s : string) : bool :=
  match s with
  | EmptyString => closed && (count <=? 63)%nat
  | String c t =>
      if label_char c then domain_from (S count) (ascii_alnum c) t
      else if is_dot c then
        closed && (count <=? 63)%nat
        && match t with
           | EmptyString => false
           | String d t' => ascii_alnum d && domain_from 1 true t'
           end
      else if is_newline c then
        closed && (count <=? 63)%nat
        && match t with EmptyString => true | _ => false end
      else false
  end.

(** [EMAIL_PATTERN.match(s)]: the local part is the run of local
    characters at the start, which must be followed by [@]. *)
Definition EMAIL_PATTERN_match (s : string) : bool :=
  match s with
  | EmptyString => false
  | String c t =>
      local_char c
      && match skip_run local_char t with
         | String a (String d rest) =>
             is_at a && ascii_alnum d && domain_from 1 true rest
         | _ => false
         end
  end.

Definition validate_email (email : option string) : bool :=
  match email with
  | None => false
  | Some e =>
      if negb (Py.truthy e) then false
      else EMAIL_PATTERN_match (Py.lower (Py.strip_ws e))
  end.

End InputValidator.

(* ================================================================== *)
(** * cms/validators/input_validator.py: passwords in full Unicode *)
(* ================================================================== *)

(** The Unicode character database, as far as [PASSWORD_PATTERN] reads
    it. *)
Class Unicode := {
  (** whether a code point is in the category Nd (decimal digit), which
      is the class [\d] of a [str] pattern *)
  decimal_digit : N -> bool }.

Module UnicodeValidator.

(** A [str] as the list of its code points: every text a Python string
    can hold, lone surrogates included. *)
Definition str := list N.

(** The code points of a text of the alphabet of [string]. *)
Definition code_points (s : string) : str :=
  map Py.ord (list_ascii_of_string s).

Definition is_newline (c : N) : bool := c =? 10.
Definition ascii_lower (c : N) : bool := (97 <=? c) && (c <=? 122).
Definition ascii_upper (c : N) : bool := (65 <=? c) && (c <=? 90).

(** The class [[@$!%*?&]]. *)
Definition special_char (c : N) : bool :=
  existsb (N.eqb c) [64; 36; 33; 37; 42; 63; 38].

(** The class [[A-Za-z\d@$!%*?&]]. *)
Definition password_char `{Unicode} (c : N) : bool :=
  ascii_upper c || ascii_lower c || decimal_digit c || special_char c.

(** The lookahead [(?=.*[...])] at the start of [s]; [.] matches every
    character but the newline. *)
Fixpoint line_has (cls : N -> bool) (s : str) : bool :=
  match s with
  | [] => false
  | c :: t => if is_newline c then false else cls c || line_has cls t
  end.

(** [PASSWORD_PATTERN.match(s)] *)
Definition PASSWORD_PATTERN_match `{Unicode} (s : str) : bool :=
  line_has ascii_lower s && line_has ascii_upper s
  && line_has decimal_digit s && line_has special_char s
  && match s with
     | [] => false
     | c :: _ => password_char c
     end.

(** [validate_password]; [None] stands for a value that is [None] or not
    a string. *)
Definition validate_password `{Unicode} (password : option str) : bool :=
  match password with
  | None => false
  | Some p =>
      match p with
      | [] => false
      | _ => (8 <=? length p)%nat && (length p <=? 128)%nat
             && PASSWORD_PATTERN_match p
      end
  end.

End UnicodeValidator.

(* ================================================================== *)
(** * cms/repositories: the other methods of UserRepository *)
(* ================================================================== *)

Module UserStore.
Import Exceptions Repositories.
Local Open Scope Z_scope.

Definition get_by_username (db : Session) (username : string)
    : option User.t :=
  first (fun u => bool_decide (User.username u = username)) (users db).

Definition email_exists (db : Session) (email : string) : bool :=
  match UserRepository.get_by_email db email with
  | Some _ => true
  | None => false
  end.

Definition username_exists (db : Session) (username : string) : bool :=
  match get_by_username db username with
  | Some _ => true
  | None => false
  end.

(** The unique constraints of the table [users]. *)
Definition violated (db : Session) (email username : string)
    : option string :=
  if existsb (fun u => bool_decide (User.email u = email)) (users db)
  then Some "users.email"
  else if existsb (fun u => bool_decide (User.username u = username))
            (users db)
  then Some "users.username"
  else None.

(** The [**kwargs] of [create_user], which go to the constructor of
    [User] as they are: one entry for each column that the record [User.t]
    has besides the three named parameters; [None] is a keyword that was
    not given (for the two names and [last_login] also the value [None]:
    the column is NULL either way).  The key [id] is left to the store. *)
Record keywords := mk_keywords {
  kw_first_name : option string;
  kw_last_name : option string;
  kw_is_active : option bool;
  kw_is_staff : option bool;
  kw_is_superuser : option bool;
  kw_last_login : option Py.datetime }.

(** [Column(Boolean, default=...)] *)
Definition column_default (default : bool) (given : option bool) : bool :=
  match given with Some b => b | None => default end.

(** [BaseRepository.create] on [User]; the columns that no keyword sets
    take their defaults. *)
Definition create (db : Session) (email username password_hash : string)
    (kwargs : keywords) : Session * result User.t :=
  match violated db email username with
  | Some constraint =>
      (db, Raise (mk_exc DatabaseError "Failed to create User"
                    [("error", constraint)]))
  | None =>
      let entity :=
        User.mk (next_id (map User.id (users db))) email username
          password_hash (kw_first_name kwargs) (kw_last_name kwargs)
          (column_default true (kw_is_active kwargs))
          (column_default false (kw_is_staff kwargs))
          (column_default false (kw_is_superuser kwargs))
          (kw_last_login kwargs) in
      (mk_session (users db ++ [entity]) (categories db) (articles db),
       Return entity)
  end.

Definition create_user (db : Session) (email username password_hash : string)
    (kwargs : keywords) : Session * result User.t :=
  if email_exists db email then
    (db, Raise (raise_ ValidationError "Email address already exists"))
  else if username_exists db username then
    (db, Raise (raise_ ValidationError "Username already exists"))
  else create db (Py.lower email) username password_hash kwargs.



End UserStore.

(* ================================================================== *)
(** * cms/services: registration and password change *)
(* ================================================================== *)

(** [bcrypt.hashpw(password, salt)] *)
Class Bcrypt := { hashpw : string -> string -> string }.

Module Registration.
Import Exceptions ErrorManager Repositories Services.
Local Open Scope Z_scope.

(** The request body of a registration; a key that is absent is [None]. *)
Record registration_data := mk_registration_data {
  rd_email : option string;
  rd_username : option string;
  rd_password : option string;
  rd_first_name : option string;
  rd_last_name : option string }.

(** What [UserRegistrationSchema().load] returns. *)
Record validated := mk_validated {
  v_email : string;
  v_username : string;
  v_password : string;
  v_first_name : string;
  v_last_name : string }.

(** [validate.Length(max=50)] on an optional field with
    [load_default=""]. *)
Definition name_ok (v : option string) : bool :=
  match v with Some s => (Py.len s <=? 50)%nat | None => true end.

Definition invalid_input (why : string) : exc :=
  mk_exc SecurityException "Invalid input data" [("validation_errors", why)].

(** [ValidationHelper.validate_user_registration] *)
Definition validate_user_registration `{External} (data : registration_data)
    : result validated :=
  match rd_email data, rd_username data, rd_password data with
  | Some e, Some u, Some p =>
      if is_email e
         && ((3 <=? Py.len u)%nat && (Py.len u <=? 30)%nat
             && InputValidator.match_run_to_end InputValidator.username_char u)
         && ((8 <=? Py.len p)%nat && (Py.len p <=? 128)%nat
             && InputValidator.PASSWORD_PATTERN_match p)
         && name_ok (rd_first_name data) && name_ok (rd_last_name data)
      then Return (mk_validated e u p
                     (ArticleService.text_of (rd_first_name data))
                     (ArticleService.text_of (rd_last_name data)))
      else Raise (invalid_input "invalid")
  | _, _, _ => Raise (invalid_input "missing")
  end.

(** [_hash_password]; [salt] is what [bcrypt.gensalt(rounds=12)]
    returns. *)
Definition _hash_password `{Bcrypt} (salt password : string) : string :=
  hashpw password salt.

Definition registered_message : string := "User registered successfully".

(** The body of the [try] block of [register_user]. *)
Definition register_body `{External} `{Bcrypt} (salt : string)
    (db : Session) (data : registration_data)
    : Session * result (response User.t) :=
  match validate_user_registration data with
  | Raise e => (db, Raise e)
  | Diverge => (db, Diverge)
  | Return v =>
      let password_hash := _hash_password salt (v_password v) in
      match UserStore.create_user db (v_email v) (v_username v)
              password_hash
              (UserStore.mk_keywords (Some (v_first_name v))
                 (Some (v_last_name v)) None None None None)
      with
      | (db', Return user) =>
          (db', Return (mk_response true user registered_message))
      | (db', Raise e) => (db', Raise e)
      | (db', Diverge) => (db', Diverge)
      end
  end.

Definition register_context : dict := [ ("operation", "user_registration") ].

Definition registration_failed_message : string :=
  "Registration failed. Please check your input.".

Definition register_user `{External} `{Bcrypt} (w : ambient) (salt : string)
    (db : Session) (data : registration_data) : run (response User.t) :=
  match register_body salt db data with
  | (db', Raise e) =>
      if ArticleService.caught e then
        let '(error_response, record) :=
          handle_error w e MEDIUM (Some register_context)
            (Some registration_failed_message) in
        mk_run (Raise (mk_exc ValidationError
                         (message_of error_response) error_response))
          db' [record]
      else mk_run (Raise e) db' []
  | (db', r) => mk_run r db' []
  end.



End Registration.

(* ================================================================== *)
(** * cms/services and cms/repositories: deleting an article *)
(* ================================================================== *)

Module Removal.
Import Exceptions Repositories Services.
Local Open Scope Z_scope.

(** Remove the first row that [p] selects. *)
Fixpoint remove_first {A} (p : A -> bool) (rows : list A) : list A :=
  match rows with
  | [] => []
  | r :: rest => if p r then rest else r :: remove_first p rest
  end.

(** [BaseRepository.delete] on [Article]. *)
Definition delete (db : Session) (entity_id : Z) : Session * bool :=
  match ArticleRepository.get_by_id db entity_id with
  | None => (db, false)
  | Some _ =>
      (mk_session (users db) (categories db)
         (remove_first (fun a => Article.id a =? entity_id) (articles db)),
       true)
  end.

Definition deleted_message : string := "Article deleted successfully".

(** [ArticleService.delete_article] *)
Definition delete_article (db : Session) (article_id user_id : Z)
    : run (response unit) :=
  match ArticleRepository.get_by_id db article_id with
  | None =>
      mk_run (Raise (raise_ BusinessLogicError "Article not found")) db []
  | Some article =>
      if negb (ArticleService.may_edit db article user_id) then
        mk_run (Raise (raise_ BusinessLogicError
                         "You don't have permission to delete this article"))
          db []
      else
        let '(db', _) := delete db article_id in
        mk_run (Return (mk_response true tt deleted_message)) db' []
  end.

End Removal.

(* ================================================================== *)
(** * cms/controllers: pages by slug *)
(* ================================================================== *)

Module Pages.
Import Exceptions Repositories.

(** [User.display_name] *)
Definition display_name (u : User.t) : string :=
  if Py.truthy (User.full_name u) then User.full_name u
  else User.username u.

(** A controller's answer: [{"error": {"message": m}, "status_code": n}]
    or [{"success": True, "data": d, "status_code": n}]. *)
Inductive reply (A : Type) :=
| Failure (message : string) (status_code : Z)
| Success (data : A) (status_code : Z).
Arguments Failure {A} _ _.
Arguments Success {A} _ _.

(** The entry ["article"] of the data; [created_at] and [updated_at] are
    columns outside the model. *)
Record article_page := mk_article_page {
  ap_id : Z;
  ap_title : string;
  ap_slug : string;
  ap_content : string;
  ap_excerpt : option string;
  ap_author : string;
  ap_category : option string;
  ap_published_at : option string }.

(** [ArticleController.get_article_by_slug]; [article.author] of a row
    whose author is missing is [None], and reading [display_name] from it
    raises. *)
Definition get_article_by_slug (db : Session) (slug : string)
    : result (reply article_page) :=
  match ArticleRepository.get_by_slug db slug with
  | None => Return (Failure "Article not found" 404)
  | Some article =>
      if negb (Article.is_published article) then
        Return (Failure "Article not found" 404)
      else
        match UserRepository.get_by_id db (Article.author_id article) with
        | None => Raise (raise_ Exception "AttributeError")
        | Some author =>
            Return
              (Success
                 (mk_article_page (Article.id article) (Article.title article)
                    (Article.slug article) (Article.content article)
                    (Article.excerpt article) (display_name author)
                    (match Article.category_id article with
                     | Some c =>
                         option_map Category.name
                           (CategoryRepository.get_by_id db c)
                     | None => None
                     end)
                    (option_map Py.isoformat (Article.published_at article)))
                 200)
        end
  end.

(** The entry ["category"] of the data, without [created_at]. *)
Record category_page := mk_category_page {
  cp_id : Z;
  cp_name : string;
  cp_slug : string;
  cp_description : option string }.

Definition get_by_slug (db : Session) (slug : string) : option Category.t :=
  first (fun c => bool_decide (Category.slug c = slug)) (categories db).

(** [CategoryController.get_category_by_slug] *)
Definition get_category_by_slug (db : Session) (slug : string)
    : reply category_page :=
  match get_by_slug db slug with
  | None => Failure "Category not found" 404
  | Some category =>
      if negb (Category.is_active category) then
        Failure "Category not found" 404
      else
        Success (mk_category_page (Category.id category)
                   (Category.name category) (Category.slug category)
                   (Category.description category)) 200
  end.

End Pages.

(* ================================================================== *)
(** * More sample data *)
(* ================================================================== *)

Module Samples.
Import Repositories Services.

(** A stand-in for bcrypt that goes with [Fixtures.libraries]: the hash
    is the password itself. *)
Definition plain : Bcrypt := {| hashpw := fun password _ => password |}.

(** Two of the ranges of the category Nd: the digits [0] to [9] and the
    Arabic-Indic digits U+0660 to U+0669. *)
Definition digits : Unicode :=
  {| decimal_digit := fun c =>
       ((48 <=? c) && (c <=? 57)) || ((1632 <=? c) && (c <=? 1641)) |}.

(** The password that starts with U+0663 and goes on with [Test12@]. *)
Definition arabic_three : UnicodeValidator.str :=
  1635 :: UnicodeValidator.code_points "Test12@".

Definition carol_data : Registration.registration_data :=
  Registration.mk_registration_data (Some "Carol@Example.org")
    (Some "carol_1") (Some "Test123@") (Some "Carol") None.

Definition carol_login : Validators.login_data :=
  Validators.mk_login_data (Some "Carol@Example.org") (Some "Test123@").


Definition staff : User.t :=
  User.mk 3 "sue@example.org" "sue" "pw" None None true true false None.

Definition newsroom : Session :=
  mk_session [Fixtures.ann; Fixtures.bob; staff] [Fixtures.science]
    [Fixtures.hello; Fixtures.hello_again].

Definition hello_retitled : ArticleService.article_data :=
  ArticleService.mk_article_data (Some "  Hello -- World?  ") None None None
    None.

Definition science_again : CategoryService.category_data :=
  CategoryService.mk_category_data (Some " Science ") None None.

Definition failed_insert : Exceptions.exc :=
  Exceptions.mk_exc Exceptions.DatabaseError "Failed to create Article"
    [("error", "articles.slug")].

Definition failed_update : Exceptions.exc :=
  Exceptions.mk_exc Exceptions.DatabaseError "Failed to update Article" [].

End Samples.

(* ================================================================== *)
(** * Strings as lists of characters *)
(* ================================================================== *)

Abbreviation chars := list_ascii_of_string.

Lemma chars_app (s t : string) : chars (s +:+ t) = chars s ++ chars t.
Proof.
  induction s as [|c s IH]; [reflexivity|].
  change (String c s +:+ t) with (String c (s +:+ t)).
  simpl. now rewrite IH.
Qed.

Lemma string_of_chars (s : string) (l : list ascii) :
  chars s = l -> s = string_of_list_ascii l.
Proof.
  intros <-. symmetry. apply string_of_list_ascii_of_string.
Qed.

Lemma length_chars (s : string) : length (chars s) = String.length s.
Proof. induction s; simpl; congruence. Qed.

Lemma length_app_string (s t : string) :
  String.length (s +:+ t) = (String.length s + String.length t)%nat.
Proof. rewrite <- !length_chars, chars_app. apply length_app. Qed.

Lemma app_empty_l (s : string) : "" +:+ s = s.
Proof. reflexivity. Qed.

Lemma app_cons (c : ascii) (s t : string) :
  String c s +:+ t = String c (s +:+ t).
Proof. reflexivity. Qed.

(* ================================================================== *)
(** * Slug normalisation *)
(* ================================================================== *)

Section Normalisation.

Lemma chars_lower (s : string) :
  chars (Py.lower s) = Spec.lowercase (chars s).
Proof.
  induction s as [|c s IH]; simpl; [reflexivity|]. now rewrite IH.
Qed.

(** Deleting the matches of a class keeps the complement. *)
Lemma chars_re_sub_delete (cls keep : ascii -> bool) (s : string) :
  (forall c, keep c = negb (cls c)) ->
  chars (Py.re_sub_class cls "" s) = Spec.strip_others keep (chars s).
Proof.
  intros Hk. induction s as [|c s IH]; simpl; [reflexivity|].
  rewrite Hk. destruct (cls c); simpl.
  - rewrite app_empty_l. exact IH.
  - now rewrite IH.
Qed.

Lemma collapse_cons (c : ascii) (l : list ascii) :
  Spec.collapse_runs (c :: l) =
  if Spec.separator c then
    if Spec.starts_with_hyphen (Spec.collapse_runs l)
    then Spec.collapse_runs l
    else Py.hyphen :: Spec.collapse_runs l
  else c :: Spec.collapse_runs l.
Proof. reflexivity. Qed.

Lemma hyphen_is_separator (c : ascii) :
  Py.is_hyphen c = true -> Spec.separator c = true.
Proof. unfold Spec.separator. intros ->. apply orb_true_r. Qed.

(** The collapsed text starts with a hyphen exactly when the text
    starts with a separator. *)
Lemma collapse_head (l : list ascii) :
  Spec.starts_with_hyphen (Spec.collapse_runs l) =
  match l with c :: _ => Spec.separator c | [] => false end.
Proof.
  destruct l as [|c l]; [reflexivity|].
  rewrite collapse_cons.
  destruct (Spec.separator c) eqn:Hs.
  - destruct (Spec.starts_with_hyphen (Spec.collapse_runs l)) eqn:Hh;
      [exact Hh | reflexivity].
  - simpl. destruct (Py.is_hyphen c) eqn:Hc; [|reflexivity].
    apply hyphen_is_separator in Hc. congruence.
Qed.

Lemma collapse_hyphen_first (l : list ascii) :
  Spec.starts_with_hyphen (Spec.collapse_runs l) = true ->
  Spec.collapse_runs l = Py.hyphen :: tl (Spec.collapse_runs l).
Proof.
  induction l as [|c l IH]; [discriminate|].
  rewrite collapse_cons.
  destruct (Spec.separator c) eqn:Hs.
  - destruct (Spec.starts_with_hyphen (Spec.collapse_runs l)) eqn:Hh;
      [intros _; now apply IH | reflexivity].
  - simpl. intros Hc. apply hyphen_is_separator in Hc. congruence.
Qed.

(** The left-to-right scan of [re.sub] against the wording's
    right-to-left collapse. *)
Lemma chars_re_sub_plus_from (cls : ascii -> bool) (s : string) :
  (forall c, cls c = Spec.separator c) ->
  forall in_match,
    chars (Py.re_sub_plus_from in_match cls "-" s) =
    if in_match && Spec.starts_with_hyphen (Spec.collapse_runs (chars s))
    then tl (Spec.collapse_runs (chars s))
    else Spec.collapse_runs (chars s).
Proof.
  intros Hcls. induction s as [|c s IH]; intros b.
  - simpl. now destruct b.
  - cbn [Py.re_sub_plus_from]. cbn [list_ascii_of_string].
    rewrite Hcls, collapse_cons.
    destruct (Spec.separator c) eqn:Hs.
    + pose proof (IH true) as IHt. cbn [andb] in IHt.
      destruct (Spec.starts_with_hyphen (Spec.collapse_runs (chars s)))
        eqn:Hh.
      * rewrite Hh. destruct b; cbn [andb].
        -- exact IHt.
        -- rewrite chars_app, IHt. cbn.
           symmetry. now apply collapse_hyphen_first.
      * destruct b; cbn [andb].
        -- cbn. exact IHt.
        -- rewrite chars_app, IHt. reflexivity.
    + cbn [list_ascii_of_string]. rewrite (IH false). cbn [andb].
      assert (Hc : Py.is_hyphen c = false).
      { destruct (Py.is_hyphen c) eqn:Hc; [|reflexivity].
        apply hyphen_is_separator in Hc. congruence. }
      cbn [Spec.starts_with_hyphen]. rewrite Hc, andb_false_r.
      reflexivity.
Qed.

Lemma chars_re_sub_plus (cls : ascii -> bool) (s : string) :
  (forall c, cls c = Spec.separator c) ->
  chars (Py.re_sub_plus cls "-" s) = Spec.collapse_runs (chars s).
Proof.
  intros Hcls. unfold Py.re_sub_plus.
  now rewrite (chars_re_sub_plus_from cls s Hcls false).
Qed.

Lemma char_in_hyphen (c : ascii) : Py.char_in c "-" = Py.is_hyphen c.
Proof. unfold Py.char_in, Py.is_hyphen. now rewrite orb_false_r. Qed.

Lemma chars_lstrip (s : string) :
  chars (Py.lstrip "-" s) = Spec.drop_hyphens (chars s).
Proof.
  induction s as [|c s IH]; [reflexivity|].
  cbn [Py.lstrip list_ascii_of_string Spec.drop_hyphens].
  rewrite char_in_hyphen. now destruct (Py.is_hyphen c).
Qed.

Lemma drop_hyphens_snoc (l : list ascii) (c : ascii) :
  Spec.drop_hyphens (l ++ [c]) =
  match Spec.drop_hyphens l with
  | [] => if Py.is_hyphen c then [] else [c]
  | l' => l' ++ [c]
  end.
Proof.
  induction l as [|d l IH]; [reflexivity|].
  cbn [app Spec.drop_hyphens].
  destruct (Py.is_hyphen d); [exact IH | reflexivity].
Qed.

Lemma chars_rstrip (s : string) :
  chars (Py.rstrip "-" s) = rev (Spec.drop_hyphens (rev (chars s))).
Proof.
  induction s as [|c s IH]; [reflexivity|].
  cbn [Py.rstrip list_ascii_of_string rev].
  rewrite drop_hyphens_snoc, char_in_hyphen.
  destruct (Py.rstrip "-" s) as [|d t] eqn:Hr.
  - destruct (Spec.drop_hyphens (rev (chars s))) as [|e l'] eqn:Hd.
    + now destruct (Py.is_hyphen c).
    + exfalso. apply (f_equal (@length ascii)) in IH.
      rewrite length_rev in IH. simpl in IH. discriminate.
  - destruct (Spec.drop_hyphens (rev (chars s))) as [|e l'] eqn:Hd.
    + discriminate.
    + change (chars (String c (String d t)))
        with (c :: chars (String d t)).
      rewrite IH, rev_app_distr. reflexivity.
Qed.

Lemma chars_strip (s : string) :
  chars (Py.strip "-" s) = Spec.trim_hyphens (chars s).
Proof.
  unfold Py.strip, Spec.trim_hyphens. now rewrite chars_rstrip, chars_lstrip.
Qed.

Lemma chars_slice_to (n : nat) (s : string) :
  chars (Py.slice_to n s) = firstn n (chars s).
Proof.
  revert s. induction n as [|n IH]; intros [|c s]; try reflexivity.
  simpl. now rewrite IH.
Qed.

Lemma length_slice_to (n : nat) (s : string) :
  (String.length (Py.slice_to n s) <= n)%nat.
Proof.
  rewrite <- length_chars, chars_slice_to, length_firstn. lia.
Qed.

(** The base slug has at most one hundred characters. *)
Lemma generate_slug_within_limit (title : string) :
  (Py.len (Services._generate_slug title) <= 100)%nat.
Proof. apply length_slice_to. Qed.

(** What the first substitution of [_generate_slug] keeps. *)
Lemma kept_by_code (c : ascii) :
  Spec.kept_with_underscore c =
  negb (negb (Py.is_word c || Py.isspace c || Py.is_hyphen c)).
Proof.
  rewrite negb_involutive. unfold Spec.kept_with_underscore, Py.is_word.
  reflexivity.
Qed.

Lemma generate_slug_as_worded (title : string) :
  Services._generate_slug title =
  Spec.normalize_with Spec.kept_with_underscore title.
Proof.
  apply string_of_chars. unfold Services._generate_slug.
  rewrite chars_slice_to, chars_strip, chars_re_sub_plus.
  - rewrite (chars_re_sub_delete _ Spec.kept_with_underscore).
    + now rewrite chars_lower.
    + apply kept_by_code.
  - intros c. unfold Spec.separator. apply orb_comm.
Qed.

End Normalisation.

(* ================================================================== *)
(** * The uniqueness loop *)
(* ================================================================== *)

Section UniquenessLoop.

Import Services.

Variable slug_exists : string -> bool.
Variable taken : list string.
Hypothesis slug_exists_spec :
  forall s, slug_exists s = true <-> s ∈ taken.
Variable base : string.

Lemma suffixed_inj : Inj (=) (=) (Spec.suffixed base).
Proof.
  intros j k H. unfold Spec.suffixed, Py.str_int in H.
  apply (inj (String.app base)) in H.
  apply (inj (String.app "-")) in H.
  now apply (inj pretty) in H.
Qed.

Lemma suffixed_not_base (k : N) : Spec.suffixed base k <> base.
Proof.
  intros H. apply (f_equal String.length) in H.
  unfold Spec.suffixed in H. rewrite !length_app_string in H.
  simpl in H. lia.
Qed.

Lemma NoDup_tried (n : nat) : NoDup (base :: Spec.suffixes base n).
Proof.
  constructor.
  - intros Hin. apply list_elem_of_fmap in Hin.
    destruct Hin as (i & Hi & _). symmetry in Hi.
    now apply suffixed_not_base in Hi.
  - apply NoDup_fmap_2_strong; [|apply NoDup_seq].
    intros i j _ _ H. apply suffixed_inj in H. lia.
Qed.

(** Pigeonhole: a taken base leaves a free suffix among the first
    [length taken]. *)
Lemma free_suffix_exists :
  base ∈ taken ->
  exists i : nat, (1 <= i <= length taken)%nat /\
                  Spec.suffixed base (N.of_nat i) ∉ taken.
Proof.
  intros Hbase.
  destruct (decide (Exists (fun s => s ∉ taken)
                      (Spec.suffixes base (length taken))))
    as [Hex | Hall].
  - apply Exists_exists in Hex. destruct Hex as (s & Hin & Hfree).
    apply list_elem_of_fmap in Hin.
    destruct Hin as (i & -> & Hi). apply elem_of_seq in Hi.
    exists i. split; [lia | exact Hfree].
  - exfalso. apply not_Exists_Forall in Hall; [|intros s; apply _].
    assert (Hsub : base :: Spec.suffixes base (length taken) ⊆+ taken).
    { apply NoDup_submseteq; [apply NoDup_tried|].
      intros s Hs. apply elem_of_cons in Hs as [-> | Hs]; [exact Hbase|].
      rewrite Forall_forall in Hall. specialize (Hall s Hs).
      simpl in Hall. now apply dec_stable in Hall. }
    apply submseteq_length in Hsub. simpl in Hsub.
    unfold Spec.suffixes in Hsub.
    rewrite length_fmap, length_seq in Hsub. lia.
Qed.

(** What the loop returns, when it returns. *)
Lemma loop_returns (fuel : nat) :
  forall slug counter r,
    unique_slug_loop slug_exists base fuel slug counter = Some r ->
    slug_exists r = false /\
    ((slug_exists slug = false /\ r = slug) \/
     (slug_exists slug = true /\
      exists k, counter <= k /\ r = Spec.suffixed base k /\
                forall j, counter <= j < k ->
                          slug_exists (Spec.suffixed base j) = true)).
Proof.
  induction fuel as [|fuel IH]; intros slug counter r; [discriminate|].
  cbn [unique_slug_loop].
  destruct (slug_exists slug) eqn:Hslug.
  - intros Hloop. apply IH in Hloop.
    destruct Hloop as [Hfree [[Hc ->] | [Hc (k & Hk & -> & Hbelow)]]].
    + split; [exact Hfree|]. right. split; [reflexivity|].
      exists counter. split; [lia|]. split; [reflexivity|]. intros j Hj; lia.
    + split; [exact Hfree|]. right. split; [reflexivity|].
      exists k. split; [lia|]. split; [reflexivity|].
      intros j Hj. destruct (N.eq_dec j counter) as [-> | Hne].
      * exact Hc.
      * apply Hbelow. lia.
  - intros [= <-]. split; [exact Hslug|]. left. now split.
Qed.

(** The loop ends as soon as a free candidate is within reach. *)
Lemma loop_ends (n : nat) :
  forall fuel slug counter,
    slug_exists (Spec.suffixed base (counter + N.of_nat n)) = false ->
    (n + 2 <= fuel)%nat ->
    is_Some (unique_slug_loop slug_exists base fuel slug counter).
Proof.
  induction n as [|n IH]; intros fuel slug counter Hfree Hfuel.
  - destruct fuel as [|[|fuel]]; [lia | lia |].
    cbn [unique_slug_loop]. rewrite N.add_0_r in Hfree.
    unfold Spec.suffixed in Hfree.
    destruct (slug_exists slug); [|eauto]. now rewrite Hfree.
  - destruct fuel as [|fuel]; [lia|]. cbn [unique_slug_loop].
    destruct (slug_exists slug); [|eauto].
    apply IH; [|lia].
    now replace (counter + 1 + N.of_nat n) with (counter + N.of_nat (S n))
      by lia.
Qed.

Lemma in_taken_dec (s : string) : s ∈ taken <-> slug_exists s = true.
Proof. symmetry. apply slug_exists_spec. Qed.

Lemma not_taken (s : string) : s ∉ taken <-> slug_exists s = false.
Proof. rewrite in_taken_dec. now destruct (slug_exists s). Qed.

(** With more fuel than there are taken slugs, the loop returns the
    slug the specification describes. *)
Lemma unique_slug_assigned (fuel : nat) :
  (length taken < fuel)%nat ->
  exists slug,
    unique_slug slug_exists fuel base = Some slug /\
    Spec.assigned (fun s => s ∈ taken) base slug.
Proof.
  intros Hfuel. unfold unique_slug.
  assert (Hsome : is_Some (unique_slug_loop slug_exists base fuel base 1)).
  { destruct (slug_exists base) eqn:Hb.
    - apply slug_exists_spec in Hb.
      destruct (free_suffix_exists Hb) as (i & Hi & Hfree).
      apply (loop_ends (i - 1)); [|lia].
      apply not_taken.
      now replace (1 + N.of_nat (i - 1)) with (N.of_nat i) by lia.
    - destruct fuel; [lia|]. cbn [unique_slug_loop]. rewrite Hb. eauto. }
  destruct Hsome as [slug Hslug]. exists slug. split; [exact Hslug|].
  apply loop_returns in Hslug.
  destruct Hslug as [Hfree [[Hb ->] | [Hb (k & Hk & -> & Hbelow)]]].
  - split; [now apply not_taken|]. split; [reflexivity|].
    intros Hin. apply in_taken_dec in Hin. congruence.
  - split; [now apply not_taken|]. split.
    + intros Hout. apply not_taken in Hout. congruence.
    + intros _. exists k. split; [exact Hk|]. split; [reflexivity|].
      intros j Hj. apply in_taken_dec. now apply Hbelow.
Qed.

End UniquenessLoop.


(* ================================================================== *)
(** * Slug assignment in the services *)
(* ================================================================== *)

Section SlugAssignment.

Import Repositories Services.

Lemma article_slug_exists_spec db exclude_id s :
  ArticleRepository.slug_exists db s exclude_id = true
  <-> s ∈ visible_articles db exclude_id.
Proof.
  unfold ArticleRepository.slug_exists, visible_articles.
  rewrite list_elem_of_In, in_map_iff.
  setoid_rewrite filter_In. split.
  - destruct (first _ _) as [a|] eqn:Hf; [|discriminate]. intros _.
    apply find_some in Hf. destruct Hf as (Hin & Hp).
    apply andb_true_iff in Hp as (Hs & He).
    apply bool_decide_eq_true in Hs. now exists a.
  - intros (a & Hs & Hin & He).
    destruct (first _ _) as [a'|] eqn:Hf; [reflexivity|].
    apply (find_none _ _ Hf) in Hin. cbv beta in Hin.
    rewrite He, andb_true_r in Hin.
    apply bool_decide_eq_false in Hin. contradiction.
Qed.

Lemma category_slug_exists_spec db s :
  CategoryRepository.slug_exists db s None = true
  <-> s ∈ visible_categories db.
Proof.
  unfold CategoryRepository.slug_exists, visible_categories.
  rewrite list_elem_of_In, in_map_iff. split.
  - destruct (first _ _) as [c|] eqn:Hf; [|discriminate]. intros _.
    apply find_some in Hf. destruct Hf as (Hin & Hp).
    apply andb_true_iff in Hp as (Hs & _).
    apply bool_decide_eq_true in Hs. now exists c.
  - intros (c & Hs & Hin).
    destruct (first _ _) as [c'|] eqn:Hf; [reflexivity|].
    apply (find_none _ _ Hf) in Hin. cbv beta in Hin.
    cbn [passes_exclusion] in Hin. rewrite andb_true_r in Hin.
    apply bool_decide_eq_false in Hin. contradiction.
Qed.

(** With positive keys the exclusion filter leaves out exactly the row
    named by [exclude_id]. *)
Lemma passes_exclusion_spec (exclude_id : option Z) (i : Z) :
  (0 < i)%Z ->
  passes_exclusion exclude_id i = true <-> exclude_id <> Some i.
Proof.
  intros Hpos. unfold passes_exclusion.
  destruct exclude_id as [x|]; [|easy].
  destruct (Z.eqb_spec x 0) as [-> | Hx].
  - split; [intros _ [= <-]; lia | easy].
  - rewrite negb_true_iff, Z.eqb_neq. split; congruence.
Qed.

Lemma visible_articles_namespace db exclude_id s :
  Spec.positive_ids db ->
  s ∈ visible_articles db exclude_id <-> Spec.article_namespace db exclude_id s.
Proof.
  intros Hpos. unfold visible_articles, Spec.article_namespace.
  rewrite list_elem_of_In, in_map_iff. setoid_rewrite filter_In.
  split.
  - intros (a & Hs & Hin & He). apply list_elem_of_In in Hin.
    exists a. split; [exact Hin|]. split; [exact Hs|].
    now apply passes_exclusion_spec; [apply Hpos|].
  - intros (a & Hin & Hs & He). exists a. split; [exact Hs|].
    split; [now apply list_elem_of_In|].
    now apply passes_exclusion_spec; [apply Hpos|].
Qed.

Lemma visible_categories_namespace db s :
  s ∈ visible_categories db <-> Spec.category_namespace db s.
Proof.
  unfold visible_categories, Spec.category_namespace.
  rewrite list_elem_of_In, in_map_iff. setoid_rewrite list_elem_of_In.
  split; intros (c & H1 & H2); exists c; now split.
Qed.

Lemma assigned_ext (S S' : string -> Prop) (base slug : string) :
  (forall s, S s <-> S' s) ->
  Spec.assigned S base slug -> Spec.assigned S' base slug.
Proof.
  intros Hsame (Hfree & Hbase & Hsuf). split; [|split].
  - now rewrite <- Hsame.
  - intros Hout. apply Hbase. now rewrite Hsame.
  - intros Hin. apply Hsame in Hin.
    destruct (Hsuf Hin) as (k & Hk & Hs & Hbelow).
    exists k. split; [exact Hk|]. split; [exact Hs|].
    intros j Hj. now apply Hsame, Hbelow.
Qed.

Lemma article_assign_slug_assigned db exclude_id title :
  Spec.positive_ids db ->
  exists slug,
    ArticleService.assign_slug db exclude_id title = Some slug /\
    Spec.assigned (Spec.article_namespace db exclude_id)
      (_generate_slug title) slug.
Proof.
  intros Hpos. unfold ArticleService.assign_slug.
  destruct (unique_slug_assigned
              (fun s => ArticleRepository.slug_exists db s exclude_id)
              (visible_articles db exclude_id)
              (fun s => article_slug_exists_spec db exclude_id s)
              (_generate_slug title) (S (length (articles db))))
    as (slug & Hslug & Hspec).
  - unfold visible_articles. rewrite length_map.
    pose proof (filter_length_le
                  (fun a => passes_exclusion exclude_id (Article.id a))
                  (articles db)).
    lia.
  - exists slug. split; [exact Hslug|].
    eapply assigned_ext; [|exact Hspec].
    intros s. now apply visible_articles_namespace.
Qed.

Lemma category_assign_slug_assigned db name :
  exists slug,
    CategoryService.assign_slug db name = Some slug /\
    Spec.assigned (Spec.category_namespace db) (_generate_slug name) slug.
Proof.
  unfold CategoryService.assign_slug.
  destruct (unique_slug_assigned
              (fun s => CategoryRepository.slug_exists db s None)
              (visible_categories db)
              (fun s => category_slug_exists_spec db s)
              (_generate_slug name) (S (length (categories db))))
    as (slug & Hslug & Hspec).
  - unfold visible_categories. rewrite length_map. lia.
  - exists slug. split; [exact Hslug|].
    eapply assigned_ext; [|exact Hspec].
    intros s. apply visible_categories_namespace.
Qed.

End SlugAssignment.

(* ================================================================== *)
(** * The claims *)
(* ================================================================== *)

Import Exceptions ErrorManager Repositories Services.

(** Membership in a list that is written out. *)
Ltac each_row H :=
  repeat (apply elem_of_cons in H as [-> | H]);
  [.. | now apply elem_of_nil in H].




(** C3, as it stands, fails on the underscore: the specification's
    normalisation deletes it and [_generate_slug] keeps it. *)
Lemma normalisation_keeps_underscore :
  _generate_slug "a_b" = "a_b" /\ Spec.normalize "a_b" = "ab" /\
  _generate_slug "a_b" <> Spec.normalize "a_b".
Proof. vm_compute. repeat split; discriminate. Qed.

Lemma lowercase_no_underscore (c : ascii) :
  (Py.ord (Py.lower_char c) =? 95) = (Py.ord c =? 95).
Proof. destruct c as [[] [] [] [] [] [] [] []]; reflexivity. Qed.

(** C3, amended. [_generate_slug] maps every text to its lowercase form
    with every character that is not alphanumeric, underscore, whitespace
    or hyphen deleted, runs of whitespace and hyphens collapsed to one
    hyphen, leading and trailing hyphens trimmed, and the result cut to 100
    characters; the underscore is the only character kept beyond the
    specification's class, so on a text without underscores the result is
    the specification's; "Hello, World!" becomes "hello-world". *)
Theorem generate_slug_normalises :
  (forall text,
      _generate_slug text
      = Spec.normalize_with Spec.kept_with_underscore text) /\
  (forall c,
      Spec.kept_with_underscore c
      = Spec.kept_as_worded c || (Py.ord c =? 95)) /\
  (forall text,
      Forall (fun c => Py.ord c <> 95) (chars text) ->
      _generate_slug text = Spec.normalize text) /\
  _generate_slug "Hello, World!" = "hello-world".
Proof.
  split; [exact generate_slug_as_worded|]. split; [|split].
  - intros c. unfold Spec.kept_with_underscore, Spec.kept_as_worded.
    destruct (Py.isalnum c), (Py.ord c =? 95), (Py.isspace c),
      (Py.is_hyphen c); reflexivity.
  - intros text Hno. rewrite generate_slug_as_worded.
    unfold Spec.normalize, Spec.normalize_with. do 4 f_equal.
    unfold Spec.strip_others, Spec.lowercase.
    induction Hno as [|c l Hc _ IH]; [reflexivity|].
    cbn [List.map List.filter]. rewrite IH. 
    unfold Spec.kept_with_underscore, Spec.kept_as_worded.
    rewrite lowercase_no_underscore.
    apply N.eqb_neq in Hc. rewrite Hc, orb_false_r. reflexivity.
  - vm_compute. reflexivity.
Qed.

Lemma generate_slug_normalises_witness :
  Forall (fun c => Py.ord c <> 95) (chars "Hello, World!") /\
  _generate_slug "Hello, World!" = Spec.normalize "Hello, World!".
Proof.
  assert (H : Forall (fun c => Py.ord c <> 95) (chars "Hello, World!")).
  { repeat constructor; discriminate. }
  split; [exact H|].
  exact (proj1 (proj2 (proj2 generate_slug_normalises)) "Hello, World!" H).
Defined.

(** C5. A base slug of one hundred characters that is in use gets its
    suffix after the cut: the slug the new article, or the new category, is
    stored under has 102 characters. *)
Theorem suffixed_slug_exceeds_limit :
  Py.len (_generate_slug Fixtures.long_title) = 100%nat /\
  (exists created,
      outcome (ArticleService.create_article (H := Fixtures.libraries)
                 Fixtures.world Fixtures.noon (fun db => db)
                 Fixtures.crowded Fixtures.long_request 1)
      = Return created /\
      ArticleService.assign_slug Fixtures.crowded None Fixtures.long_title
      = Some (Article.slug (entity created)) /\
      Py.len (Article.slug (entity created)) = 102%nat) /\
  (exists created,
      outcome (CategoryService.create_category Fixtures.world (fun db => db)
                 Fixtures.crowded Fixtures.long_name_request)
      = Return created /\
      CategoryService.assign_slug Fixtures.crowded Fixtures.long_name
      = Some (Category.slug (entity created)) /\
      Py.len (Category.slug (entity created)) = 102%nat).
Proof.
  split; [vm_compute; reflexivity|].
  split; eexists; (split; [vm_compute; reflexivity|]);
    split; vm_compute; reflexivity.
Qed.

(* ================================================================== *)
(** * Publication state *)
(* ================================================================== *)

Section Publication.

Context `{External}.
Import ArticleService.

Lemma find_replace_first {A} (p : A -> bool) (new : A) (rows : list A) :
  p new = true -> is_Some (List.find p rows) ->
  List.find p (replace_first p new rows) = Some new.
Proof.
  intros Hnew. induction rows as [|r rows IH]; intros [x Hx].
  - discriminate.
  - cbn [replace_first]. cbn [List.find] in Hx.
    destruct (p r) eqn:Hr.
    + cbn [List.find]. now rewrite Hnew.
    + cbn [List.find]. rewrite Hr. apply IH. eauto.
Qed.

Lemma replace_first_same {A} (p : A -> bool) (a : A) (rows : list A) :
  List.find p rows = Some a -> replace_first p a rows = rows.
Proof.
  induction rows as [|r rows IH]; [discriminate|].
  cbn [List.find replace_first]. destruct (p r).
  - now intros [= ->].
  - intros Hf. now rewrite IH.
Qed.

Lemma get_by_id_id db entity_id article :
  ArticleRepository.get_by_id db entity_id = Some article ->
  Article.id article = entity_id.
Proof.
  intros Hf. apply find_some in Hf. destruct Hf as (_ & Hid).
  now apply Z.eqb_eq in Hid.
Qed.

Lemma get_by_id_commit db entity_id article entity' :
  ArticleRepository.get_by_id db entity_id = Some article ->
  Article.id entity' = entity_id ->
  ArticleRepository.get_by_id (ArticleRepository.commit db entity') entity_id
  = Some entity'.
Proof.
  intros Hf Hid. unfold ArticleRepository.get_by_id, ArticleRepository.commit,
    first in *. cbn [articles]. rewrite Hid.
  apply find_replace_first; [|eauto].
  rewrite Hid. apply Z.eqb_refl.
Qed.

Lemma set_attributes_id kwargs entity :
  Article.id (ArticleRepository.set_attributes kwargs entity)
  = Article.id entity.
Proof. reflexivity. Qed.

(** The loop of [assign_slug] always ends, on a slug that
    [slug_exists] denies. *)
Lemma assign_slug_total db exclude_id title :
  exists slug,
    assign_slug db exclude_id title = Some slug /\
    slug ∉ visible_articles db exclude_id.
Proof.
  unfold assign_slug.
  destruct (unique_slug_assigned
              (fun s => ArticleRepository.slug_exists db s exclude_id)
              (visible_articles db exclude_id)
              (fun s => article_slug_exists_spec db exclude_id s)
              (_generate_slug title) (S (length (articles db))))
    as (slug & Hslug & Hfree & _).
  - unfold visible_articles. rewrite length_map.
    pose proof (filter_length_le
                  (fun a => passes_exclusion exclude_id (Article.id a))
                  (articles db)).
    lia.
  - eauto.
Qed.

Lemma title_updates_total db article_id article data :
  exists slug,
    title_updates db article_id article data
    = Some (option_map Py.strip_ws (ad_title data), slug) /\
    (ad_title data = None -> slug = None) /\
    forall new_slug, slug = Some new_slug ->
                     new_slug ∉ visible_articles db (Some article_id).
Proof.
  unfold title_updates. destruct (ad_title data) as [t|].
  - destruct (bool_decide _).
    + exists None. repeat split; discriminate.
    + destruct (assign_slug_total db (Some article_id) (Py.strip_ws t))
        as (slug & -> & Hfree).
      exists (Some slug). repeat split; [discriminate|].
      now intros ? [= <-].
  - exists None. repeat split. discriminate.
Qed.

(** A slug that [slug_exists] denies with the row excluded is the slug
    of no other row. *)
Lemma free_slug_no_conflict db article_id new_slug :
  new_slug ∉ visible_articles db (Some article_id) ->
  existsb (fun a => bool_decide (Article.slug a = new_slug)
                    && negb (Article.id a =? article_id)%Z)
    (articles db) = false.
Proof.
  intros Hfree. apply not_true_is_false. intros Hex.
  apply existsb_exists in Hex. destruct Hex as (a & Hin & Hp).
  apply andb_true_iff in Hp as (Hs & Hid).
  apply bool_decide_eq_true in Hs. apply Hfree.
  unfold visible_articles. rewrite list_elem_of_In, in_map_iff.
  exists a. split; [exact Hs|]. apply filter_In. split; [exact Hin|].
  unfold passes_exclusion. destruct (article_id =? 0)%Z; [reflexivity|].
  exact Hid.
Qed.

(** [update_article] on an article the user may edit, with an acceptable
    category: the keyword arguments it builds, and the commit. *)
Lemma update_article_commits now db article_id data user_id article :
  ArticleRepository.get_by_id db article_id = Some article ->
  may_edit db article user_id = true ->
  match ad_category_id data with
  | Some c => category_rejected db c = false
  | None => True
  end ->
  exists slug,
    let kwargs :=
      ArticleRepository.mk_update_data
        (option_map Py.strip_ws (ad_title data)) slug
        (option_map Validators.sanitize_html (ad_content data))
        (option_map (fun e => excerpt_of (Some e)) (ad_excerpt data))
        (ad_category_id data)
        (fst (publication_updates now article data))
        (snd (publication_updates now article data)) in
    let entity' := ArticleRepository.set_attributes kwargs article in
    (ad_title data = None -> slug = None) /\
    update_article now db article_id data user_id
    = mk_run (Return (mk_response true entity' updated_message))
        (ArticleRepository.commit db entity') [].
Proof.
  intros Hget Hedit Hcat. unfold update_article. rewrite Hget, Hedit.
  cbn [negb].
  destruct (title_updates_total db article_id article data)
    as (slug & -> & Hnone & Hfree).
  exists slug. cbv zeta. split; [exact Hnone|].
  assert (Hok : match ad_category_id data with
                | Some category_id => category_rejected db category_id
                | None => false
                end = false).
  { destruct (ad_category_id data); [exact Hcat | reflexivity]. }
  rewrite Hok.
  destruct (publication_updates now article data) as (p, q).
  cbn [fst snd]. unfold ArticleRepository.update. rewrite Hget.
  match goal with
  | |- context [negb ?b && existsb ?f ?l] =>
      assert (Hfine : negb b && existsb f l = false)
  end.
  { destruct slug as [new_slug|].
    - cbn [ArticleRepository.set_attributes ArticleRepository.ud_slug
             ArticleRepository.or_keep Article.slug].
      rewrite (free_slug_no_conflict db article_id new_slug (Hfree _ eq_refl)).
      apply andb_false_r.
    - cbn [ArticleRepository.set_attributes ArticleRepository.ud_slug
             ArticleRepository.or_keep Article.slug].
      now rewrite bool_decide_eq_true_2. }
  rewrite Hfine. reflexivity.
Qed.

(** Every call of [update_article] either raises and leaves the session
    as it was, or commits the attributes it collected. *)
Lemma update_article_cases now db article_id data user_id :
  (exists e, update_article now db article_id data user_id
             = mk_run (Raise e) db []) \/
  (exists article slug,
      ArticleRepository.get_by_id db article_id = Some article /\
      let entity' :=
        ArticleRepository.set_attributes
          (ArticleRepository.mk_update_data
             (option_map Py.strip_ws (ad_title data)) slug
             (option_map Validators.sanitize_html (ad_content data))
             (option_map (fun e => excerpt_of (Some e)) (ad_excerpt data))
             (ad_category_id data)
             (fst (publication_updates now article data))
             (snd (publication_updates now article data)))
          article in
      (ad_title data = None -> slug = None) /\
      update_article now db article_id data user_id
      = mk_run (Return (mk_response true entity' updated_message))
          (ArticleRepository.commit db entity') []).
Proof.
  destruct (ArticleRepository.get_by_id db article_id) as [article|] eqn:Hget.
  - destruct (may_edit db article user_id) eqn:Hedit.
    + destruct (match ad_category_id data with
                | Some c => category_rejected db c
                | None => false
                end) eqn:Hcat.
      * left. unfold update_article. rewrite Hget, Hedit. cbn [negb].
        destruct (title_updates_total db article_id article data)
          as (slug & -> & _). rewrite Hcat. eauto.
      * right. exists article.
        destruct (update_article_commits now db article_id data user_id
                    article Hget Hedit) as (slug & Hslug).
        { destruct (ad_category_id data); [exact Hcat | exact I]. }
        exists slug. split; [reflexivity | exact Hslug].
    + left. unfold update_article. rewrite Hget, Hedit. eauto.
  - left. unfold update_article. rewrite Hget. eauto.
Qed.

Lemma commit_same db entity_id article :
  ArticleRepository.get_by_id db entity_id = Some article ->
  ArticleRepository.commit db article = db.
Proof.
  intros Hget. pose proof (get_by_id_id _ _ _ Hget) as Hid.
  unfold ArticleRepository.commit. rewrite replace_first_same.
  - now destruct db.
  - rewrite Hid. exact Hget.
Qed.

(** [publish], [unpublish] and [update_article] keep the invariant of an
    article that has it. *)
Lemma publish_keeps_invariant now article :
  Spec.publication_invariant article ->
  Spec.publication_invariant (Article.publish now article) /\
  Spec.publication_invariant (Article.unpublish article).
Proof.
  unfold Spec.publication_invariant, Article.publish, Article.unpublish.
  intros Hinv. destruct (Article.is_published article) eqn:Hp; cbn.
  - split; [now rewrite Hp|]. split; [discriminate | now intros [? [=]]].
  - split; [|now rewrite Hp]. split; eauto.
Qed.

Lemma update_article_keeps_invariant now db article_id data user_id
    article updated :
  ArticleRepository.get_by_id db article_id = Some article ->
  Spec.publication_invariant article ->
  outcome (update_article now db article_id data user_id) = Return updated ->
  Spec.publication_invariant (entity updated).
Proof.
  intros Hget Hinv.
  destruct (update_article_cases now db article_id data user_id)
    as [(e & ->) | (article' & slug & Hget' & _ & ->)]; [discriminate|].
  rewrite Hget in Hget'. injection Hget' as <-.
  cbn [outcome]. intros [= <-]. cbn [entity].
  unfold Spec.publication_invariant in *.
  cbn [ArticleRepository.set_attributes Article.is_published
         Article.published_at ArticleRepository.ud_is_published
         ArticleRepository.ud_published_at].
  unfold publication_updates.
  destruct (ad_is_published data) as [[|]|],
    (Article.is_published article) eqn:Hp; cbn; try exact Hinv.
  - split; eauto.
  - split; [discriminate | now intros [? [=]]].
Qed.

End Publication.

(* ================================================================== *)
(** * Claims on the publication state *)
(* ================================================================== *)

(** C2. An article created with [is_published = True] in its payload is
    stored as published with no [published_at]: [create] stores the flag,
    and [publish], called next, does nothing on an article whose flag is
    already set. *)
Theorem created_published_article_has_no_timestamp :
  let r := ArticleService.create_article (H := Fixtures.libraries)
             Fixtures.world Fixtures.noon (fun db => db) Fixtures.empty
             Fixtures.published_request 1 in
  exists created,
    outcome r = Return created /\
    Article.is_published (entity created) = true /\
    Article.published_at (entity created) = None /\
    ~ Spec.publication_invariant (entity created) /\
    ArticleRepository.get_by_id (session r) (Article.id (entity created))
    = Some (entity created) /\
    Article.publish Fixtures.noon (entity created) = entity created.
Proof.
  eexists. split; [vm_compute; reflexivity|].
  split; [reflexivity|]. split; [reflexivity|]. split.
  - intros [Hdated _]. now destruct (Hdated eq_refl).
  - split; vm_compute; reflexivity.
Qed.

(** C6. Through [update_article], on an article the user may edit and with
    an acceptable category: the call returns; the flag becomes the one in
    the payload; [published_at] becomes the current time on draft to
    published, absent on published to draft, and keeps its value when the
    flag does not change; a payload with nothing but the unchanged flag
    leaves the session as it was.  On the model: [publish] on a published
    article and [unpublish] on a draft return the article as it is;
    [publish] on a draft sets the flag and the current time; [unpublish] on
    a published article clears both. *)
Theorem publish_state_transitions :
  (forall (libs : External) now db article_id data user_id article flag,
      ArticleRepository.get_by_id db article_id = Some article ->
      ArticleService.may_edit db article user_id = true ->
      match ArticleService.ad_category_id data with
      | Some c => ArticleService.category_rejected db c = false
      | None => True
      end ->
      ArticleService.ad_is_published data = Some flag ->
      let r := ArticleService.update_article now db article_id data user_id in
      exists updated,
        outcome r = Return updated /\
        ArticleRepository.get_by_id (session r) article_id
        = Some (entity updated) /\
        Article.is_published (entity updated) = flag /\
        Article.published_at (entity updated)
        = match Article.is_published article, flag with
          | false, true => Some now
          | true, false => None
          | _, _ => Article.published_at article
          end /\
        (ArticleService.ad_title data = None ->
         ArticleService.ad_content data = None ->
         ArticleService.ad_excerpt data = None ->
         ArticleService.ad_category_id data = None ->
         flag = Article.is_published article ->
         session r = db /\ entity updated = article)) /\
  (forall now article,
      Article.is_published article = true ->
      Article.publish now article = article) /\
  (forall article,
      Article.is_published article = false ->
      Article.unpublish article = article) /\
  (forall now article,
      Article.is_published article = false ->
      Article.is_published (Article.publish now article) = true /\
      Article.published_at (Article.publish now article) = Some now) /\
  (forall article,
      Article.is_published article = true ->
      Article.is_published (Article.unpublish article) = false /\
      Article.published_at (Article.unpublish article) = None).
Proof.
  split; [|repeat split; intros; unfold Article.publish, Article.unpublish;
           rewrite ?H; reflexivity].
  intros libs now db article_id data user_id article flag Hget Hedit Hcat
    Hflag r.
  destruct (update_article_commits now db article_id data user_id article
              Hget Hedit Hcat) as (slug & Hslug & Hrun).
  cbv zeta in Hrun. subst r. rewrite Hrun. cbn [outcome session entity].
  eexists. split; [reflexivity|]. cbn [entity].
  split.
  { eapply get_by_id_commit; [exact Hget|].
    rewrite set_attributes_id. now apply (get_by_id_id db). }
  unfold ArticleService.publication_updates. rewrite Hflag. cbn [fst snd].
  split; [reflexivity|]. split.
  { cbn [ArticleRepository.set_attributes Article.published_at
           ArticleRepository.ud_published_at ArticleRepository.or_keep].
    destruct (Article.is_published article), flag; reflexivity. }
  intros Ht Hc He Hk ->. rewrite Ht, Hc, He, Hk, (Hslug Ht).
  assert (Hsame :
    ArticleRepository.set_attributes
      (ArticleRepository.mk_update_data (option_map Py.strip_ws None) None
         (option_map Validators.sanitize_html None)
         (option_map (fun e => ArticleService.excerpt_of (Some e)) None)
         None (Some (Article.is_published article))
         (if Article.is_published article
             && negb (Article.is_published article)
          then Some (Some now)
          else if negb (Article.is_published article)
                  && Article.is_published article
               then Some None else None))
      article = article).
  { destruct article as [i t s c e p a au ca]. cbn. now destruct p. }
  rewrite Hsame. split; [|reflexivity].
  now apply (commit_same db article_id).
Qed.

Lemma publish_state_transitions_witness :
  ArticleRepository.get_by_id Fixtures.library 1 = Some Fixtures.hello /\
  ArticleService.may_edit Fixtures.library Fixtures.hello 1 = true /\
  exists updated,
    outcome (ArticleService.update_article (H := Fixtures.libraries)
               Fixtures.noon Fixtures.library 1 Fixtures.publish_request 1)
    = Return updated /\
    Article.published_at (entity updated) = Some Fixtures.noon.
Proof.
  split; [reflexivity|]. split; [reflexivity|].
  destruct (proj1 publish_state_transitions Fixtures.libraries Fixtures.noon
              Fixtures.library 1%Z Fixtures.publish_request 1%Z
              Fixtures.hello true eq_refl eq_refl I eq_refl)
    as (updated & Hout & _ & _ & Hat & _).
  exists updated. split; [exact Hout | exact Hat].
Defined.

(** C7. When the payload of [update_article] leaves [is_published] out or
    repeats the stored value, the call ends and the stored [published_at]
    of the article is what it was before, whatever else the payload
    changes and whether the call returns or raises. *)
Theorem update_keeps_published_at :
  forall (libs : External) now db article_id data user_id,
    (ArticleService.ad_is_published data = None \/
     exists article,
       ArticleRepository.get_by_id db article_id = Some article /\
       ArticleService.ad_is_published data
       = Some (Article.is_published article)) ->
    let r := ArticleService.update_article now db article_id data user_id in
    outcome r <> Diverge /\
    option_map Article.published_at
      (ArticleRepository.get_by_id (session r) article_id)
    = option_map Article.published_at
        (ArticleRepository.get_by_id db article_id).
Proof.
  intros libs now db article_id data user_id Hkeeps r. subst r.
  destruct (update_article_cases now db article_id data user_id)
    as [(e & ->) | (article & slug & Hget & _ & ->)].
  - cbn [outcome session]. split; [discriminate | reflexivity].
  - cbn [outcome session]. split; [discriminate|].
    erewrite get_by_id_commit;
      [|exact Hget | rewrite set_attributes_id; now apply (get_by_id_id db)].
    rewrite Hget. cbn [option_map]. f_equal.
    cbn [ArticleRepository.set_attributes Article.published_at
           ArticleRepository.ud_published_at].
    assert (Hnone : snd (ArticleService.publication_updates now article data)
                    = None).
    { unfold ArticleService.publication_updates.
      destruct Hkeeps as [-> | (article' & Hget' & ->)]; [reflexivity|].
      rewrite Hget in Hget'. injection Hget' as <-. cbn [snd].
      now destruct (Article.is_published article). }
    now rewrite Hnone.
Qed.

Lemma update_keeps_published_at_witness :
  ArticleService.ad_is_published Fixtures.retitle_request = None /\
  Article.title
    <$> ArticleRepository.get_by_id
          (session (ArticleService.update_article (H := Fixtures.libraries)
                      Fixtures.later Fixtures.library 2
                      Fixtures.retitle_request 1)) 2
  = Some "Hello there" /\
  option_map Article.published_at
    (ArticleRepository.get_by_id
       (session (ArticleService.update_article (H := Fixtures.libraries)
                   Fixtures.later Fixtures.library 2
                   Fixtures.retitle_request 1)) 2)
  = Some (Some Fixtures.noon).
Proof.
  split; [reflexivity|]. split; [vm_compute; reflexivity|].
  rewrite (proj2 (update_keeps_published_at Fixtures.libraries Fixtures.later
                    Fixtures.library 2%Z Fixtures.retitle_request 1%Z
                    (or_introl eq_refl))).
  reflexivity.
Defined.

(* ================================================================== *)
(** * Claims on collisions at the store *)
(* ================================================================== *)

Lemma existsb_elem {A} (p : A -> bool) (rows : list A) (x : A) :
  x ∈ rows -> p x = true -> existsb p rows = true.
Proof.
  intros Hin Hp. apply existsb_exists. exists x.
  now rewrite <- list_elem_of_In.
Qed.

(** C4, as it stands, fails: when another request commits the slug
    "science" between the check and the insert, [create_category] raises;
    it does not return a category under the next suffix. *)
Lemma slug_collision_is_not_retried :
  let r := CategoryService.create_category Fixtures.world Fixtures.rival
             Fixtures.empty Fixtures.science_request in
  CategoryService.assign_slug Fixtures.empty "Science" = Some "science" /\
  (exists e, outcome r = Raise e /\ cls e = ValidationError /\
             dict_get "type" (details e) = Some "DatabaseError") /\
  (forall created, outcome r <> Return created) /\
  CategoryRepository.get_by_id (session r) 8 = None.
Proof.
  cbv zeta. split; [vm_compute; reflexivity|]. split.
  - eexists. repeat split; vm_compute; reflexivity.
  - split; [intros created; vm_compute; discriminate|].
    vm_compute; reflexivity.
Qed.

(** C4, amended. When the slug that assignment chose is in use at the
    store by the time of the insert, the repository rolls back and raises
    [DatabaseError]; the service makes no further attempt: it hands the
    error to the error manager and raises [ValidationError] with the
    default message for MEDIUM, whose details give the type as
    [DatabaseError]; the session holds what the other requests committed
    and no new row.  This holds for articles and for categories. *)
Theorem slug_collision_surfaces_as_validation_error :
  (forall (libs : External) w now others db data author_id slug,
      ArticleService.missing (ArticleService.ad_title data) = false ->
      ArticleService.missing (ArticleService.ad_content data) = false ->
      ArticleService.category_rejected db
        (match ArticleService.ad_category_id data with
         | Some c => c | None => None end) = false ->
      ArticleService.assign_slug db None
        (ArticleService.text_of (ArticleService.ad_title data)) = Some slug ->
      (exists a, a ∈ articles (others db) /\ Article.slug a = slug) ->
      let r := ArticleService.create_article w now others db data author_id in
      exists e,
        outcome r = Raise e /\ cls e = ValidationError /\
        message e = _get_default_message MEDIUM /\
        dict_get "type" (details e) = Some "DatabaseError" /\
        session r = others db) /\
  (forall w others db data slug,
      ArticleService.missing (CategoryService.cd_name data) = false ->
      CategoryService.assign_slug db
        (ArticleService.text_of (CategoryService.cd_name data)) = Some slug ->
      (exists c, c ∈ categories (others db) /\ Category.slug c = slug) ->
      let r := CategoryService.create_category w others db data in
      exists e,
        outcome r = Raise e /\ cls e = ValidationError /\
        message e = _get_default_message MEDIUM /\
        dict_get "type" (details e) = Some "DatabaseError" /\
        session r = others db).
Proof.
  split.
  - intros libs w now others db data author_id slug Ht Hc Hcat Hslug
      (a & Hin & Ha) r. subst r.
    unfold ArticleService.create_article, ArticleService.create_body.
    rewrite Ht, Hc, Hslug, Hcat. unfold ArticleRepository.create.
    rewrite (existsb_elem _ _ a Hin) by now apply bool_decide_eq_true.
    cbn. eexists. repeat split.
  - intros w others db data slug Hn Hslug (c & Hin & Hc) r. subst r.
    unfold CategoryService.create_category, CategoryService.create_body.
    rewrite Hn, Hslug. unfold CategoryRepository.create.
    assert (Hv : exists constraint,
               CategoryRepository.violated (others db)
                 (Py.strip_ws (ArticleService.text_of
                                 (CategoryService.cd_name data))) slug
               = Some constraint).
    { unfold CategoryRepository.violated.
      destruct (existsb _ _); [eauto|].
      rewrite (existsb_elem _ _ c Hin) by now apply bool_decide_eq_true.
      eauto. }
    destruct Hv as (constraint & ->). cbn. eexists. repeat split.
Qed.

Lemma slug_collision_surfaces_as_validation_error_witness :
  exists e,
    outcome (CategoryService.create_category Fixtures.world Fixtures.rival
               Fixtures.empty Fixtures.science_request) = Raise e /\
    cls e = ValidationError /\
    message e = "An error occurred while processing your request." /\
    dict_get "type" (details e) = Some "DatabaseError" /\
    session (CategoryService.create_category Fixtures.world Fixtures.rival
               Fixtures.empty Fixtures.science_request)
    = Fixtures.rival Fixtures.empty.
Proof.
  apply (proj2 slug_collision_surfaces_as_validation_error Fixtures.world
           Fixtures.rival Fixtures.empty Fixtures.science_request "science").
  - reflexivity.
  - vm_compute; reflexivity.
  - eexists. split; [apply list_elem_of_here | reflexivity].
Defined.

(* ================================================================== *)
(** * Claims on the error manager *)
(* ================================================================== *)

(** C8, as it stands, fails on the empty message: a caller that supplies
    [user_message = ""] gets the default message for the severity. *)
Lemma empty_user_message_is_replaced :
  dict_get "message"
    (fst (handle_error Fixtures.world (raise_ ValidationError "bad input")
            LOW None (Some "")))
  = Some "A minor issue occurred. Please try again." /\
  dict_get "message"
    (fst (handle_error Fixtures.world (raise_ ValidationError "bad input")
            LOW None (Some "")))
  <> Some "".
Proof. split; [vm_compute; reflexivity | vm_compute; discriminate]. Qed.

(** C8, amended. The record [handle_error] returns has exactly the keys
    [error_id], [message], [severity], [timestamp], [type]; its message is
    the caller's [user_message] when one is given and is not empty, and
    otherwise the default for the severity, one fixed string for each of
    the four levels; the record is the same whatever the context, which
    goes to the log record only. *)
Theorem handle_error_response :
  forall w error severity context user_message,
    let r := fst (handle_error w error severity context user_message) in
    dict_keys r = ["error_id"; "message"; "severity"; "timestamp"; "type"] /\
    (forall m, user_message = Some m -> m <> "" ->
               dict_get "message" r = Some m) /\
    (user_message = None \/ user_message = Some "" ->
     dict_get "message" r = Some (_get_default_message severity)) /\
    (_get_default_message LOW = "A minor issue occurred. Please try again." /\
     _get_default_message MEDIUM
     = "An error occurred while processing your request." /\
     _get_default_message HIGH
     = "A serious error occurred. Please contact support." /\
     _get_default_message CRITICAL
     = "A critical system error occurred. Please contact support immediately.") /\
    (forall context',
        fst (handle_error w error severity context' user_message) = r) /\
    ld_context (extra (snd (handle_error w error severity context
                              user_message)))
    = match context with Some c => c | None => [] end.
Proof.
  intros w error severity context user_message r. subst r.
  split; [reflexivity|]. split; [|split; [|split; [|split]]].
  - intros m -> Hm. cbn. destruct m; [contradiction | reflexivity].
  - intros [-> | ->]; reflexivity.
  - repeat split.
  - reflexivity.
  - destruct severity; reflexivity.
Qed.

Lemma handle_error_response_witness :
  dict_get "message"
    (fst (handle_error Fixtures.world (raise_ ValidationError "bad input")
            MEDIUM (Some [("field", "email")])
            (Some "Please enter a valid email address")))
  = Some "Please enter a valid email address".
Proof.
  apply (proj1 (proj2 (handle_error_response Fixtures.world
                         (raise_ ValidationError "bad input") MEDIUM
                         (Some [("field", "email")])
                         (Some "Please enter a valid email address")))
           "Please enter a valid email address" eq_refl).
  discriminate.
Defined.

Lemma app_assoc_string (s t u : string) : (s +:+ t) +:+ u = s +:+ t +:+ u.
Proof.
  induction s as [|c s IH]; [reflexivity|].
  rewrite !app_cons. now rewrite IH.
Qed.

Lemma pretty_N_char_is_digit (d : N) :
  d < 10 -> Spec.is_digit (pretty_N_char d) = true.
Proof.
  intros Hlt.
  assert (Hcases : d = 0 \/ d = 1 \/ d = 2 \/ d = 3 \/ d = 4 \/ d = 5 \/
                   d = 6 \/ d = 7 \/ d = 8 \/ d = 9) by lia.
  repeat (destruct Hcases as [-> | Hcases]; [reflexivity|]).
  now subst.
Qed.

(** The digits of a number below [10^w]: at most [w] of them. *)
Lemma pretty_N_go_digits (w : nat) :
  forall n s,
    n < 10 ^ N.of_nat w ->
    Spec.digits_only s = true ->
    Spec.digits_only (pretty_N_go n s) = true /\
    (String.length (pretty_N_go n s) <= String.length s + w)%nat.
Proof.
  induction w as [|w IH]; intros n s Hlt Hs.
  - assert (n = 0) as -> by (cbn in Hlt; lia).
    rewrite pretty_N_go_0. split; [exact Hs | lia].
  - destruct (N.eq_dec n 0) as [-> | Hpos].
    + rewrite pretty_N_go_0. split; [exact Hs | lia].
    + rewrite pretty_N_go_step by lia.
      destruct (IH (n / 10) (String (pretty_N_char (n mod 10)) s))
        as (Hd & Hl).
      * apply N.Div0.div_lt_upper_bound.
        replace (N.of_nat (S w)) with (N.succ (N.of_nat w)) in Hlt by lia.
        now rewrite N.pow_succ_r' in Hlt.
      * cbn [Spec.digits_only]. rewrite Hs, andb_true_r.
        apply pretty_N_char_is_digit. now apply N.mod_lt.
      * split; [exact Hd|]. cbn [String.length] in Hl. lia.
Qed.

Lemma str_int_digits (w : nat) (n : N) :
  (1 <= w)%nat -> n < 10 ^ N.of_nat w ->
  Spec.digits_only (Py.str_int n) = true /\
  (Py.len (Py.str_int n) <= w)%nat.
Proof.
  intros Hw Hlt. unfold Py.str_int, pretty, pretty_N, Py.len.
  destruct (decide (n = 0)) as [-> | Hn].
  - split; [reflexivity | simpl; lia].
  - destruct (pretty_N_go_digits w n "" Hlt eq_refl) as (Hd & Hl).
    split; [exact Hd | simpl in Hl; lia].
Qed.

Lemma zeros_shape (k : nat) :
  Spec.digits_only (Py.zeros k) = true /\ String.length (Py.zeros k) = k.
Proof.
  induction k as [|k [IHd IHl]]; [now split|].
  cbn [Py.zeros Spec.digits_only String.length]. rewrite IHd, IHl.
  now split.
Qed.

Lemma digits_only_app (s t : string) :
  Spec.digits_only (s +:+ t) = Spec.digits_only s && Spec.digits_only t.
Proof.
  induction s as [|c s IH]; [reflexivity|].
  rewrite app_cons. cbn [Spec.digits_only]. now rewrite IH, andb_assoc.
Qed.

(** A field of width [w] holds exactly [w] digits when its value is below
    [10^w]. *)
Lemma zero_padded_shape (w : nat) (n : N) :
  (1 <= w)%nat -> n < 10 ^ N.of_nat w ->
  Spec.digits_only (Py.zero_padded w n) = true /\
  String.length (Py.zero_padded w n) = w.
Proof.
  intros Hw Hlt. destruct (str_int_digits w n Hw Hlt) as (Hd & Hl).
  unfold Py.zero_padded. cbv zeta.
  destruct (zeros_shape (w - Py.len (Py.str_int n))) as (Hzd & Hzl).
  rewrite digits_only_app, length_app_string, Hzd, Hd, Hzl.
  unfold Py.len in *. split; [reflexivity | lia].
Qed.

(** Matching a field of digits at the head of a pattern. *)
Lemma matches_digits (s : string) :
  forall pattern rest,
    Spec.digits_only s = true ->
    Spec.matches (repeat Spec.D (String.length s) ++ pattern) (s +:+ rest)
    = Spec.matches pattern rest.
Proof.
  induction s as [|c s IH]; intros pattern rest Hd; [reflexivity|].
  cbn [Spec.digits_only] in Hd. apply andb_true_iff in Hd as (Hc & Hs).
  rewrite app_cons. cbn [String.length repeat app Spec.matches Spec.D].
  rewrite Hc. cbn [andb]. now apply IH.
Qed.

Lemma matches_field (w : nat) (n : N) pattern rest :
  (1 <= w)%nat -> n < 10 ^ N.of_nat w ->
  Spec.matches (repeat Spec.D w ++ pattern) (Py.zero_padded w n +:+ rest)
  = Spec.matches pattern rest.
Proof.
  intros Hw Hlt. destruct (zero_padded_shape w n Hw Hlt) as (Hd & Hl).
  rewrite <- Hl at 1. now apply matches_digits.
Qed.

Lemma matches_literal (c : ascii) pattern (rest : string) :
  Spec.matches (Spec.lit c :: pattern) (String c EmptyString +:+ rest)
  = Spec.matches pattern rest.
Proof.
  rewrite app_cons, app_empty_l. cbn [Spec.matches Spec.lit].
  now rewrite N.eqb_refl.
Qed.

(** C9, as it stands, fails whenever the clock reads a time with a
    fraction of a second: the [timestamp] field of the record that
    [handle_error] returns then carries six more digits. *)
Lemma timestamp_carries_microseconds :
  dict_get "timestamp"
    (fst (handle_error Fixtures.world (raise_ ValidationError "bad input")
            MEDIUM None None))
  = Some "2023-12-25T10:30:45.123456Z" /\
  Spec.seconds_format "2023-12-25T10:30:45.123456Z" = false.
Proof. split; vm_compute; reflexivity. Qed.

(** The shape of what [_get_timestamp] returns, by the microsecond field
    of the clock reading. *)
Lemma get_timestamp_shape :
  forall w,
    Py.valid_datetime (utcnow_ts w) ->
    (Py.microsecond (utcnow_ts w) = 0 ->
     Spec.seconds_format (_get_timestamp w) = true) /\
    (Py.microsecond (utcnow_ts w) <> 0 ->
     Spec.microseconds_format (_get_timestamp w) = true /\
     Spec.seconds_format (_get_timestamp w) = false).
Proof.
  intros w (Hy & Hm & Hd & Hh & Hmi & Hs & Hus).
  unfold _get_timestamp, Py.isoformat.
  set (t := utcnow_ts w) in *.
  assert (Hseconds : forall pattern rest,
    Spec.matches
      (repeat Spec.D 4 ++ Spec.lit "-" :: repeat Spec.D 2
       ++ Spec.lit "-" :: repeat Spec.D 2 ++ Spec.lit "T" :: repeat Spec.D 2
       ++ Spec.lit ":" :: repeat Spec.D 2 ++ Spec.lit ":" :: repeat Spec.D 2
       ++ pattern)
      ((Py.zero_padded 4 (Py.year t) +:+ "-" +:+ Py.zero_padded 2 (Py.month t)
        +:+ "-" +:+ Py.zero_padded 2 (Py.day t) +:+ "T"
        +:+ Py.zero_padded 2 (Py.hour t) +:+ ":"
        +:+ Py.zero_padded 2 (Py.minute t) +:+ ":"
        +:+ Py.zero_padded 2 (Py.second t) +:+ rest))
    = Spec.matches pattern rest).
  { intros pattern rest.
    rewrite matches_field, matches_literal by (cbn; lia).
    rewrite matches_field, matches_literal by (cbn; lia).
    rewrite matches_field, matches_literal by (cbn; lia).
    rewrite matches_field, matches_literal by (cbn; lia).
    rewrite matches_field, matches_literal by (cbn; lia).
    now rewrite matches_field by (cbn; lia). }
  destruct (N.eqb_spec (Py.microsecond t) 0) as [Hz | Hnz];
    rewrite !app_assoc_string.
  - split; [intros _ | contradiction].
    unfold Spec.seconds_format.
    exact (Hseconds [Spec.lit "Z"] ("" +:+ "Z")).
  - split; [contradiction | intros _].
    unfold Spec.seconds_format, Spec.microseconds_format. split.
    + change Spec.microseconds_pattern with
        (repeat Spec.D 4 ++ Spec.lit "-" :: repeat Spec.D 2
         ++ Spec.lit "-" :: repeat Spec.D 2 ++ Spec.lit "T"
         :: repeat Spec.D 2 ++ Spec.lit ":" :: repeat Spec.D 2
         ++ Spec.lit ":" :: repeat Spec.D 2
         ++ Spec.lit "." :: repeat Spec.D 6 ++ [Spec.lit "Z"])%char.
      rewrite Hseconds, matches_literal, matches_field by (cbn; lia).
      reflexivity.
    + change Spec.seconds_pattern with
        (repeat Spec.D 4 ++ Spec.lit "-" :: repeat Spec.D 2
         ++ Spec.lit "-" :: repeat Spec.D 2 ++ Spec.lit "T"
         :: repeat Spec.D 2 ++ Spec.lit ":" :: repeat Spec.D 2
         ++ Spec.lit ":" :: repeat Spec.D 2 ++ [Spec.lit "Z"])%char.
      rewrite Hseconds. reflexivity.
Qed.

(** C9, amended. Whatever the error, the severity, the context and the
    user message, the record that [handle_error] returns has a
    [timestamp] field, and its value is the clock's UTC reading in ISO
    form followed by "Z": [YYYY-MM-DDTHH:MM:SSZ] when the reading's
    microsecond field is zero, and [YYYY-MM-DDTHH:MM:SS.ffffffZ]
    otherwise. *)
Theorem timestamp_format :
  forall w error severity context user_message,
    Py.valid_datetime (utcnow_ts w) ->
    exists timestamp,
      dict_get "timestamp"
        (fst (handle_error w error severity context user_message))
      = Some timestamp /\
      timestamp = Py.isoformat (utcnow_ts w) +:+ "Z" /\
      (Py.microsecond (utcnow_ts w) = 0 ->
       Spec.seconds_format timestamp = true) /\
      (Py.microsecond (utcnow_ts w) <> 0 ->
       Spec.microseconds_format timestamp = true /\
       Spec.seconds_format timestamp = false).
Proof.
  intros w error severity context user_message Hvalid.
  exists (_get_timestamp w).
  split; [reflexivity|]. split; [reflexivity|].
  exact (get_timestamp_shape w Hvalid).
Qed.

Lemma timestamp_format_witness :
  Py.valid_datetime (utcnow_ts Fixtures.world) /\
  exists timestamp,
    dict_get "timestamp"
      (fst (handle_error Fixtures.world
              (raise_ ValidationError "bad input") MEDIUM
              (Some [("field", "email")]) None))
    = Some timestamp /\
    Spec.microseconds_format timestamp = true.
Proof.
  assert (Hv : Py.valid_datetime (utcnow_ts Fixtures.world)).
  { unfold Py.valid_datetime. cbn. lia. }
  split; [exact Hv|].
  destruct (timestamp_format Fixtures.world
              (raise_ ValidationError "bad input") MEDIUM
              (Some [("field", "email")]) None Hv)
    as (timestamp & Hfield & _ & _ & Hmicro).
  exists timestamp. split; [exact Hfield|].
  apply Hmicro. discriminate.
Defined.

(* ================================================================== *)
(** * Claims on authentication *)
(* ================================================================== *)

(** A well-formed login that fails because the email is not registered,
    because the account is deactivated, or because the password check
    answers [False] raises one and the same exception: class
    [AuthenticationError], the fixed message, and details built from the
    clock and the random token alone; the session is left as it was.  At
    the controller that exception maps to status 401 and the default
    message for MEDIUM. *)
Lemma failed_logins_are_uniform :
  forall (libs : External) w now db data email password,
    Validators.validate_user_login data = Return (email, password) ->
    Spec.login_failure db email password ->
    let r := AuthenticationService.authenticate_user w now db data in
    outcome r = Raise (Spec.authentication_failed w) /\
    session r = db /\
    cls (Spec.authentication_failed w) = AuthenticationError /\
    message (Spec.authentication_failed w)
    = "Authentication failed. Please check your credentials." /\
    forall w',
      fst (Controllers.handle_error w' (Spec.authentication_failed w))
      = ([ ("error_id", _generate_error_id w');
           ("message", "An error occurred while processing your request.");
           ("severity", "medium");
           ("timestamp", _get_timestamp w');
           ("type", "AuthenticationError") ], 401%Z).
Proof.
  intros libs w now db data email password Hvalid Hfail r. subst r.
  unfold AuthenticationService.authenticate_user,
    AuthenticationService.authenticate_body,
    AuthenticationService._verify_password.
  rewrite Hvalid.
  destruct Hfail as [Hnone | user Huser Hoff | user Huser Hon Hpw].
  - rewrite Hnone. repeat split.
  - rewrite Huser, Hoff. repeat split.
  - rewrite Huser, Hon, Hpw. repeat split.
Qed.

(** C10 fails of the code.  [_verify_password] is reached only for an
    account that exists and is active, and nothing but
    [AuthenticationError] is caught around it: when the password check
    raises (the password has no UTF-8 encoding, or the stored text is not
    a bcrypt hash), the exception leaves [authenticate_user] as it is,
    without a log record, whereas the same login against a store in which
    it meets one of the three failure causes raises the uniform
    [AuthenticationError].  The two outcomes differ, so the response
    tells whether the account exists. *)
Theorem password_check_error_reveals_account :
  forall (libs : External) w now db db' data email password user e,
    Validators.validate_user_login data = Return (email, password) ->
    UserRepository.get_by_email db email = Some user ->
    User.is_active user = true ->
    checkpw password (User.password_hash user) = Failed e ->
    cls e <> AuthenticationError ->
    Spec.login_failure db' email password ->
    outcome (AuthenticationService.authenticate_user w now db data)
    = Raise e /\
    logged (AuthenticationService.authenticate_user w now db data) = [] /\
    session (AuthenticationService.authenticate_user w now db data) = db /\
    outcome (AuthenticationService.authenticate_user w now db' data)
    = Raise (Spec.authentication_failed w) /\
    outcome (AuthenticationService.authenticate_user w now db data)
    <> outcome (AuthenticationService.authenticate_user w now db' data).
Proof.
  intros libs w now db db' data email password user e
    Hvalid Huser Hactive Hcheck Hclass Hfail.
  assert (Hknown :
    AuthenticationService.authenticate_user w now db data
    = mk_run (Raise e) db []).
  { unfold AuthenticationService.authenticate_user,
      AuthenticationService.authenticate_body,
      AuthenticationService._verify_password.
    rewrite Hvalid, Huser, Hactive, Hcheck. cbn [negb].
    destruct (cls e) eqn:Hcls; try reflexivity.
    now elim Hclass. }
  destruct (failed_logins_are_uniform libs w now db' data email password
              Hvalid Hfail) as (Hunknown & _).
  rewrite Hknown, Hunknown. cbn [outcome logged session].
  repeat split.
  intros Heq. injection Heq as ->. now elim Hclass.
Qed.

Lemma password_check_error_reveals_account_witness :
  outcome (AuthenticationService.authenticate_user (H := Fixtures.strict)
             Fixtures.world Fixtures.noon Fixtures.library
             Fixtures.ann_login)
  = Raise (mk_exc ValueError "Invalid salt" []) /\
  outcome (AuthenticationService.authenticate_user (H := Fixtures.strict)
             Fixtures.world Fixtures.noon
             (mk_session [Fixtures.bob] [] []) Fixtures.ann_login)
  = Raise (Spec.authentication_failed Fixtures.world).
Proof.
  destruct (password_check_error_reveals_account Fixtures.strict
              Fixtures.world Fixtures.noon Fixtures.library
              (mk_session [Fixtures.bob] [] []) Fixtures.ann_login
              "ann@example.org" "guess" Fixtures.ann
              (mk_exc ValueError "Invalid salt" []))
    as (Hknown & _ & _ & Hunknown & _);
    try reflexivity.
  - discriminate.
  - apply (Spec.email_not_registered (H := Fixtures.strict)). reflexivity.
  - split; [exact Hknown | exact Hunknown].
Defined.

(* ================================================================== *)
(** * Input validation *)
(* ================================================================== *)

Section Validation.
Import InputValidator.

Lemma ord_inj (c d : ascii) : Py.ord c = Py.ord d -> c = d.
Proof.
  unfold Py.ord. intros H.
  rewrite <- (ascii_N_embedding c), <- (ascii_N_embedding d). now rewrite H.
Qed.

Lemma is_newline_eq (c : ascii) : is_newline c = true -> c = "010"%char.
Proof. unfold is_newline. intros H. apply N.eqb_eq in H. now apply ord_inj. Qed.

Lemma skip_run_split (cls : ascii -> bool) (s : string) :
  exists run, s = run +:+ skip_run cls s /\
              Forall (fun c => cls c = true) (chars run).
Proof.
  induction s as [|c s (run & Hs & Hrun)].
  - exists "". split; [reflexivity | constructor].
  - cbn [skip_run]. destruct (cls c) eqn:Hc.
    + exists (String c run). split.
      * rewrite app_cons. now f_equal.
      * constructor; assumption.
    + exists "". split; [reflexivity | constructor].
Qed.

Lemma skip_run_all (cls : ascii -> bool) (s rest : string) :
  Forall (fun c => cls c = true) (chars s) ->
  skip_run cls (s +:+ rest) = skip_run cls rest.
Proof.
  induction s as [|c s IH]; intros Hall; [reflexivity|].
  cbn [list_ascii_of_string] in Hall. apply Forall_cons in Hall as (Hc & Hs).
  rewrite app_cons. cbn [skip_run]. rewrite Hc. now apply IH.
Qed.

Lemma app_empty_r (s : string) : s +:+ "" = s.
Proof. induction s as [|c s IH]; [reflexivity|]. now rewrite app_cons, IH. Qed.

(** The pattern [^[...]+$] accepts a non-empty run of the class, and the
    same followed by one newline. *)
Lemma match_run_to_end_spec (cls : ascii -> bool) (s : string) :
  cls "010"%char = false ->
  match_run_to_end cls s = true <->
  exists body,
    body <> "" /\ Forall (fun c => cls c = true) (chars body) /\
    (s = body \/ s = body +:+ String "010" "").
Proof.
  intros Hnl. split.
  - destruct s as [|c t]; [discriminate|]. cbn [match_run_to_end].
    intros H. apply andb_true_iff in H as (Hc & Hend).
    destruct (skip_run_split cls t) as (run & Ht & Hrun).
    exists (String c run). split; [discriminate|]. split.
    { constructor; assumption. }
    destruct (skip_run cls t) as [|d [|e rest]]; try discriminate.
    + left. rewrite Ht, app_empty_r. reflexivity.
    + right. cbn [at_end] in Hend. apply is_newline_eq in Hend. subst d.
      rewrite Ht at 1. reflexivity.
  - intros (body & Hne & Hall & Hs).
    destruct body as [|c b]; [contradiction|].
    cbn [list_ascii_of_string] in Hall.
    apply Forall_cons in Hall as (Hc & Hb).
    destruct Hs as [-> | ->].
    + cbn [match_run_to_end]. rewrite Hc.
      rewrite <- (app_empty_r b), skip_run_all by assumption. reflexivity.
    + rewrite app_cons. cbn [match_run_to_end]. rewrite Hc.
      rewrite skip_run_all by assumption. cbn [skip_run]. rewrite Hnl.
      reflexivity.
Qed.

Lemma line_has_Exists (cls : ascii -> bool) (s : string) :
  line_has cls s = true -> Exists (fun c => cls c = true) (chars s).
Proof.
  induction s as [|c s IH]; [discriminate|]. cbn [line_has].
  destruct (is_newline c); [discriminate|].
  destruct (cls c) eqn:Hc.
  - intros _. now apply Exists_cons_hd.
  - intros H. apply Exists_cons_tl. now apply IH.
Qed.

Lemma line_has_app (cls : ascii -> bool) (s t : string) :
  line_has cls s = true -> line_has cls (s +:+ t) = true.
Proof.
  induction s as [|c s IH]; [discriminate|].
  rewrite app_cons. cbn [line_has].
  destruct (is_newline c); [discriminate|].
  destruct (cls c); [reflexivity|]. exact IH.
Qed.

End Validation.

(** X1. [validate_username] accepts exactly the strings of 3 to 30
    characters that consist of ASCII letters, digits and underscores, or of
    such characters followed by one final newline. *)
Theorem validate_username_accepts :
  forall u,
    InputValidator.validate_username (Some u) = true <->
    (3 <= Py.len u <= 30)%nat /\
    exists body,
      body <> "" /\
      Forall (fun c => InputValidator.username_char c = true) (chars body) /\
      (u = body \/ u = body +:+ String "010" "").
Proof.
  intros u. unfold InputValidator.validate_username.
  rewrite <- (match_run_to_end_spec InputValidator.username_char u eq_refl).
  destruct u as [|c t].
  - cbn. split; [discriminate | intros ((H & _) & _); lia].
  - cbn [Py.truthy negb].
    rewrite !andb_true_iff, !Nat.leb_le. tauto.
Qed.

(** X2. A final newline passes [validate_username]: a name of 2 to 29
    letters, digits and underscores followed by a newline is accepted. *)
Theorem validate_username_accepts_final_newline :
  forall body,
    Forall (fun c => InputValidator.username_char c = true) (chars body) ->
    (2 <= Py.len body <= 29)%nat ->
    InputValidator.validate_username (Some (body +:+ String "010" "")) = true.
Proof.
  intros body Hall Hlen. unfold InputValidator.validate_username.
  assert (Hmatch : InputValidator.match_run_to_end
                     InputValidator.username_char
                     (body +:+ String "010" "") = true).
  { apply match_run_to_end_spec; [reflexivity|].
    exists body. split; [|split; [exact Hall | now right]].
    intros ->. simpl in Hlen. lia. }
  rewrite Hmatch. unfold Py.len in *. rewrite length_app_string.
  destruct body as [|c b]; [simpl in Hlen; lia|].
  rewrite app_cons. cbn [Py.truthy negb String.length].
  rewrite !andb_true_iff, !Nat.leb_le. cbn [String.length] in Hlen.
  simpl. repeat split; lia.
Qed.

Lemma validate_username_accepts_final_newline_witness :
  Forall (fun c => InputValidator.username_char c = true) (chars "ab") /\
  (2 <= Py.len "ab" <= 29)%nat /\
  InputValidator.validate_username (Some (String "a" (String "b" (String "010" ""))))
  = true.
Proof.
  assert (Hall : Forall (fun c => InputValidator.username_char c = true)
                   (chars "ab")) by (repeat constructor).
  assert (Hlen : (2 <= Py.len "ab" <= 29)%nat) by (cbn; lia).
  split; [exact Hall|]. split; [exact Hlen|].
  exact (validate_username_accepts_final_newline "ab" Hall Hlen).
Defined.

Section UnicodePasswords.
Context `{Unicode}.
Import UnicodeValidator.

Lemma unicode_line_has_Exists (cls : N -> bool) (s : str) :
  line_has cls s = true -> Exists (fun c => cls c = true) s.
Proof.
  induction s as [|c t IH]; [discriminate|].
  cbn [line_has]. destruct (is_newline c); [discriminate|].
  destruct (cls c) eqn:Hc; [now left | intros Ht; right; now apply IH].
Qed.

Lemma code_points_line_has (cls : ascii -> bool) (cls' : N -> bool)
    (s : string) :
  (forall c, cls' (Py.ord c) = cls c) ->
  line_has cls' (code_points s) = InputValidator.line_has cls s.
Proof.
  intros Hcls. induction s as [|c t IH]; [reflexivity|].
  unfold code_points in *. cbn [list_ascii_of_string map line_has
    InputValidator.line_has].
  unfold is_newline, InputValidator.is_newline. now rewrite Hcls, IH.
Qed.

Lemma special_char_ord (c : ascii) :
  special_char (Py.ord c) = InputValidator.special_char c.
Proof.
  unfold special_char, InputValidator.special_char. cbn.
  now rewrite !orb_false_r, !orb_assoc.
Qed.

(** On the texts that [string] holds, where the decimal digits are [0] to
    [9], the two readings of [validate_password] agree. *)
Lemma validate_password_code_points :
  (forall n, n < 256 -> decimal_digit n = (48 <=? n) && (n <=? 57)) ->
  forall p,
    validate_password (Some (code_points p))
    = InputValidator.validate_password (Some p).
Proof.
  intros Hlatin p.
  assert (Hdigit : forall c,
    decimal_digit (Py.ord c) = InputValidator.ascii_digit c).
  { intros c. apply Hlatin. apply N_ascii_bounded. }
  unfold validate_password, InputValidator.validate_password,
    PASSWORD_PATTERN_match, InputValidator.PASSWORD_PATTERN_match.
  rewrite !(code_points_line_has InputValidator.ascii_lower),
    !(code_points_line_has InputValidator.ascii_upper),
    !(code_points_line_has InputValidator.ascii_digit),
    !(code_points_line_has InputValidator.special_char)
    by (first [exact Hdigit | exact special_char_ord | reflexivity]).
  destruct p as [|c t]; [reflexivity|].
  unfold code_points. cbn [list_ascii_of_string map Py.truthy negb].
  unfold Py.len. cbn [String.length length].
  rewrite length_map, length_chars.
  unfold password_char, InputValidator.password_char.
  now rewrite Hdigit, special_char_ord.
Qed.

End UnicodePasswords.

(** X3. On every Python string, given as its code points, a password that
    [validate_password] accepts has 8 to 128 characters, contains a letter
    of [a-z], a letter of [A-Z], a decimal digit (the class [\d], which is
    wider than [0-9]) and one of [@$!%*?&], and starts with a character of
    the class [[A-Za-z\d@$!%*?&]]. *)
Theorem validate_password_guarantees :
  forall (U : Unicode) p,
    UnicodeValidator.validate_password (Some p) = true ->
    (8 <= length p <= 128)%nat /\
    Exists (fun c => UnicodeValidator.ascii_lower c = true) p /\
    Exists (fun c => UnicodeValidator.ascii_upper c = true) p /\
    Exists (fun c => decimal_digit c = true) p /\
    Exists (fun c => UnicodeValidator.special_char c = true) p /\
    exists c t, p = c :: t /\ UnicodeValidator.password_char c = true.
Proof.
  intros U p. unfold UnicodeValidator.validate_password,
    UnicodeValidator.PASSWORD_PATTERN_match.
  destruct p as [|c t]; [discriminate|].
  rewrite !andb_true_iff, !Nat.leb_le.
  intros ((Hlo & Hhi) & ((((Hl & Hu) & Hd) & Hs) & Hc)).
  split; [lia|]. repeat split; try now apply unicode_line_has_Exists.
  exists c, t. now split.
Qed.

Lemma validate_password_guarantees_witness :
  UnicodeValidator.validate_password (H := Samples.digits)
    (Some Samples.arabic_three) = true /\
  exists c t,
    Samples.arabic_three = c :: t /\
    UnicodeValidator.password_char (H := Samples.digits) c = true.
Proof.
  split; [reflexivity|].
  apply (validate_password_guarantees Samples.digits Samples.arabic_three
           eq_refl).
Defined.

(** X4. [PASSWORD_PATTERN] has no anchor at its end: whatever is appended
    to an accepted password, the result is accepted as long as it has at
    most 128 characters. *)
Theorem validate_password_ignores_what_follows :
  forall p t,
    InputValidator.validate_password (Some p) = true ->
    (Py.len (p +:+ t) <= 128)%nat ->
    InputValidator.validate_password (Some (p +:+ t)) = true.
Proof.
  intros p t. unfold InputValidator.validate_password,
    InputValidator.PASSWORD_PATTERN_match.
  destruct p as [|c p']; [discriminate|].
  rewrite app_cons. cbn [Py.truthy negb].
  rewrite !andb_true_iff, !Nat.leb_le.
  intros ((Hlo & Hhi) & ((((Hl & Hu) & Hd) & Hs) & Hc)) Hlen.
  rewrite <- app_cons.
  repeat split; try (now apply line_has_app); try assumption.
  unfold Py.len in *. rewrite length_app_string. lia.
Qed.

Lemma validate_password_ignores_what_follows_witness :
  InputValidator.validate_password (Some "Test123@") = true /\
  InputValidator.validate_password
    (Some ("Test123@" +:+ " <b>bold</b>" +:+ String "010" "")) = true.
Proof.
  split; [reflexivity|].
  apply (validate_password_ignores_what_follows "Test123@"
           (" <b>bold</b>" +:+ String "010" "") eq_refl).
  apply Nat.leb_le. reflexivity.
Defined.

(* ================================================================== *)
(** * Stripping whitespace *)
(* ================================================================== *)

Section Stripping.

Lemma lstrip_ws_suffix (s : string) :
  exists pre, chars s = pre ++ chars (Py.lstrip_ws s).
Proof.
  induction s as [|c s (pre & IH)]; [now exists []|].
  cbn [Py.lstrip_ws]. destruct (Py.isspace c).
  - exists (c :: pre). cbn [list_ascii_of_string]. now rewrite IH.
  - now exists [].
Qed.

Lemma rstrip_ws_prefix (s : string) :
  exists suf, chars s = chars (Py.rstrip_ws s) ++ suf.
Proof.
  induction s as [|c s (suf & IH)]; [now exists []|].
  cbn [Py.rstrip_ws]. destruct (Py.rstrip_ws s) as [|d t] eqn:Hr.
  - destruct (Py.isspace c).
    + exists (c :: chars s). reflexivity.
    + exists suf. cbn [list_ascii_of_string app]. now rewrite IH.
  - exists suf. cbn [list_ascii_of_string app] in *. now rewrite IH.
Qed.

(** No whitespace at the start of a string: it is empty or starts with
    another character. *)
Lemma lstrip_ws_head (s : string) :
  match Py.lstrip_ws s with
  | String c _ => Py.isspace c = false
  | EmptyString => True
  end.
Proof.
  induction s as [|c s IH]; [exact I|].
  cbn [Py.lstrip_ws]. destruct (Py.isspace c) eqn:Hc; [exact IH | exact Hc].
Qed.

Lemma rstrip_ws_head (c : ascii) (s : string) :
  Py.rstrip_ws (String c s) = ""
  \/ exists t, Py.rstrip_ws (String c s) = String c t.
Proof.
  cbn [Py.rstrip_ws]. destruct (Py.rstrip_ws s).
  - destruct (Py.isspace c); eauto.
  - eauto.
Qed.

Lemma rstrip_ws_last (s : string) :
  forall l c, chars (Py.rstrip_ws s) = l ++ [c] -> Py.isspace c = false.
Proof.
  induction s as [|d s IH]; intros l c.
  - destruct l; discriminate.
  - cbn [Py.rstrip_ws]. destruct (Py.rstrip_ws s) as [|e t] eqn:Hr.
    + destruct (Py.isspace d) eqn:Hd.
      * destruct l; discriminate.
      * destruct l as [|x [|y l]]; try discriminate. now intros [= <-].
    + destruct l as [|x l]; [discriminate|].
      cbn [list_ascii_of_string app]. intros [= _ Ht]. now apply (IH l).
Qed.

Lemma rstrip_ws_idem (s : string) :
  Py.rstrip_ws (Py.rstrip_ws s) = Py.rstrip_ws s.
Proof.
  induction s as [|c s IH]; [reflexivity|].
  cbn [Py.rstrip_ws]. destruct (Py.rstrip_ws s) as [|d t] eqn:Hr.
  - destruct (Py.isspace c) eqn:Hc; [reflexivity|].
    cbn [Py.rstrip_ws]. now rewrite Hc.
  - cbn [Py.rstrip_ws]. cbn [Py.rstrip_ws] in IH.
    destruct (Py.rstrip_ws t) as [|e u] eqn:Ht.
    + destruct (Py.isspace d); [discriminate|]. now rewrite IH.
    + now rewrite IH.
Qed.

Lemma lstrip_ws_fixed (s : string) :
  match s with
  | String c _ => Py.isspace c = false
  | EmptyString => True
  end ->
  Py.lstrip_ws s = s.
Proof. destruct s as [|c s]; [reflexivity|]. cbn. now intros ->. Qed.

Lemma strip_ws_head (s : string) :
  match Py.strip_ws s with
  | String c _ => Py.isspace c = false
  | EmptyString => True
  end.
Proof.
  unfold Py.strip_ws. pose proof (lstrip_ws_head s) as Hh.
  destruct (Py.lstrip_ws s) as [|c t]; [exact I|].
  destruct (rstrip_ws_head c t) as [-> | (u & ->)]; [exact I | exact Hh].
Qed.

Lemma strip_ws_idem (s : string) : Py.strip_ws (Py.strip_ws s) = Py.strip_ws s.
Proof.
  pose proof (strip_ws_head s) as Hh. unfold Py.strip_ws at 1.
  rewrite (lstrip_ws_fixed _ Hh). unfold Py.strip_ws. apply rstrip_ws_idem.
Qed.

Lemma isspace_lower_char (c : ascii) :
  Py.isspace (Py.lower_char c) = Py.isspace c.
Proof. destruct c as [[] [] [] [] [] [] [] []]; reflexivity. Qed.

Lemma lower_char_idem (c : ascii) :
  Py.lower_char (Py.lower_char c) = Py.lower_char c.
Proof. destruct c as [[] [] [] [] [] [] [] []]; reflexivity. Qed.

Lemma lower_idem (s : string) : Py.lower (Py.lower s) = Py.lower s.
Proof.
  induction s as [|c s IH]; [reflexivity|].
  cbn [Py.lower]. now rewrite lower_char_idem, IH.
Qed.

Lemma lstrip_ws_lower (s : string) :
  Py.lstrip_ws (Py.lower s) = Py.lower (Py.lstrip_ws s).
Proof.
  induction s as [|c s IH]; [reflexivity|].
  cbn [Py.lower Py.lstrip_ws]. rewrite isspace_lower_char.
  destruct (Py.isspace c); [exact IH | reflexivity].
Qed.

Lemma rstrip_ws_lower (s : string) :
  Py.rstrip_ws (Py.lower s) = Py.lower (Py.rstrip_ws s).
Proof.
  induction s as [|c s IH]; [reflexivity|].
  cbn [Py.lower Py.rstrip_ws]. rewrite IH, isspace_lower_char.
  destruct (Py.rstrip_ws s); [|reflexivity].
  cbn [Py.lower]. now destruct (Py.isspace c).
Qed.

Lemma strip_ws_lower (s : string) :
  Py.strip_ws (Py.lower s) = Py.lower (Py.strip_ws s).
Proof. unfold Py.strip_ws. now rewrite lstrip_ws_lower, rstrip_ws_lower. Qed.

End Stripping.

Lemma chars_slice_to_int (n : Z) (s : string) :
  chars (Py.slice_to_int n s)
  = firstn (if (0 <=? n)%Z then Z.to_nat n
            else (Py.len s - Z.to_nat (- n))%nat) (chars s).
Proof.
  unfold Py.slice_to_int. destruct (0 <=? n)%Z; apply chars_slice_to.
Qed.

(** X5. For every text and every [max_length], negative ones included,
    [sanitize_string] returns a string without any of the control
    characters U+0000..U+001F and U+007F.  The string has at most
    [max_length] characters when [max_length] is not negative; for a
    negative [max_length] it is the stripped text without its last
    [-max_length] characters, which is longer than [max_length]. *)
Theorem sanitize_string_clean :
  forall value max_length,
    Forall (fun c => InputValidator.control_char c = false)
      (chars (InputValidator.sanitize_string value max_length)) /\
    ((0 <= max_length)%Z ->
     (Z.of_nat (Py.len (InputValidator.sanitize_string value max_length))
      <= max_length)%Z) /\
    ((max_length < 0)%Z ->
     Z.of_nat (Py.len (InputValidator.sanitize_string value max_length))
     = Z.max 0
         (Z.of_nat
            (Py.len
               (Py.strip_ws
                  (Py.re_sub_class InputValidator.control_char "" value)))
          + max_length)).
Proof.
  intros value max_length. unfold InputValidator.sanitize_string.
  destruct value as [|v value'].
  { cbn. repeat split; [constructor | lia | lia]. }
  set (value := String v value').
  replace (negb (Py.truthy value)) with false by reflexivity. cbv zeta.
  set (deleted := Py.re_sub_class InputValidator.control_char "" value).
  assert (Hdel : Forall (fun c => InputValidator.control_char c = false)
                   (chars deleted)).
  { unfold deleted.
    rewrite (chars_re_sub_delete _
               (fun c => negb (InputValidator.control_char c)))
      by reflexivity.
    unfold Spec.strip_others. apply List.Forall_forall. intros c Hin.
    apply filter_In in Hin as (_ & Hc). now apply negb_true_iff in Hc. }
  assert (Hstrip : Forall (fun c => InputValidator.control_char c = false)
                     (chars (Py.strip_ws deleted))).
  { unfold Py.strip_ws.
    destruct (lstrip_ws_suffix deleted) as (pre & Hpre).
    destruct (rstrip_ws_prefix (Py.lstrip_ws deleted)) as (suf & Hsuf).
    rewrite Hpre, Hsuf in Hdel.
    apply Forall_app in Hdel as (_ & Hdel).
    now apply Forall_app in Hdel as (Hdel & _). }
  set (stripped := Py.strip_ws deleted) in *.
  destruct (Z.ltb_spec max_length (Z.of_nat (Py.len stripped))) as [Hcut|Hfit].
  - assert (Hlen :
      Py.len (Py.slice_to_int max_length stripped)
      = Nat.min (if (0 <=? max_length)%Z then Z.to_nat max_length
                 else (Py.len stripped - Z.to_nat (- max_length))%nat)
          (Py.len stripped)).
    { unfold Py.len. rewrite <- !length_chars, chars_slice_to_int.
      now rewrite length_firstn, !length_chars. }
    split; [|rewrite Hlen; destruct (Z.leb_spec 0 max_length); split; lia].
    rewrite chars_slice_to_int.
    set (n := if (0 <=? max_length)%Z then _ else _).
    rewrite <- (firstn_skipn n (chars stripped)) in Hstrip.
    now apply Forall_app in Hstrip as (Hstrip & _).
  - split; [exact Hstrip | split; lia].
Qed.

(** X6. The result of [sanitize_string] never starts with whitespace.  It
    ends with whitespace only when the stripped text was cut, that is,
    when it was longer than [max_length]; and then, for a [max_length]
    that is not negative, the result has exactly [max_length]
    characters. *)
Theorem sanitize_string_whitespace :
  forall value max_length,
    match InputValidator.sanitize_string value max_length with
    | String c _ => Py.isspace c = false
    | EmptyString => True
    end /\
    forall l c,
      chars (InputValidator.sanitize_string value max_length) = l ++ [c] ->
      Py.isspace c = true ->
      (max_length
       < Z.of_nat
           (Py.len
              (Py.strip_ws
                 (Py.re_sub_class InputValidator.control_char "" value))))%Z
      /\
      ((0 <= max_length)%Z ->
       Z.of_nat (Py.len (InputValidator.sanitize_string value max_length))
       = max_length).
Proof.
  intros value max_length. unfold InputValidator.sanitize_string.
  destruct (negb (Py.truthy value)).
  { split; [exact I|]. intros l c Hl. destruct l; discriminate. }
  cbv zeta.
  set (stripped :=
         Py.strip_ws (Py.re_sub_class InputValidator.control_char "" value)).
  pose proof (strip_ws_head
                (Py.re_sub_class InputValidator.control_char "" value))
    as Hhead.
  fold stripped in Hhead.
  destruct (Z.ltb_spec max_length (Z.of_nat (Py.len stripped))) as [Hcut|Hfit].
  - split.
    + pose proof (chars_slice_to_int max_length stripped) as Hchars.
      destruct (Py.slice_to_int max_length stripped) as [|c t]; [exact I|].
      destruct stripped as [|c' t'].
      { rewrite firstn_nil in Hchars. discriminate. }
      cbn [list_ascii_of_string] in Hchars.
      destruct (if (0 <=? max_length)%Z then _ else _); [discriminate|].
      cbn [firstn] in Hchars. injection Hchars as -> _. exact Hhead.
    + intros l c _ _. split; [exact Hcut|]. intros Hpos.
      unfold Py.len in *.
      rewrite <- !length_chars, chars_slice_to_int, length_firstn in *.
      apply Z.leb_le in Hpos. rewrite Hpos. lia.
  - split; [exact Hhead|]. intros l c Hl Hc.
    unfold stripped, Py.strip_ws in Hl. apply rstrip_ws_last in Hl.
    congruence.
Qed.

(** X7. [validate_email] looks at the address with the whitespace around
    it removed and its letters in lower case: it gives the same answer for
    an address, for the address stripped, and for the address in lower
    case. *)
Theorem validate_email_ignores_case_and_margins :
  forall e,
    InputValidator.validate_email (Some (Py.strip_ws e))
    = InputValidator.validate_email (Some e) /\
    InputValidator.validate_email (Some (Py.lower e))
    = InputValidator.validate_email (Some e).
Proof.
  intros e. unfold InputValidator.validate_email. split.
  - rewrite strip_ws_idem.
    destruct (Py.strip_ws e) eqn:Hs; cbn [Py.truthy negb].
    + now destruct e.
    + destruct e; [discriminate | reflexivity].
  - rewrite strip_ws_lower, lower_idem. now destruct e.
Qed.

(* ================================================================== *)
(** * The shape of a slug *)
(* ================================================================== *)

Section SlugShape.

Abbreviation hyphens := (Forall (fun c => Py.is_hyphen c = true)).

Lemma is_hyphen_eq (c : ascii) : Py.is_hyphen c = true -> c = Py.hyphen.
Proof. unfold Py.is_hyphen. intros H. apply N.eqb_eq in H. now apply ord_inj. Qed.

Lemma is_word_lower_char (c : ascii) :
  Py.is_word (Py.lower_char c) = Py.is_word c.
Proof. destruct c as [[] [] [] [] [] [] [] []]; reflexivity. Qed.

Lemma is_word_not_separator (c : ascii) :
  Py.is_word c = true -> Spec.separator c = false.
Proof. destruct c as [[] [] [] [] [] [] [] []]; now cbv. Qed.

(** [drop_hyphens] removes a prefix of hyphens and stops at the first
    other character. *)
Lemma drop_hyphens_spec (l : list ascii) :
  exists pre,
    l = pre ++ Spec.drop_hyphens l /\ hyphens pre /\
    Spec.starts_with_hyphen (Spec.drop_hyphens l) = false.
Proof.
  induction l as [|c l (pre & Hl & Hpre & Hhead)].
  - exists []. repeat split. constructor.
  - cbn [Spec.drop_hyphens]. destruct (Py.is_hyphen c) eqn:Hc.
    + exists (c :: pre). split; [cbn; now f_equal|].
      split; [now constructor | exact Hhead].
    + exists []. split; [reflexivity|]. split; [constructor | exact Hc].
Qed.

Lemma drop_hyphens_fixed (l : list ascii) :
  Spec.starts_with_hyphen l = false -> Spec.drop_hyphens l = l.
Proof. destruct l as [|c l]; [reflexivity|]. cbn. now intros ->. Qed.

Lemma drop_hyphens_all (l : list ascii) :
  hyphens l -> Spec.drop_hyphens l = [].
Proof.
  induction 1 as [|c l Hc _ IH]; [reflexivity|]. cbn. now rewrite Hc.
Qed.

(** [trim_hyphens l] is [l] without a prefix and a suffix of hyphens, and
    has a hyphen at neither end. *)
Lemma trim_hyphens_spec (l : list ascii) :
  exists pre suf,
    l = pre ++ Spec.trim_hyphens l ++ suf /\ hyphens pre /\ hyphens suf /\
    Spec.starts_with_hyphen (Spec.trim_hyphens l) = false /\
    Spec.starts_with_hyphen (rev (Spec.trim_hyphens l)) = false.
Proof.
  unfold Spec.trim_hyphens.
  destruct (drop_hyphens_spec l) as (pre & Hl & Hpre & Hhead).
  set (d := Spec.drop_hyphens l) in *.
  destruct (drop_hyphens_spec (rev d)) as (fus & Hd & Hfus & Hlast).
  set (x := Spec.drop_hyphens (rev d)) in *.
  assert (Hd' : d = rev x ++ rev fus).
  { rewrite <- (rev_involutive d), Hd. apply rev_app_distr. }
  exists pre, (rev fus). split; [now rewrite <- Hd'|].
  split; [exact Hpre|]. split; [now apply Forall_rev|]. split.
  - destruct (rev x) as [|c t] eqn:Hx; [reflexivity|].
    rewrite Hd' in Hhead. exact Hhead.
  - now rewrite rev_involutive.
Qed.

Lemma trim_hyphens_fixed (l : list ascii) :
  Spec.starts_with_hyphen l = false ->
  Spec.starts_with_hyphen (rev l) = false ->
  Spec.trim_hyphens l = l.
Proof.
  intros Hhead Hlast. unfold Spec.trim_hyphens.
  rewrite (drop_hyphens_fixed l Hhead), (drop_hyphens_fixed _ Hlast).
  apply rev_involutive.
Qed.

(** The characters of a collapsed text are hyphens and characters of the
    text that are no separators. *)
Lemma collapse_runs_chars (P : ascii -> Prop) (l : list ascii) :
  P Py.hyphen ->
  Forall (fun c => Spec.separator c = false -> P c) l ->
  Forall P (Spec.collapse_runs l).
Proof.
  intros Hh. induction 1 as [|c l Hc _ IH]; [constructor|].
  rewrite collapse_cons. destruct (Spec.separator c).
  - destruct (Spec.starts_with_hyphen _); [exact IH | now constructor].
  - constructor; [now apply Hc | exact IH].
Qed.

Lemma collapse_runs_keeps (l : list ascii) (x : ascii) :
  In x l -> Spec.separator x = false -> In x (Spec.collapse_runs l).
Proof.
  induction l as [|c l IH]; [contradiction|].
  intros [-> | Hin] Hx; rewrite collapse_cons.
  - rewrite Hx. now left.
  - destruct (Spec.separator c).
    + destruct (Spec.starts_with_hyphen _); [|right]; now apply IH.
    + right. now apply IH.
Qed.

(** A collapsed text has no two hyphens in a row. *)
Lemma collapse_runs_single (l : list ascii) :
  forall l1 c d l2,
    Spec.collapse_runs l = l1 ++ c :: d :: l2 ->
    Py.is_hyphen c = true -> Py.is_hyphen d = false.
Proof.
  induction l as [|x l IH]; intros l1 c d l2.
  - destruct l1; discriminate.
  - rewrite collapse_cons. destruct (Spec.separator x) eqn:Hx.
    + destruct (Spec.starts_with_hyphen (Spec.collapse_runs l)) eqn:Hs;
        [apply IH|].
      destruct l1 as [|y l1]; cbn [app].
      * intros [= <- Hl] _. rewrite Hl in Hs. exact Hs.
      * intros [= _ Hl]. exact (IH l1 c d l2 Hl).
    + destruct l1 as [|y l1]; cbn [app].
      * intros [= <- _] Hc. apply hyphen_is_separator in Hc. congruence.
      * intros [= _ Hl]. exact (IH l1 c d l2 Hl).
Qed.

Lemma collapse_runs_fixed (l : list ascii) :
  Forall (fun c => Spec.separator c = true -> Py.is_hyphen c = true) l ->
  (forall l1 c d l2, l = l1 ++ c :: d :: l2 ->
                     Py.is_hyphen c = true -> Py.is_hyphen d = false) ->
  Spec.collapse_runs l = l.
Proof.
  induction 1 as [|c l Hc _ IH]; intros Hsingle; [reflexivity|].
  rewrite collapse_cons, IH.
  - destruct (Spec.separator c) eqn:Hs; [|reflexivity].
    pose proof (is_hyphen_eq c (Hc eq_refl)) as ->.
    destruct l as [|d l]; [reflexivity|].
    cbn [Spec.starts_with_hyphen].
    now rewrite (Hsingle [] Py.hyphen d l eq_refl eq_refl).
  - intros l1 x y l2 ->. apply (Hsingle (c :: l1) x y l2). reflexivity.
Qed.

(** The stages of [_generate_slug] on the characters of a title. *)
Lemma generate_slug_stages (title : string) :
  chars (Services._generate_slug title)
  = Spec.truncate
      (Spec.trim_hyphens
         (Spec.collapse_runs
            (Spec.strip_others Spec.kept_with_underscore
               (Spec.lowercase (chars title))))).
Proof.
  rewrite generate_slug_as_worded. unfold Spec.normalize_with.
  apply list_ascii_of_string_of_list_ascii.
Qed.

Lemma kept_not_separator_is_word (c : ascii) :
  Spec.kept_with_underscore c = true -> Spec.separator c = false ->
  Py.is_word c = true.
Proof.
  unfold Spec.kept_with_underscore, Spec.separator, Py.is_word.
  destruct (Py.isalnum c), (Py.ord c =? 95), (Py.isspace c),
    (Py.is_hyphen c); cbn; congruence.
Qed.

(** The collapsed, filtered, lower-cased title: only slug characters. *)
Lemma collapsed_chars (l : list ascii) :
  Forall (fun c => (Py.is_word c || Py.is_hyphen c) = true /\
                   Py.lower_char c = c)
    (Spec.collapse_runs
       (Spec.strip_others Spec.kept_with_underscore (Spec.lowercase l))).
Proof.
  apply collapse_runs_chars; [split; reflexivity|].
  apply List.Forall_forall. intros c Hin Hsep.
  apply filter_In in Hin as (Hin & Hkept).
  apply in_map_iff in Hin as (c0 & <- & _).
  split; [|apply lower_char_idem].
  now rewrite (kept_not_separator_is_word _ Hkept Hsep).
Qed.

(** Inside a slug: slug characters only, no hyphen first, no two hyphens
    in a row. *)
Lemma slug_interior (title : string) :
  Forall (fun c => (Py.is_word c || Py.is_hyphen c) = true /\
                   Py.lower_char c = c)
    (chars (Services._generate_slug title)) /\
  Spec.starts_with_hyphen (chars (Services._generate_slug title)) = false /\
  (forall l1 c d l2,
      chars (Services._generate_slug title) = l1 ++ c :: d :: l2 ->
      Py.is_hyphen c = true -> Py.is_hyphen d = false).
Proof.
  rewrite generate_slug_stages.
  set (collapsed := Spec.collapse_runs _).
  pose proof (collapsed_chars (chars title)) as Hchars.
  fold collapsed in Hchars.
  destruct (trim_hyphens_spec collapsed)
    as (pre & suf & Hseg & _ & _ & Hhead & _).
  set (trimmed := Spec.trim_hyphens collapsed) in *.
  unfold Spec.truncate.
  assert (Hcut : trimmed = firstn 100 trimmed ++ skipn 100 trimmed)
    by (symmetry; apply firstn_skipn).
  split; [|split].
  - rewrite Hseg, Hcut in Hchars.
    apply Forall_app in Hchars as (_ & Hchars).
    apply Forall_app in Hchars as (Hchars & _).
    now apply Forall_app in Hchars as (Hchars & _).
  - destruct trimmed as [|c t]; [reflexivity | exact Hhead].
  - intros l1 c d l2 Hl.
    apply (collapse_runs_single
             (Spec.strip_others Spec.kept_with_underscore
                (Spec.lowercase (chars title)))
             (pre ++ l1) c d (l2 ++ skipn 100 trimmed ++ suf)).
    fold collapsed.
    transitivity (pre ++ (firstn 100 trimmed ++ skipn 100 trimmed) ++ suf).
    { rewrite firstn_skipn. exact Hseg. }
    rewrite Hl, <- !List.app_assoc. reflexivity.
Qed.

End SlugShape.


(** X9. A slug that does not end with a hyphen is its own slug:
    [_generate_slug] returns it unchanged. *)
Theorem generate_slug_fixed_point :
  forall title,
    Spec.starts_with_hyphen (rev (chars (_generate_slug title))) = false ->
    _generate_slug (_generate_slug title) = _generate_slug title.
Proof.
  intros title Hend.
  destruct (slug_interior title) as (Hchars & Hhead & Hsingle).
  set (slug := _generate_slug title) in *.
  rewrite (string_of_chars slug (chars slug) eq_refl) at 2.
  rewrite generate_slug_as_worded. unfold Spec.normalize_with. f_equal.
  assert (Hlower : Spec.lowercase (chars slug) = chars slug).
  { unfold Spec.lowercase. clear -Hchars.
    induction Hchars as [|c l (_ & Hc) _ IH]; [reflexivity|].
    cbn [List.map]. now rewrite Hc, IH. }
  assert (Hkeep : Spec.strip_others Spec.kept_with_underscore (chars slug)
                  = chars slug).
  { unfold Spec.strip_others. clear -Hchars.
    induction Hchars as [|c l (Hc & _) _ IH]; [reflexivity|].
    cbn [List.filter].
    assert (Spec.kept_with_underscore c = true) as ->.
    { unfold Spec.kept_with_underscore, Py.is_word in *.
      destruct (Py.isalnum c), (Py.ord c =? 95), (Py.isspace c),
        (Py.is_hyphen c); cbn in *; congruence. }
    now rewrite IH. }
  rewrite Hlower, Hkeep, collapse_runs_fixed, trim_hyphens_fixed;
    try assumption.
  - unfold Spec.truncate. apply firstn_all2. rewrite length_chars.
    apply generate_slug_within_limit.
  - eapply List.Forall_impl; [|exact Hchars]. intros c (Hc & _) Hsep.
    destruct (Py.is_hyphen c); [reflexivity|].
    rewrite orb_false_r in Hc. apply is_word_not_separator in Hc. congruence.
Qed.

Lemma generate_slug_fixed_point_witness :
  Spec.starts_with_hyphen (rev (chars (_generate_slug "Hello, World!")))
  = false /\
  _generate_slug (_generate_slug "Hello, World!")
  = _generate_slug "Hello, World!".
Proof.
  split; [reflexivity|].
  exact (generate_slug_fixed_point "Hello, World!" eq_refl).
Defined.

Lemma collapse_runs_separators (l : list ascii) :
  Forall (fun c => Spec.separator c = true) l ->
  Forall (fun c => Py.is_hyphen c = true) (Spec.collapse_runs l).
Proof.
  intros Hall. apply collapse_runs_chars; [reflexivity|].
  eapply List.Forall_impl; [|exact Hall]. intros c Hc Hn. congruence.
Qed.

Lemma drop_hyphens_keeps (l : list ascii) (x : ascii) :
  In x l -> Py.is_hyphen x = false -> In x (Spec.drop_hyphens l).
Proof.
  induction l as [|c l IH]; [contradiction|].
  intros Hin Hx. cbn [Spec.drop_hyphens].
  destruct (Py.is_hyphen c) eqn:Hc; [|exact Hin].
  destruct Hin as [-> | Hin]; [congruence | now apply IH].
Qed.

Lemma trim_hyphens_keeps (l : list ascii) (x : ascii) :
  In x l -> Py.is_hyphen x = false -> In x (Spec.trim_hyphens l).
Proof.
  intros Hin Hx. unfold Spec.trim_hyphens.
  apply (proj1 (in_rev _ _)), drop_hyphens_keeps; [|exact Hx].
  apply (proj1 (in_rev _ _)). now apply drop_hyphens_keeps.
Qed.

(** X10. The slug of a title is empty exactly when the title has no word
    character (no letter, digit or underscore): titles made of symbols,
    whitespace and hyphens alone all get the empty slug. *)
Theorem generate_slug_empty :
  forall title,
    _generate_slug title = "" <->
    Forall (fun c => Py.is_word c = false) (chars title).
Proof.
  intros title. split.
  - intros Hempty.
    apply List.Forall_forall. intros c Hin.
    destruct (Py.is_word c) eqn:Hw; [exfalso | reflexivity].
    apply (f_equal chars) in Hempty. rewrite generate_slug_stages in Hempty.
    assert (Hlow : Py.is_word (Py.lower_char c) = true)
      by now rewrite is_word_lower_char.
    assert (Hsep := is_word_not_separator _ Hlow).
    assert (Hin' : In (Py.lower_char c)
                     (Spec.trim_hyphens
                        (Spec.collapse_runs
                           (Spec.strip_others Spec.kept_with_underscore
                              (Spec.lowercase (chars title)))))).
    { apply trim_hyphens_keeps.
      - apply collapse_runs_keeps; [|exact Hsep].
        apply filter_In. split; [now apply in_map|].
        unfold Spec.kept_with_underscore. unfold Py.is_word in Hlow.
        now rewrite Hlow.
      - unfold Spec.separator in Hsep. now apply orb_false_iff in Hsep. }
    unfold Spec.truncate in Hempty.
    destruct (Spec.trim_hyphens _); [contradiction | discriminate].
  - intros Hnone. apply (string_of_chars _ []). rewrite generate_slug_stages.
    assert (Hseps : Forall (fun c => Spec.separator c = true)
                      (Spec.strip_others Spec.kept_with_underscore
                         (Spec.lowercase (chars title)))).
    { apply List.Forall_forall. intros c Hin.
      apply filter_In in Hin as (Hin & Hkept).
      apply in_map_iff in Hin as (c0 & <- & Hin0).
      rewrite List.Forall_forall in Hnone. specialize (Hnone c0 Hin0).
      rewrite <- is_word_lower_char in Hnone.
      destruct (Spec.separator (Py.lower_char c0)) eqn:Hsep; [reflexivity|].
      rewrite (kept_not_separator_is_word _ Hkept Hsep) in Hnone.
      discriminate. }
    apply collapse_runs_separators in Hseps.
    unfold Spec.trim_hyphens. rewrite (drop_hyphens_all _ Hseps).
    reflexivity.
Qed.

(* ================================================================== *)
(** * Rows and keys *)
(* ================================================================== *)

Section Rows.

Lemma find_app_last {A} (p : A -> bool) (rows : list A) (x : A) :
  (forall r, In r rows -> p r = false) -> p x = true ->
  List.find p (rows ++ [x]) = Some x.
Proof.
  intros Hnone Hx. induction rows as [|r rows IH].
  - cbn. now rewrite Hx.
  - cbn [app List.find]. rewrite (Hnone r (or_introl eq_refl)).
    apply IH. intros r' Hin. apply Hnone. now right.
Qed.

Lemma find_app_other {A} (p : A -> bool) (rows : list A) (x : A) :
  p x = false -> List.find p (rows ++ [x]) = List.find p rows.
Proof.
  intros Hx. induction rows as [|r rows IH].
  - cbn. now rewrite Hx.
  - cbn [app List.find]. now rewrite IH.
Qed.

Lemma replace_first_app_last {A} (p : A -> bool) (rows : list A) (x y : A) :
  (forall r, In r rows -> p r = false) -> p x = true ->
  replace_first p y (rows ++ [x]) = rows ++ [y].
Proof.
  intros Hnone Hx. induction rows as [|r rows IH].
  - cbn. now rewrite Hx.
  - cbn [app replace_first]. rewrite (Hnone r (or_introl eq_refl)).
    f_equal. apply IH. intros r' Hin. apply Hnone. now right.
Qed.

Lemma find_none_iff {A} (p : A -> bool) (rows : list A) :
  List.find p rows = None <-> forall r, In r rows -> p r = false.
Proof.
  split; [apply find_none|]. intros Hnone.
  destruct (List.find p rows) as [r|] eqn:Hf; [|reflexivity].
  apply find_some in Hf as (Hin & Hp). rewrite (Hnone r Hin) in Hp.
  discriminate.
Qed.

Lemma existsb_false_iff {A} (p : A -> bool) (rows : list A) :
  existsb p rows = false <-> forall r, In r rows -> p r = false.
Proof.
  split.
  - intros Hex r Hin. destruct (p r) eqn:Hp; [|reflexivity].
    rewrite <- Hex. symmetry. apply existsb_exists. eauto.
  - intros Hnone. apply not_true_is_false. intros Hex.
    apply existsb_exists in Hex as (r & Hin & Hp).
    rewrite (Hnone r Hin) in Hp. discriminate.
Qed.

(** The key that [next_id] hands out is above every key in use. *)
Lemma next_id_above (ids : list Z) (i : Z) :
  In i ids -> (i < next_id ids)%Z.
Proof.
  unfold next_id. induction ids as [|j ids IH]; [contradiction|].
  cbn [fold_right]. intros [-> | Hin]; [lia|]. specialize (IH Hin). lia.
Qed.


Lemma find_remove_first_other {A} (key : A -> Z) (rows : list A) (i j : Z) :
  i <> j ->
  List.find (fun r => (key r =? j)%Z)
    (Removal.remove_first (fun r => (key r =? i)%Z) rows)
  = List.find (fun r => (key r =? j)%Z) rows.
Proof.
  intros Hne. induction rows as [|r rows IH]; [reflexivity|].
  cbn [Removal.remove_first]. destruct (Z.eqb_spec (key r) i) as [Hr | Hr].
  - cbn [List.find]. rewrite Hr. now destruct (Z.eqb_spec i j).
  - cbn [List.find]. destruct (key r =? j)%Z; [reflexivity | exact IH].
Qed.

Lemma find_remove_first_gone {A} (key : A -> Z) (rows : list A) (i : Z) :
  List.NoDup (List.map key rows) ->
  List.find (fun r => (key r =? i)%Z)
    (Removal.remove_first (fun r => (key r =? i)%Z) rows) = None.
Proof.
  induction rows as [|r rows IH]; [reflexivity|].
  cbn [List.map]. intros Hnd. apply List.NoDup_cons_iff in Hnd as (Hr & Hnd).
  cbn [Removal.remove_first]. destruct (Z.eqb_spec (key r) i) as [Hi | Hi].
  - apply find_none_iff. intros r' Hin.
    apply Z.eqb_neq. intros Hr'. apply Hr. rewrite Hi, <- Hr'.
    now apply in_map.
  - cbn [List.find]. apply Z.eqb_neq in Hi. rewrite Hi. now apply IH.
Qed.

Lemma length_remove_first {A} (p : A -> bool) (rows : list A) (x : A) :
  List.find p rows = Some x ->
  S (length (Removal.remove_first p rows)) = length rows.
Proof.
  induction rows as [|r rows IH]; [discriminate|].
  cbn [List.find Removal.remove_first]. destruct (p r); [reflexivity|].
  intros Hf. cbn [length]. now rewrite IH.
Qed.

Lemma NoDup_map_inj {A B} (f : A -> B) (rows : list A) (a b : A) :
  List.NoDup (List.map f rows) -> In a rows -> In b rows -> f a = f b ->
  a = b.
Proof.
  induction rows as [|r rows IH]; [contradiction|].
  cbn [List.map]. intros Hnd. apply List.NoDup_cons_iff in Hnd as (Hr & Hnd).
  intros [-> | Ha] [-> | Hb] Hf.
  - reflexivity.
  - exfalso. apply Hr. rewrite Hf. now apply in_map.
  - exfalso. apply Hr. rewrite <- Hf. now apply in_map.
  - now apply IH.
Qed.

End Rows.

(* ================================================================== *)
(** * Creating articles and categories *)
(* ================================================================== *)

Section Creation.
Context `{External}.
Import ArticleService.

Lemma free_slug_unused db slug :
  slug ∉ visible_articles db None ->
  forall a, In a (articles db) -> bool_decide (Article.slug a = slug) = false.
Proof.
  intros Hfree a Hin. apply bool_decide_eq_false. intros Hs. apply Hfree.
  unfold visible_articles. rewrite list_elem_of_In, in_map_iff.
  exists a. split; [exact Hs|]. now apply filter_In.
Qed.

Lemma article_key_unused db :
  forall a, In a (articles db) ->
            (Article.id a =? next_id (map Article.id (articles db)))%Z = false.
Proof.
  intros a Hin. apply Z.eqb_neq.
  pose proof (next_id_above (map Article.id (articles db)) (Article.id a)
                (in_map _ _ _ Hin)).
  lia.
Qed.

(** [create_body] for a request that runs alone and passes the three
    checks: one row is appended, under the assigned slug. *)
Lemma create_body_alone now db data author_id :
  missing (ad_title data) = false ->
  missing (ad_content data) = false ->
  category_rejected db
    (match ad_category_id data with Some c => c | None => None end) = false ->
  exists slug,
    assign_slug db None (text_of (ad_title data)) = Some slug /\
    (slug ∉ visible_articles db None) /\
    (let entity :=
       Article.mk (next_id (map Article.id (articles db)))
         (Py.strip_ws (text_of (ad_title data))) slug
         (Validators.sanitize_html (text_of (ad_content data)))
         (excerpt_of (ad_excerpt data))
         (match ad_is_published data with Some b => b | None => false end)
         None author_id
         (match ad_category_id data with Some c => c | None => None end) in
     create_body now (fun db => db) db data author_id
     = (mk_session (users db) (categories db) (articles db ++ [entity]),
        Return (mk_response true entity created_message))).
Proof.
  intros Ht Hc Hcat. unfold create_body. rewrite Ht, Hc.
  destruct (assign_slug_total db None (text_of (ad_title data)))
    as (slug & Hslug & Hfree).
  exists slug. split; [exact Hslug|]. split; [exact Hfree|].
  rewrite Hslug, Hcat. unfold ArticleRepository.create.
  rewrite (proj2 (existsb_false_iff _ _) (free_slug_unused db slug Hfree)).
  cbv zeta. cbn [Article.is_published].
  destruct (match ad_is_published data with Some b => b | None => false end)
    eqn:Hflag; [|reflexivity].
  unfold Article.publish. cbn [Article.is_published negb].
  unfold ArticleRepository.commit. cbn [users categories articles Article.id].
  rewrite replace_first_app_last; [reflexivity | apply article_key_unused|].
  apply Z.eqb_refl.
Qed.

End Creation.

(** X11. When a [create_article] that runs alone returns, one article
    was appended: it is the article found under its slug afterwards, its
    slug is the one that the uniqueness loop assigns, which no article had
    before, and its title is the stripped title.  When it raises an error
    whose details name the type [ValidationError], one of the three checks
    of the payload failed (title, content, category), nothing was written,
    and the error is a [ValidationError]. *)
Theorem create_article_alone :
  forall (libs : External) w now db data author_id,
    let r := ArticleService.create_article w now (fun db => db) db data
               author_id in
    (forall created,
        outcome r = Return created ->
        ArticleRepository.get_by_slug (session r)
          (Article.slug (entity created)) = Some (entity created) /\
        ArticleService.assign_slug db None
          (ArticleService.text_of (ArticleService.ad_title data))
        = Some (Article.slug (entity created)) /\
        ArticleRepository.get_by_slug db (Article.slug (entity created))
        = None /\
        Article.title (entity created)
        = Py.strip_ws (ArticleService.text_of (ArticleService.ad_title data))
        /\
        articles (session r) = articles db ++ [entity created]) /\
    (forall e,
        outcome r = Raise e ->
        dict_get "type" (details e) = Some "ValidationError" ->
        cls e = ValidationError /\
        session r = db /\
        (ArticleService.missing (ArticleService.ad_title data) = true \/
         ArticleService.missing (ArticleService.ad_content data) = true \/
         ArticleService.category_rejected db
           (match ArticleService.ad_category_id data with
            | Some c => c | None => None end) = true)).
Proof.
  intros libs w now db data author_id r. subst r.
  unfold ArticleService.create_article.
  destruct (ArticleService.missing (ArticleService.ad_title data)) eqn:Ht.
  { unfold ArticleService.create_body. rewrite Ht. cbn.
    split; [discriminate|]. intros e [= <-] _. cbn. tauto. }
  destruct (ArticleService.missing (ArticleService.ad_content data)) eqn:Hc.
  { unfold ArticleService.create_body. rewrite Ht, Hc. cbn.
    split; [discriminate|]. intros e [= <-] _. cbn. tauto. }
  destruct (ArticleService.category_rejected db
              (match ArticleService.ad_category_id data with
               | Some c => c | None => None end)) eqn:Hcat.
  { unfold ArticleService.create_body. rewrite Ht, Hc.
    destruct (assign_slug_total db None
                (ArticleService.text_of (ArticleService.ad_title data)))
      as (slug & -> & _).
    rewrite Hcat. cbn.
    split; [discriminate|]. intros e [= <-] _. cbn. tauto. }
  destruct (create_body_alone now db data author_id Ht Hc Hcat)
    as (slug & Hslug & Hfree & Hbody).
  cbv zeta in Hbody. rewrite Hbody. cbn [outcome session].
  split; [|discriminate].
  intros created [= <-]. cbn [entity Article.slug Article.title].
  pose proof (free_slug_unused db slug Hfree) as Hunused.
  split; [|split; [exact Hslug | split; [|split; reflexivity]]].
  - unfold ArticleRepository.get_by_slug, first. cbn [articles].
    apply find_app_last; [exact Hunused|].
    now apply bool_decide_eq_true.
  - unfold ArticleRepository.get_by_slug, first.
    now apply find_none_iff.
Qed.

Lemma create_article_alone_witness :
  exists created,
    outcome (ArticleService.create_article (H := Fixtures.libraries)
               Fixtures.world Fixtures.noon (fun db => db) Fixtures.library
               Fixtures.retitle_request 1%Z)
    = Return created /\
    Article.slug (entity created) = "hello-there" /\
    ArticleRepository.get_by_slug Fixtures.library "hello-there" = None.
Proof.
  eexists. split; [vm_compute; reflexivity|]. split; [reflexivity|].
  apply (proj1 (create_article_alone Fixtures.libraries Fixtures.world
                  Fixtures.noon Fixtures.library Fixtures.retitle_request
                  1%Z) _ eq_refl).
Defined.

Section Retitling.
Context `{External}.
Import ArticleService.

(** [update_article] on an article the user may edit, with an acceptable
    category, in terms of the title and slug keys that [title_updates]
    computes. *)
Lemma update_article_with_title now db article_id data user_id article :
  ArticleRepository.get_by_id db article_id = Some article ->
  may_edit db article user_id = true ->
  match ad_category_id data with
  | Some c => category_rejected db c = false
  | None => True
  end ->
  exists title slug,
    title_updates db article_id article data = Some (title, slug) /\
    update_article now db article_id data user_id
    = mk_run
        (Return
           (mk_response true
              (ArticleRepository.set_attributes
                 (ArticleRepository.mk_update_data title slug
                    (option_map Validators.sanitize_html (ad_content data))
                    (option_map (fun e => excerpt_of (Some e))
                       (ad_excerpt data))
                    (ad_category_id data)
                    (fst (publication_updates now article data))
                    (snd (publication_updates now article data)))
                 article)
              updated_message))
        (ArticleRepository.commit db
           (ArticleRepository.set_attributes
              (ArticleRepository.mk_update_data title slug
                 (option_map Validators.sanitize_html (ad_content data))
                 (option_map (fun e => excerpt_of (Some e)) (ad_excerpt data))
                 (ad_category_id data)
                 (fst (publication_updates now article data))
                 (snd (publication_updates now article data)))
              article))
        [].
Proof.
  intros Hget Hedit Hcat.
  destruct (title_updates_total db article_id article data)
    as (slug & Htitle & _ & Hfree).
  exists (option_map Py.strip_ws (ad_title data)), slug.
  split; [exact Htitle|].
  unfold update_article. rewrite Hget, Hedit, Htitle. cbn [negb].
  assert (Hok : match ad_category_id data with
                | Some category_id => category_rejected db category_id
                | None => false
                end = false).
  { destruct (ad_category_id data); [exact Hcat | reflexivity]. }
  rewrite Hok.
  destruct (publication_updates now article data) as (p, q).
  cbn [fst snd]. unfold ArticleRepository.update. rewrite Hget.
  match goal with
  | |- context [negb ?b && existsb ?f ?l] =>
      assert (Hfine : negb b && existsb f l = false)
  end.
  { destruct slug as [new_slug|];
      cbn [ArticleRepository.set_attributes ArticleRepository.ud_slug
             ArticleRepository.or_keep Article.slug].
    - rewrite (free_slug_no_conflict db article_id new_slug (Hfree _ eq_refl)).
      apply andb_false_r.
    - now rewrite bool_decide_eq_true_2. }
  rewrite Hfine. reflexivity.
Qed.

End Retitling.

(** X12. Retitling an article keeps its slug when the new title has the
    same base slug: the article's own row is left out of the uniqueness
    check, so the base slug is found free and no suffix is added.  This
    holds in a store with positive keys and distinct slugs. *)
Theorem retitle_keeps_own_slug :
  forall (libs : External) now db article_id data user_id article title,
    Spec.positive_ids db ->
    List.NoDup (List.map Article.slug (articles db)) ->
    ArticleRepository.get_by_id db article_id = Some article ->
    ArticleService.may_edit db article user_id = true ->
    match ArticleService.ad_category_id data with
    | Some c => ArticleService.category_rejected db c = false
    | None => True
    end ->
    ArticleService.ad_title data = Some title ->
    _generate_slug (Py.strip_ws title) = Article.slug article ->
    exists updated,
      outcome (ArticleService.update_article now db article_id data user_id)
      = Return updated /\
      Article.slug (entity updated) = Article.slug article /\
      Article.title (entity updated) = Py.strip_ws title.
Proof.
  intros libs now db article_id data user_id article title Hpos Hnd Hget
    Hedit Hcat Htitle Hbase.
  destruct (update_article_with_title now db article_id data user_id article
              Hget Hedit Hcat) as (t & slug & Hupd & ->).
  cbn [outcome]. eexists. split; [reflexivity|]. cbn [entity].
  cbn [ArticleRepository.set_attributes Article.slug Article.title
         ArticleRepository.ud_slug ArticleRepository.ud_title].
  unfold ArticleService.title_updates in Hupd. rewrite Htitle in Hupd.
  destruct (bool_decide _) in Hupd.
  { injection Hupd as <- <-. now split. }
  destruct (article_assign_slug_assigned db (Some article_id)
              (Py.strip_ws title) Hpos) as (s & Hs & _ & Hfree & _).
  rewrite Hs in Hupd. injection Hupd as <- <-.
  split; [|reflexivity]. cbn [ArticleRepository.or_keep].
  rewrite <- Hbase. apply Hfree.
  intros (a & Hin & Hslug & Hother). apply Hother. f_equal.
  pose proof Hget as Hget'. apply find_some in Hget' as (Hart & _).
  rewrite <- (get_by_id_id db article_id article Hget).
  f_equal. apply list_elem_of_In in Hin.
  apply (NoDup_map_inj Article.slug (articles db)); try assumption.
  now rewrite Hslug, Hbase.
Qed.

Lemma retitle_keeps_own_slug_witness :
  Py.strip_ws "  Hello -- World?  " = "Hello -- World?" /\
  exists updated,
    outcome (ArticleService.update_article (H := Fixtures.libraries)
               Fixtures.noon Samples.newsroom 1 Samples.hello_retitled 1)
    = Return updated /\
    Article.slug (entity updated) = "hello-world" /\
    Article.title (entity updated) = "Hello -- World?".
Proof.
  split; [reflexivity|].
  apply (retitle_keeps_own_slug Fixtures.libraries Fixtures.noon
           Samples.newsroom 1%Z Samples.hello_retitled 1%Z Fixtures.hello
           "  Hello -- World?  ").
  - intros a Hin. simpl in Hin. each_row Hin; reflexivity.
  - repeat constructor; simpl; intuition discriminate.
  - reflexivity.
  - reflexivity.
  - exact I.
  - reflexivity.
  - reflexivity.
Defined.

(** X13. The uniqueness loop of [create_category] covers the slug only.
    For a request that runs alone and names the category: when another
    category already has the stripped name, the call does not return and
    the session is as it was, although the loop found a free slug; a
    [ValidationError] it raises then carries details of type
    [DatabaseError], from the insert that failed on the name.  When the
    call returns, no category had the stripped name, and the category was
    appended under the assigned slug. *)
Theorem create_category_alone :
  forall w db data,
    let name :=
      Py.strip_ws (ArticleService.text_of (CategoryService.cd_name data)) in
    let r := CategoryService.create_category w (fun db => db) db data in
    (ArticleService.missing (CategoryService.cd_name data) = false ->
     existsb (fun c => bool_decide (Category.name c = name)) (categories db)
     = true ->
     session r = db /\
     (forall created, outcome r <> Return created) /\
     (forall e,
         outcome r = Raise e -> cls e = ValidationError ->
         dict_get "type" (details e) = Some "DatabaseError")) /\
    (forall created,
        outcome r = Return created ->
        existsb (fun c => bool_decide (Category.name c = name))
          (categories db) = false /\
        CategoryService.assign_slug db
          (ArticleService.text_of (CategoryService.cd_name data))
        = Some (Category.slug (entity created)) /\
        Category.name (entity created) = name /\
        categories (session r) = categories db ++ [entity created]).
Proof.
  intros w db data name r. subst name r.
  unfold CategoryService.create_category, CategoryService.create_body.
  destruct (ArticleService.missing (CategoryService.cd_name data)) eqn:Hname.
  { cbn. split; [discriminate|]. intros created. discriminate. }
  destruct (category_assign_slug_assigned db
              (ArticleService.text_of (CategoryService.cd_name data)))
    as (slug & Hslug & Hfree & _).
  rewrite Hslug. unfold CategoryRepository.create, CategoryRepository.violated.
  destruct (existsb _ (categories db)) eqn:Htaken.
  - cbn. split.
    + intros _ _. split; [reflexivity|]. split; [discriminate|].
      now intros e [= <-] _.
    + intros created. discriminate.
  - assert (Hunused :
      existsb (fun c => bool_decide (Category.slug c = slug)) (categories db)
      = false).
    { apply existsb_false_iff. intros c Hin. apply bool_decide_eq_false.
      intros Hs. apply Hfree. exists c. now rewrite list_elem_of_In. }
    rewrite Hunused. cbn. split; [discriminate|].
    intros created [= <-]. now repeat split.
Qed.

Lemma create_category_alone_witness :
  session (CategoryService.create_category Fixtures.world (fun db => db)
             Samples.newsroom Samples.science_again) = Samples.newsroom /\
  CategoryService.assign_slug Samples.newsroom " Science "
  = Some "science-1".
Proof.
  split; [|reflexivity].
  apply (proj1 (create_category_alone Fixtures.world Samples.newsroom
                  Samples.science_again) eq_refl eq_refl).
Defined.

(* ================================================================== *)
(** * Accounts *)
(* ================================================================== *)

Section Accounts.

Lemma email_exists_false db email :
  UserStore.email_exists db email = false ->
  forall u, In u (users db) ->
            bool_decide (User.email u = Py.lower email) = false.
Proof.
  unfold UserStore.email_exists, UserRepository.get_by_email, first.
  destruct (List.find _ _) eqn:Hf; [discriminate|]. intros _.
  now apply find_none_iff.
Qed.

Lemma username_exists_false db username :
  UserStore.username_exists db username = false ->
  forall u, In u (users db) ->
            bool_decide (User.username u = username) = false.
Proof.
  unfold UserStore.username_exists, UserStore.get_by_username, first.
  destruct (List.find _ _) eqn:Hf; [discriminate|]. intros _.
  now apply find_none_iff.
Qed.

(** The row that [create] builds from the arguments of [create_user]. *)
Lemma create_user_inserts db email username password_hash kwargs :
  UserStore.email_exists db email = false ->
  UserStore.username_exists db username = false ->
  UserStore.create_user db email username password_hash kwargs
  = (mk_session
       (users db
        ++ [User.mk (next_id (map User.id (users db))) (Py.lower email)
              username password_hash (UserStore.kw_first_name kwargs)
              (UserStore.kw_last_name kwargs)
              (UserStore.column_default true (UserStore.kw_is_active kwargs))
              (UserStore.column_default false (UserStore.kw_is_staff kwargs))
              (UserStore.column_default false
                 (UserStore.kw_is_superuser kwargs))
              (UserStore.kw_last_login kwargs)])
       (categories db) (articles db),
     Return (User.mk (next_id (map User.id (users db))) (Py.lower email)
               username password_hash (UserStore.kw_first_name kwargs)
               (UserStore.kw_last_name kwargs)
               (UserStore.column_default true (UserStore.kw_is_active kwargs))
               (UserStore.column_default false (UserStore.kw_is_staff kwargs))
               (UserStore.column_default false
                  (UserStore.kw_is_superuser kwargs))
               (UserStore.kw_last_login kwargs))).
Proof.
  intros He Hu. unfold UserStore.create_user. rewrite He, Hu.
  unfold UserStore.create, UserStore.violated.
  rewrite (proj2 (existsb_false_iff _ _) (email_exists_false db email He)).
  rewrite (proj2 (existsb_false_iff _ _)
             (username_exists_false db username Hu)).
  reflexivity.
Qed.

End Accounts.

(** X14. Whatever keywords it is given, [create_user] looks for the email
    and then for the user name before it writes: a taken email (in any
    letter case of the given one) and a taken user name each raise their
    [ValidationError] and leave the session as it was.  When it returns,
    one user was appended; its email is the given one in lower case, its
    hash the given one, its flags the keywords' values or the column
    defaults (active, not staff); it is the user found afterwards by the
    user name and by every spelling of the email that differs in letter
    case only, and no such spelling was registered before. *)
Theorem create_user_outcomes :
  forall db email username password_hash kwargs,
    let r := UserStore.create_user db email username password_hash kwargs in
    (UserStore.email_exists db email = true ->
     r = (db, Raise (raise_ ValidationError "Email address already exists")))
    /\
    (UserStore.email_exists db email = false ->
     UserStore.username_exists db username = true ->
     r = (db, Raise (raise_ ValidationError "Username already exists")))
    /\
    (forall user,
        snd r = Return user ->
        users (fst r) = users db ++ [user] /\
        User.email user = Py.lower email /\
        User.password_hash user = password_hash /\
        User.is_active user
        = UserStore.column_default true (UserStore.kw_is_active kwargs) /\
        User.is_staff user
        = UserStore.column_default false (UserStore.kw_is_staff kwargs) /\
        UserStore.get_by_username (fst r) username = Some user /\
        (forall spelling,
            Py.lower spelling = Py.lower email ->
            UserRepository.get_by_email (fst r) spelling = Some user /\
            UserRepository.get_by_email db spelling = None)).
Proof.
  intros db email username password_hash kwargs r. subst r.
  split; [|split].
  - intros He. unfold UserStore.create_user. now rewrite He.
  - intros He Hu. unfold UserStore.create_user. now rewrite He, Hu.
  - intros user.
    destruct (UserStore.email_exists db email) eqn:He.
    { unfold UserStore.create_user. rewrite He. discriminate. }
    destruct (UserStore.username_exists db username) eqn:Hu.
    { unfold UserStore.create_user. rewrite He, Hu. discriminate. }
    rewrite (create_user_inserts _ _ _ _ _ He Hu). cbn [fst snd users].
    intros [= <-].
    cbn [User.email User.password_hash User.is_active User.is_staff].
    repeat split.
    + unfold UserStore.get_by_username, first. cbn [users].
      apply find_app_last; [now apply username_exists_false|].
      now apply bool_decide_eq_true.
    + rename H into Hsame.
      unfold UserRepository.get_by_email, first. cbn [users]. rewrite Hsame.
      apply find_app_last; [now apply email_exists_false|].
      now apply bool_decide_eq_true.
    + rename H into Hsame.
      unfold UserStore.email_exists, UserRepository.get_by_email in *.
      rewrite Hsame. now destruct (first _ (users db)).
Qed.

Section Registering.
Context `{External} `{Bcrypt}.
Import Registration.

(** What a registration that passes the schema was given. *)
Lemma validated_fields data v :
  validate_user_registration data = Return v ->
  rd_email data = Some (v_email v) /\
  rd_username data = Some (v_username v) /\
  rd_password data = Some (v_password v) /\
  is_email (v_email v) = true /\
  (8 <= Py.len (v_password v))%nat.
Proof.
  unfold validate_user_registration.
  destruct (rd_email data) as [e|]; [|discriminate].
  destruct (rd_username data) as [u|]; [|discriminate].
  destruct (rd_password data) as [p|]; [|discriminate].
  destruct (is_email e) eqn:He; [|discriminate]. cbn [andb].
  destruct ((3 <=? Py.len u)%nat && (Py.len u <=? 30)%nat
            && InputValidator.match_run_to_end InputValidator.username_char u);
    [|discriminate]. cbn [andb].
  destruct ((8 <=? Py.len p)%nat) eqn:Hp; [|discriminate].
  destruct ((Py.len p <=? 128)%nat && InputValidator.PASSWORD_PATTERN_match p
            && name_ok (rd_first_name data) && name_ok (rd_last_name data))
    eqn:Hrest.
  - cbn [andb]. destruct ((Py.len p <=? 128)%nat),
      (InputValidator.PASSWORD_PATTERN_match p),
      (name_ok (rd_first_name data)), (name_ok (rd_last_name data));
      try discriminate.
    intros [= <-]. cbn. apply Nat.leb_le in Hp. now repeat split.
  - cbn [andb]. destruct ((Py.len p <=? 128)%nat),
      (InputValidator.PASSWORD_PATTERN_match p),
      (name_ok (rd_first_name data)), (name_ok (rd_last_name data));
      discriminate.
Qed.

(** A registration returns only after [create_user] inserted the user. *)
Lemma register_user_returns w salt db data created :
  outcome (register_user w salt db data) = Return created ->
  exists v,
    validate_user_registration data = Return v /\
    UserStore.email_exists db (v_email v) = false /\
    UserStore.username_exists db (v_username v) = false /\
    entity created
    = User.mk (next_id (map User.id (users db))) (Py.lower (v_email v))
        (v_username v) (hashpw (v_password v) salt) (Some (v_first_name v))
        (Some (v_last_name v)) true false false None /\
    session (register_user w salt db data)
    = mk_session (users db ++ [entity created]) (categories db) (articles db).
Proof.
  unfold register_user, register_body.
  destruct (validate_user_registration data) as [v|e|] eqn:Hv.
  - destruct (UserStore.email_exists db (v_email v)) eqn:He.
    { unfold UserStore.create_user. rewrite He. discriminate. }
    destruct (UserStore.username_exists db (v_username v)) eqn:Hu.
    { unfold UserStore.create_user. rewrite He, Hu. discriminate. }
    rewrite (create_user_inserts _ _ _ _ _ He Hu). cbn [outcome session].
    intros [= <-]. exists v. now repeat split.
  - destruct (ArticleService.caught e); discriminate.
  - discriminate.
Qed.

End Registering.



(** X16. Registration and login fit together: when [bcrypt.checkpw]
    accepts what [bcrypt.hashpw] produced, a user whose registration
    returned can log in right away with the email and password of the
    registration, and the login returns that user. *)
Theorem registered_user_can_log_in :
  forall (libs : External) (bc : Bcrypt) w salt db data created,
    (forall password s, checkpw password (hashpw password s) = Done true) ->
    outcome (Registration.register_user w salt db data) = Return created ->
    forall w' now,
    exists logged,
      outcome (AuthenticationService.authenticate_user w' now
                 (session (Registration.register_user w salt db data))
                 (Validators.mk_login_data (Registration.rd_email data)
                    (Registration.rd_password data)))
      = Return logged /\
      entity logged = entity created.
Proof.
  intros libs bc w salt db data created Hbcrypt Hreg w' now.
  destruct (register_user_returns w salt db data created Hreg)
    as (v & Hv & He & Hu & Hcreated & ->).
  destruct (validated_fields data v Hv) as (-> & _ & -> & Hmail & Hlen).
  unfold AuthenticationService.authenticate_user,
    AuthenticationService.authenticate_body,
    AuthenticationService._verify_password, Validators.validate_user_login.
  cbn [Validators.ld_email Validators.ld_password]. rewrite Hmail.
  assert ((1 <=? Py.len (Registration.v_password v))%nat = true) as ->
    by (apply Nat.leb_le; lia).
  cbn [andb].
  assert (Hfound :
    UserRepository.get_by_email
      (mk_session (users db ++ [entity created]) (categories db) (articles db))
      (Registration.v_email v) = Some (entity created)).
  { unfold UserRepository.get_by_email, first. cbn [users].
    apply find_app_last; [now apply email_exists_false|].
    rewrite Hcreated. now apply bool_decide_eq_true. }
  rewrite Hfound, Hcreated. cbn [User.is_active User.password_hash negb].
  rewrite Hbcrypt. cbn [negb].
  destruct (UserRepository.update_last_login _ _ _) as (db', u').
  cbn [outcome]. eexists. split; reflexivity.
Qed.

Lemma registered_user_can_log_in_witness :
  exists created,
    outcome (Registration.register_user (H := Fixtures.libraries)
               (H0 := Samples.plain) Fixtures.world "salt" Samples.newsroom
               Samples.carol_data) = Return created /\
    exists logged,
      outcome (AuthenticationService.authenticate_user
                 (H := Fixtures.libraries) Fixtures.world Fixtures.noon
                 (session (Registration.register_user
                             (H := Fixtures.libraries) (H0 := Samples.plain)
                             Fixtures.world "salt" Samples.newsroom
                             Samples.carol_data))
                 Samples.carol_login)
      = Return logged /\
      entity logged = entity created.
Proof.
  eexists. split; [vm_compute; reflexivity|].
  apply (registered_user_can_log_in Fixtures.libraries Samples.plain
           Fixtures.world "salt" Samples.newsroom Samples.carol_data).
  - intros password s. cbn. f_equal. now apply bool_decide_eq_true.
  - vm_compute. reflexivity.
Defined.


(* ================================================================== *)
(** * Who may change an article *)
(* ================================================================== *)

(** X18. A user who is unknown, or who is neither the author of the
    article nor a staff member, can neither update nor delete it: both
    calls raise [BusinessLogicError] and leave the session as it was,
    whatever the payload. *)
Theorem only_author_or_staff_may_change :
  forall (libs : External) now db article_id data user_id article,
    ArticleRepository.get_by_id db article_id = Some article ->
    (UserRepository.get_by_id db user_id = None \/
     (Article.author_id article <> user_id /\
      forall user, UserRepository.get_by_id db user_id = Some user ->
                   User.is_staff user = false)) ->
    ArticleService.update_article now db article_id data user_id
    = mk_run (Raise (raise_ BusinessLogicError
                       "You don't have permission to edit this article"))
        db [] /\
    Removal.delete_article db article_id user_id
    = mk_run (Raise (raise_ BusinessLogicError
                       "You don't have permission to delete this article"))
        db [].
Proof.
  intros libs now db article_id data user_id article Hget Hwho.
  assert (Hdenied : ArticleService.may_edit db article user_id = false).
  { unfold ArticleService.may_edit.
    destruct Hwho as [-> | (Hauthor & Hstaff)]; [reflexivity|].
    destruct (UserRepository.get_by_id db user_id) as [user|]; [|reflexivity].
    rewrite (Hstaff user eq_refl), orb_false_r. now apply Z.eqb_neq. }
  unfold ArticleService.update_article, Removal.delete_article.
  rewrite Hget, Hdenied. now split.
Qed.

Lemma only_author_or_staff_may_change_witness :
  ArticleRepository.get_by_id Samples.newsroom 1 = Some Fixtures.hello /\
  Removal.delete_article Samples.newsroom 1 2
  = mk_run (Raise (raise_ BusinessLogicError
                     "You don't have permission to delete this article"))
      Samples.newsroom [].
Proof.
  split; [reflexivity|].
  apply (only_author_or_staff_may_change Fixtures.libraries Fixtures.noon
           Samples.newsroom 1%Z Fixtures.publish_request 2%Z Fixtures.hello
           eq_refl).
  right. split; [discriminate|]. now intros user [= <-].
Defined.

(** X19. In a store with distinct keys, a [delete_article] by the author
    or a staff member returns and removes exactly that article: it is no
    longer found by its key, every other article is found as before, the
    table is one row shorter, and users and categories are untouched. *)
Theorem delete_article_removes :
  forall db article_id user_id article,
    List.NoDup (List.map Article.id (articles db)) ->
    ArticleRepository.get_by_id db article_id = Some article ->
    ArticleService.may_edit db article user_id = true ->
    let r := Removal.delete_article db article_id user_id in
    outcome r = Return (mk_response true tt "Article deleted successfully") /\
    ArticleRepository.get_by_id (session r) article_id = None /\
    (forall other,
        other <> article_id ->
        ArticleRepository.get_by_id (session r) other
        = ArticleRepository.get_by_id db other) /\
    S (length (articles (session r))) = length (articles db) /\
    users (session r) = users db /\ categories (session r) = categories db.
Proof.
  intros db article_id user_id article Hnd Hget Hedit r. subst r.
  unfold Removal.delete_article, Removal.delete. rewrite Hget, Hedit.
  cbn [negb outcome session users categories articles].
  split; [reflexivity|]. split; [|split; [|split; [|split; reflexivity]]].
  - unfold ArticleRepository.get_by_id, first. cbn [articles].
    now apply find_remove_first_gone.
  - intros other Hother. unfold ArticleRepository.get_by_id, first.
    cbn [articles]. apply find_remove_first_other. congruence.
  - now apply (length_remove_first _ _ article).
Qed.

Lemma delete_article_removes_witness :
  List.NoDup (List.map Article.id (articles Samples.newsroom)) /\
  ArticleRepository.get_by_id
    (session (Removal.delete_article Samples.newsroom 1 3)) 1 = None.
Proof.
  assert (Hnd : List.NoDup (List.map Article.id (articles Samples.newsroom))).
  { repeat constructor; simpl; intuition discriminate. }
  split; [exact Hnd|].
  apply (delete_article_removes Samples.newsroom 1%Z 3%Z Fixtures.hello Hnd
           eq_refl eq_refl).
Defined.

(* ================================================================== *)
(** * At the controllers *)
(* ================================================================== *)

(** X20. What [BaseController.handle_error] answers depends on the error
    through its class alone: two errors of the same class get the same
    response and status code, whatever their messages and details; the
    message is the default for MEDIUM or for HIGH, and the status code is
    one of 400, 401, 422 and 500. *)
Theorem controller_response_by_class :
  forall w e e',
    cls e = cls e' ->
    fst (Controllers.handle_error w e) = fst (Controllers.handle_error w e') /\
    (dict_get "message" (fst (fst (Controllers.handle_error w e)))
     = Some (_get_default_message MEDIUM) \/
     dict_get "message" (fst (fst (Controllers.handle_error w e)))
     = Some (_get_default_message HIGH)) /\
    In (snd (fst (Controllers.handle_error w e))) [400; 401; 422; 500]%Z /\
    dict_get "type" (fst (fst (Controllers.handle_error w e)))
    = Some (class_name (cls e)).
Proof.
  intros w [c m d] [c' m' d']. cbn [cls]. intros <-.
  unfold Controllers.handle_error, Controllers.classify. cbn [cls].
  destruct c; cbn; intuition.
Qed.

Lemma controller_response_by_class_witness :
  fst (Controllers.handle_error Fixtures.world Samples.failed_insert)
  = fst (Controllers.handle_error Fixtures.world Samples.failed_update) /\
  snd (fst (Controllers.handle_error Fixtures.world Samples.failed_insert))
  = 500%Z.
Proof.
  split; [|reflexivity].
  apply (controller_response_by_class Fixtures.world Samples.failed_insert
           Samples.failed_update eq_refl).
Defined.

(** X21. A page is served by slug only for a published article and only
    for an active category.  For a draft and for an inactive category the
    answer is the 404 answer of a slug that does not exist; an answer with
    data carries the slug that was asked for and the content of a
    published article, or the name of an active category. *)
Theorem pages_by_slug :
  forall db slug,
    (forall article,
        ArticleRepository.get_by_slug db slug = Some article ->
        Article.is_published article = false ->
        Pages.get_article_by_slug db slug
        = Return (Pages.Failure "Article not found" 404)) /\
    (ArticleRepository.get_by_slug db slug = None ->
     Pages.get_article_by_slug db slug
     = Return (Pages.Failure "Article not found" 404)) /\
    (forall page code,
        Pages.get_article_by_slug db slug = Return (Pages.Success page code) ->
        code = 200%Z /\ Pages.ap_slug page = slug /\
        exists article,
          ArticleRepository.get_by_slug db slug = Some article /\
          Article.is_published article = true /\
          Pages.ap_content page = Article.content article /\
          Pages.ap_title page = Article.title article) /\
    (forall category,
        Pages.get_by_slug db slug = Some category ->
        Category.is_active category = false ->
        Pages.get_category_by_slug db slug
        = Pages.Failure "Category not found" 404) /\
    (Pages.get_by_slug db slug = None ->
     Pages.get_category_by_slug db slug
     = Pages.Failure "Category not found" 404) /\
    (forall page code,
        Pages.get_category_by_slug db slug = Pages.Success page code ->
        code = 200%Z /\ Pages.cp_slug page = slug /\
        exists category,
          Pages.get_by_slug db slug = Some category /\
          Category.is_active category = true /\
          Pages.cp_name page = Category.name category).
Proof.
  intros db slug. unfold Pages.get_article_by_slug, Pages.get_category_by_slug.
  split; [intros article -> ->; reflexivity|].
  split; [intros ->; reflexivity|]. split.
  - intros page code.
    destruct (ArticleRepository.get_by_slug db slug) as [article|] eqn:Hget;
      [|discriminate].
    destruct (Article.is_published article) eqn:Hpub; [|discriminate].
    cbn [negb].
    destruct (UserRepository.get_by_id db (Article.author_id article));
      [|discriminate].
    intros [= <- <-]. split; [reflexivity|]. cbn [Pages.ap_slug].
    apply find_some in Hget as Hfound. destruct Hfound as (_ & Hslug).
    apply bool_decide_eq_true in Hslug. split; [exact Hslug|].
    exists article. now repeat split.
  - split; [intros category -> ->; reflexivity|].
    split; [intros ->; reflexivity|].
    intros page code.
    destruct (Pages.get_by_slug db slug) as [category|] eqn:Hget;
      [|discriminate].
    destruct (Category.is_active category) eqn:Hact; [|discriminate].
    cbn [negb]. intros [= <- <-]. split; [reflexivity|].
    cbn [Pages.cp_slug].
    apply find_some in Hget as Hfound. destruct Hfound as (_ & Hslug).
    apply bool_decide_eq_true in Hslug. split; [exact Hslug|].
    exists category. now repeat split.
Qed.

(** X22. For a clock reading with a four-digit year and a random token of
    at least eight characters, the error identifier is ["error_"], the
    eight digits of the date, an underscore and the first eight characters
    of the token: 23 characters in all. *)
Theorem error_id_format :
  forall w,
    Py.valid_datetime (utcnow_id w) ->
    1000 <= Py.year (utcnow_id w) ->
    (8 <= Py.len (uuid4 w))%nat ->
    exists date,
      _generate_error_id w
      = "error_" +:+ date +:+ "_" +:+ Py.slice_to 8 (uuid4 w) /\
      Spec.digits_only date = true /\
      Py.len date = 8%nat /\
      Py.len (Py.slice_to 8 (uuid4 w)) = 8%nat /\
      Py.len (_generate_error_id w) = 23%nat.
Proof.
  intros w (Hy & Hm & Hd & _) _ Huuid.
  exists (Py.strftime_Ymd (utcnow_id w)).
  destruct (zero_padded_shape 4 (Py.year (utcnow_id w)))
    as (Hyd & Hyl); [lia | cbn; lia |].
  destruct (zero_padded_shape 2 (Py.month (utcnow_id w)))
    as (Hmd & Hml); [lia | cbn; lia |].
  destruct (zero_padded_shape 2 (Py.day (utcnow_id w)))
    as (Hdd & Hdl); [lia | cbn; lia |].
  assert (Hdate : Py.len (Py.strftime_Ymd (utcnow_id w)) = 8%nat).
  { unfold Py.len, Py.strftime_Ymd. rewrite !length_app_string. lia. }
  assert (Htoken : Py.len (Py.slice_to 8 (uuid4 w)) = 8%nat).
  { unfold Py.len in *.
    rewrite <- length_chars, chars_slice_to, length_firstn, length_chars.
    lia. }
  split; [reflexivity|]. split; [|split; [exact Hdate | split; [exact Htoken|]]].
  - unfold Py.strftime_Ymd. rewrite !digits_only_app, Hyd, Hmd, Hdd.
    reflexivity.
  - unfold _generate_error_id, Py.len in *.
    rewrite !length_app_string, Hdate, Htoken. reflexivity.
Qed.

Lemma error_id_format_witness :
  Py.valid_datetime (utcnow_id Fixtures.world) /\
  _generate_error_id Fixtures.world = "error_20231225_0123abcd" /\
  Py.len (_generate_error_id Fixtures.world) = 23%nat.
Proof.
  assert (Hv : Py.valid_datetime (utcnow_id Fixtures.world)).
  { unfold Py.valid_datetime. cbn. lia. }
  split; [exact Hv|]. split; [vm_compute; reflexivity|].
  destruct (error_id_format Fixtures.world Hv) as (date & _ & _ & _ & _ & Hlen).
  - cbn. lia.
  - apply Nat.leb_le. reflexivity.
  - exact Hlen.
Defined.

(** X23. [authenticate_user] returns only for a login that passes the
    schema, whose email is registered to an active account and whose
    password verifies against the stored hash; the user returned is that
    account, and articles and categories are untouched. *)
Theorem login_requires_valid_credentials :
  forall (libs : External) w now db data logged,
    outcome (AuthenticationService.authenticate_user w now db data)
    = Return logged ->
    exists email password,
      Validators.validate_user_login data = Return (email, password) /\
      UserRepository.get_by_email db email = Some (entity logged) /\
      User.email (entity logged) = Py.lower email /\
      User.is_active (entity logged) = true /\
      checkpw password (User.password_hash (entity logged)) = Done true /\
      articles (session (AuthenticationService.authenticate_user w now db data))
      = articles db /\
      categories
        (session (AuthenticationService.authenticate_user w now db data))
      = categories db.
Proof.
  intros libs w now db data logged.
  unfold AuthenticationService.authenticate_user,
    AuthenticationService.authenticate_body,
    AuthenticationService._verify_password.
  destruct (Validators.validate_user_login data) as [[email password]|e|]
    eqn:Hvalid; [|destruct (cls e); discriminate | discriminate].
  destruct (UserRepository.get_by_email db email) as [user|] eqn:Hget;
    [|discriminate].
  destruct (User.is_active user) eqn:Hactive; [|discriminate].
  destruct (checkpw password (User.password_hash user)) as [[|]|e] eqn:Hpw;
    cbn [negb];
    [|cbn; discriminate | destruct (cls e); cbn; discriminate].
  unfold UserRepository.update_last_login.
  destruct (UserRepository.get_by_id db (User.id user));
    cbn [outcome session]; intros [= <-]; cbn [entity];
    exists email, password; repeat split; try assumption;
    apply find_some in Hget as (_ & Hmail);
    now apply bool_decide_eq_true in Hmail.
Qed.

Lemma login_requires_valid_credentials_witness :
  exists email,
    UserRepository.get_by_email Samples.newsroom email = Some Fixtures.ann /\
    Py.lower email = "ann@example.org".
Proof.
  destruct (login_requires_valid_credentials Fixtures.libraries
              Fixtures.world Fixtures.noon Samples.newsroom
              (Validators.mk_login_data (Some "ANN@example.org")
                 (Some "s3cret"))
              (mk_response true Fixtures.ann
                 AuthenticationService.success_message) eq_refl)
    as (email & password & _ & Hget & Hmail & _).
  exists email. split; [exact Hget | now rewrite <- Hmail].
Defined.

(* ================================================================== *)
(** * Titles with whitespace around them *)
(* ================================================================== *)

Section Margins.

Abbreviation spaces := (Forall (fun c => Py.isspace c = true)).

Lemma lstrip_ws_split (s : string) :
  exists pre, chars s = pre ++ chars (Py.lstrip_ws s) /\ spaces pre.
Proof.
  induction s as [|c s (pre & IH & Hpre)].
  - exists []. split; [reflexivity | constructor].
  - cbn [Py.lstrip_ws]. destruct (Py.isspace c) eqn:Hc.
    + exists (c :: pre). cbn [list_ascii_of_string app]. rewrite IH.
      split; [reflexivity | now constructor].
    + exists []. split; [reflexivity | constructor].
Qed.

Lemma rstrip_ws_split (s : string) :
  exists suf, chars s = chars (Py.rstrip_ws s) ++ suf /\ spaces suf.
Proof.
  induction s as [|c s (suf & IH & Hsuf)].
  - exists []. split; [reflexivity | constructor].
  - cbn [Py.rstrip_ws]. destruct (Py.rstrip_ws s) as [|d t] eqn:Hr.
    + destruct (Py.isspace c) eqn:Hc.
      * exists (c :: suf). cbn [list_ascii_of_string app] in *.
        rewrite IH. split; [reflexivity | now constructor].
      * exists suf. cbn [list_ascii_of_string app] in *. now rewrite IH.
    + exists suf. cbn [list_ascii_of_string app] in *. now rewrite IH.
Qed.

(** Lower-casing and filtering keep whitespace as it is. *)
Lemma filtered_spaces (l : list ascii) :
  spaces l ->
  Forall (fun c => Spec.separator c = true)
    (Spec.strip_others Spec.kept_with_underscore (Spec.lowercase l)).
Proof.
  intros Hl. apply List.Forall_forall. intros c Hin.
  apply filter_In in Hin as (Hin & _).
  apply in_map_iff in Hin as (c0 & <- & Hin0).
  rewrite List.Forall_forall in Hl. specialize (Hl c0 Hin0).
  unfold Spec.separator. now rewrite isspace_lower_char, Hl.
Qed.

Lemma filtered_app (l m : list ascii) :
  Spec.strip_others Spec.kept_with_underscore (Spec.lowercase (l ++ m))
  = Spec.strip_others Spec.kept_with_underscore (Spec.lowercase l)
    ++ Spec.strip_others Spec.kept_with_underscore (Spec.lowercase m).
Proof.
  unfold Spec.strip_others, Spec.lowercase.
  now rewrite List.map_app, List.filter_app.
Qed.

(** Separators in front of a text vanish with the leading hyphens. *)
Lemma drop_collapse_leading (p x : list ascii) :
  Forall (fun c => Spec.separator c = true) p ->
  Spec.drop_hyphens (Spec.collapse_runs (p ++ x))
  = Spec.drop_hyphens (Spec.collapse_runs x).
Proof.
  induction 1 as [|c p Hc _ IH]; [reflexivity|].
  cbn [app]. rewrite collapse_cons, Hc.
  destruct (Spec.starts_with_hyphen _); [exact IH|].
  cbn [Spec.drop_hyphens]. exact IH.
Qed.

Lemma collapse_separators (s : list ascii) :
  Forall (fun c => Spec.separator c = true) s ->
  Spec.collapse_runs s = [] \/ Spec.collapse_runs s = [Py.hyphen].
Proof.
  induction 1 as [|c s Hc _ IH]; [now left|]. right.
  rewrite collapse_cons, Hc. destruct IH as [-> | ->]; reflexivity.
Qed.

(** Collapsing a text in front of a hyphen: the collapsed text, with or
    without that hyphen after it. *)
Lemma collapse_before_hyphen (x : list ascii) :
  let step c acc :=
    if Spec.separator c then
      if Spec.starts_with_hyphen acc then acc else Py.hyphen :: acc
    else c :: acc in
  fold_right step [Py.hyphen] x = Spec.collapse_runs x \/
  fold_right step [Py.hyphen] x = Spec.collapse_runs x ++ [Py.hyphen].
Proof.
  cbv zeta. induction x as [|c x IH]; [now right|].
  cbn [fold_right]. rewrite collapse_cons.
  destruct IH as [-> | ->].
  - now left.
  - destruct (Spec.separator c); [|now right].
    destruct (Spec.collapse_runs x) as [|d t]; [now left|].
    cbn [app Spec.starts_with_hyphen].
    destruct (Py.is_hyphen d); now right.
Qed.

Lemma trim_hyphens_snoc (y : list ascii) :
  Spec.trim_hyphens (y ++ [Py.hyphen]) = Spec.trim_hyphens y.
Proof.
  unfold Spec.trim_hyphens. rewrite drop_hyphens_snoc.
  destruct (Spec.drop_hyphens y) as [|d t] eqn:Hd; [reflexivity|].
  cbn [Py.is_hyphen]. rewrite rev_app_distr. reflexivity.
Qed.

Lemma trim_collapse_margins (p x s : list ascii) :
  Forall (fun c => Spec.separator c = true) p ->
  Forall (fun c => Spec.separator c = true) s ->
  Spec.trim_hyphens (Spec.collapse_runs (p ++ x ++ s))
  = Spec.trim_hyphens (Spec.collapse_runs x).
Proof.
  intros Hp Hs.
  assert (Hlead : Spec.trim_hyphens (Spec.collapse_runs (p ++ x ++ s))
                  = Spec.trim_hyphens (Spec.collapse_runs (x ++ s))).
  { unfold Spec.trim_hyphens. now rewrite drop_collapse_leading. }
  rewrite Hlead. unfold Spec.collapse_runs at 1. rewrite fold_right_app.
  fold (Spec.collapse_runs s).
  destruct (collapse_separators s Hs) as [-> | ->]; [reflexivity|].
  destruct (collapse_before_hyphen x) as [Hx | Hx]; cbv zeta in Hx;
    rewrite Hx; [reflexivity | apply trim_hyphens_snoc].
Qed.

End Margins.

(** X24. The slug does not depend on whitespace around the title:
    [_generate_slug] gives the same slug for a title and for the title
    stripped, so the slug that [create_article] derives from the raw title
    is the one that [update_article] derives from the stripped title. *)
Theorem generate_slug_ignores_margins :
  forall title,
    _generate_slug (Py.strip_ws title) = _generate_slug title.
Proof.
  intros title. rewrite !generate_slug_as_worded.
  unfold Spec.normalize_with. do 2 f_equal.
  unfold Py.strip_ws.
  destruct (lstrip_ws_split title) as (pre & Hpre & Hp).
  destruct (rstrip_ws_split (Py.lstrip_ws title)) as (suf & Hsuf & Hs).
  rewrite Hpre, Hsuf, !filtered_app.
  symmetry. apply trim_collapse_margins; now apply filtered_spaces.
Qed.

(* ================================================================== *)
(** * Accepted addresses *)
(* ================================================================== *)

Section Addresses.
Import InputValidator.

Lemma label_char_alnum (c : ascii) : ascii_alnum c = true -> label_char c = true.
Proof. unfold label_char. now intros ->. Qed.

(** A domain that [domain_from] accepts is made of label characters and
    dots, possibly with one newline after them. *)
Lemma domain_from_chars (s : string) :
  forall count closed,
    domain_from count closed s = true ->
    Forall (fun c => (label_char c || is_dot c) = true) (chars s) \/
    exists s', s = s' +:+ String "010" "" /\
               Forall (fun c => (label_char c || is_dot c) = true) (chars s').
Proof.
  induction s as [|c t IH]; intros count closed; [left; constructor|].
  cbn [domain_from]. destruct (label_char c) eqn:Hl.
  - intros Hd. destruct (IH _ _ Hd) as [Hall | (s' & -> & Hall)].
    + left. constructor; [now rewrite Hl | exact Hall].
    + right. exists (String c s'). split; [reflexivity|].
      constructor; [now rewrite Hl | exact Hall].
  - destruct (is_dot c) eqn:Hdot.
    + intros Hd. apply andb_true_iff in Hd as (_ & Hd).
      destruct t as [|d t']; [discriminate|].
      apply andb_true_iff in Hd as (Hal & Hd).
      assert (Ht : domain_from 0 true (String d t') = true).
      { cbn [domain_from]. now rewrite (label_char_alnum d Hal), Hal. }
      destruct (IH _ _ Ht) as [Hall | (s' & Hs & Hall)].
      * left. constructor; [now rewrite Hdot, orb_true_r | exact Hall].
      * right. exists (String c s'). split; [now rewrite Hs|].
        constructor; [now rewrite Hdot, orb_true_r | exact Hall].
    + destruct (is_newline c) eqn:Hnl; [|discriminate].
      intros Hd. apply andb_true_iff in Hd as (_ & Hd).
      destruct t; [|discriminate].
      right. exists "". split; [now rewrite (is_newline_eq c Hnl)|].
      constructor.
Qed.

Lemma strip_ws_lower_last (e : string) (l : list ascii) :
  chars (Py.lower (Py.strip_ws e)) <> l ++ ["010"%char].
Proof.
  rewrite chars_lower. unfold Spec.lowercase. intros Heq.
  apply map_eq_app in Heq as (l1 & l2 & Hsplit & _ & Hlast).
  destruct l2 as [|c [|d l2]]; try discriminate.
  injection Hlast as Hc.
  unfold Py.strip_ws in Hsplit. apply rstrip_ws_last in Hsplit.
  rewrite <- isspace_lower_char, Hc in Hsplit. discriminate.
Qed.

End Addresses.

(** X25. An address that [validate_email] accepts, stripped and in lower
    case, is a non-empty local part of the characters of the pattern's
    first class, one [@], and a non-empty domain of letters, digits,
    hyphens and dots: it has exactly one [@] and no whitespace, control
    character, quote or bracket. *)
Theorem validate_email_accepts_only :
  forall e,
    InputValidator.validate_email (Some e) = true ->
    exists local domain,
      Py.lower (Py.strip_ws e) = local +:+ "@" +:+ domain /\
      local <> "" /\ domain <> "" /\
      Forall (fun c => InputValidator.local_char c = true) (chars local) /\
      Forall (fun c => (InputValidator.label_char c
                        || InputValidator.is_dot c) = true) (chars domain).
Proof.
  intros e. unfold InputValidator.validate_email.
  destruct (negb (Py.truthy e)); [discriminate|].
  pose proof (strip_ws_lower_last e) as Hlast.
  destruct (Py.lower (Py.strip_ws e)) as [|c t]; [discriminate|].
  cbn [InputValidator.EMAIL_PATTERN_match].
  intros Hm. apply andb_true_iff in Hm as (Hc & Hm).
  destruct (skip_run_split InputValidator.local_char t) as (run & Ht & Hrun).
  destruct (InputValidator.skip_run InputValidator.local_char t)
    as [|a [|d rest]]; try discriminate.
  apply andb_true_iff in Hm as (Hm & Hdom).
  apply andb_true_iff in Hm as (Hat & Hal).
  assert (a = "@"%char) as ->.
  { apply ord_inj. unfold InputValidator.is_at in Hat.
    now apply N.eqb_eq in Hat. }
  assert (Hd : InputValidator.domain_from 0 true (String d rest) = true).
  { cbn [InputValidator.domain_from].
    now rewrite (label_char_alnum d Hal), Hal. }
  exists (String c run), (String d rest).
  split; [rewrite Ht at 1; reflexivity|].
  split; [discriminate|]. split; [discriminate|].
  split; [constructor; assumption|].
  destruct (domain_from_chars _ _ _ Hd) as [Hall | (s' & Hs & _)];
    [exact Hall|].
  exfalso. apply (Hlast (c :: chars run ++ "@"%char :: chars s')).
  rewrite Ht, Hs. cbn [list_ascii_of_string].
  rewrite chars_app. cbn [list_ascii_of_string].
  rewrite chars_app. cbn [list_ascii_of_string app].
  now rewrite <- List.app_assoc.
Qed.

Lemma validate_email_accepts_only_witness :
  InputValidator.validate_email (Some "  User+Tag@Domain.co.uk ") = true /\
  exists local domain,
    "user+tag@domain.co.uk" = local +:+ "@" +:+ domain /\
    local <> "" /\ domain <> "" /\
    Forall (fun c => InputValidator.local_char c = true) (chars local) /\
    Forall (fun c => (InputValidator.label_char c
                      || InputValidator.is_dot c) = true) (chars domain).
Proof.
  split; [reflexivity|].
  exact (validate_email_accepts_only "  User+Tag@Domain.co.uk " eq_refl).
Defined.
